(** * blacklist-check: the cache-aside blacklist service and its HTTP handler

    A shallow embedding of [internal/service] ([BlacklistService.CheckBlacklist]),
    of the request validation of [internal/api] ([Handler.CheckBlacklist]) and of
    the parts of Go's [unicode/utf8], [encoding/json] and [time] packages these
    two functions rely on, followed by the properties of the specification.

    Go strings are byte strings: they are modelled by [string], whose
    characters are the 256 byte values. *)

From Stdlib Require Import ZArith Ascii String List Lia Bool.
From Stdlib Require QArith.
From stdpp Require Import base option gmap strings list.

Local Open Scope Z_scope.
Set Warnings "-register-all".


(** ** Bytes *)

Module Bytes.

Definition val (c : ascii) : Z := Z.of_N (N_of_ascii c).
Definition of_Z (z : Z) : ascii := ascii_of_N (Z.to_N (z mod 256)).

(** [s[n:]] and [s[:n]] for [n <= len(s)]. *)
Fixpoint drop (n : nat) (s : string) : string :=
  match n, s with
  | S n', String _ r => drop n' r
  | _, _ => s
  end.

Fixpoint take (n : nat) (s : string) : string :=
  match n, s with
  | S n', String c r => String c (take n' r)
  | _, _ => ""
  end.

(** [len(s)] as a Go [int]. *)
Definition len (s : string) : Z := Z.of_nat (String.length s).

End Bytes.

(** ** unicode/utf8 *)

Module utf8.

Definition RuneError : Z := 0xFFFD.
Definition RuneSelf : Z := 0x80.
Definition MaxRune : Z := 0x10FFFF.

Definition locb : Z := 0x80.
Definition hicb : Z := 0xBF.

(** The [first] table together with [acceptRanges]: for a leading byte, the
    length of the sequence and the range accepted for the second byte;
    [None] for a byte that cannot start a multi-byte sequence. *)
Definition first (p0 : Z) : option (nat * Z * Z) :=
  if (0xC2 <=? p0) && (p0 <=? 0xDF) then Some (2%nat, locb, hicb)
  else if p0 =? 0xE0 then Some (3%nat, 0xA0, hicb)
  else if (0xE1 <=? p0) && (p0 <=? 0xEC) then Some (3%nat, locb, hicb)
  else if p0 =? 0xED then Some (3%nat, locb, 0x9F)
  else if (0xEE <=? p0) && (p0 <=? 0xEF) then Some (3%nat, locb, hicb)
  else if p0 =? 0xF0 then Some (4%nat, 0x90, hicb)
  else if (0xF1 <=? p0) && (p0 <=? 0xF3) then Some (4%nat, locb, hicb)
  else if p0 =? 0xF4 then Some (4%nat, locb, 0x8F)
  else None.

Definition is_cont (b : Z) : bool := (locb <=? b) && (b <=? hicb).

(** [utf8.DecodeRune] on a non-empty string: the rune and its width; an
    invalid or short encoding gives [(RuneError, 1)]. *)
Definition DecodeRune (p : string) : Z * nat :=
  match p with
  | EmptyString => (RuneError, 0%nat)
  | String c0 r0 =>
    let p0 := Bytes.val c0 in
    if p0 <? RuneSelf then (p0, 1%nat)
    else match first p0 with
    | None => (RuneError, 1%nat)
    | Some (sz, lo, hi) =>
      match r0 with
      | EmptyString => (RuneError, 1%nat)
      | String c1 r1 =>
        let b1 := Bytes.val c1 in
        if (b1 <? lo) || (hi <? b1) then (RuneError, 1%nat)
        else if (sz <=? 2)%nat then
          (Z.lor (Z.shiftl (Z.land p0 0x1F) 6) (Z.land b1 0x3F), 2%nat)
        else match r1 with
        | EmptyString => (RuneError, 1%nat)
        | String c2 r2 =>
          let b2 := Bytes.val c2 in
          if negb (is_cont b2) then (RuneError, 1%nat)
          else if (sz <=? 3)%nat then
            (Z.lor (Z.lor (Z.shiftl (Z.land p0 0x0F) 12)
                          (Z.shiftl (Z.land b1 0x3F) 6))
                   (Z.land b2 0x3F), 3%nat)
          else match r2 with
          | EmptyString => (RuneError, 1%nat)
          | String c3 _ =>
            let b3 := Bytes.val c3 in
            if negb (is_cont b3) then (RuneError, 1%nat)
            else
              (Z.lor (Z.lor (Z.lor (Z.shiftl (Z.land p0 0x07) 18)
                                   (Z.shiftl (Z.land b1 0x3F) 12))
                            (Z.shiftl (Z.land b2 0x3F) 6))
                     (Z.land b3 0x3F), 4%nat)
          end
        end
      end
    end
  end.

Definition enc3 (r : Z) : string :=
  String (Bytes.of_Z (Z.lor 0xE0 (Z.shiftr r 12)))
    (String (Bytes.of_Z (Z.lor 0x80 (Z.land (Z.shiftr r 6) 0x3F)))
      (String (Bytes.of_Z (Z.lor 0x80 (Z.land r 0x3F))) "")).

(** [utf8.AppendRune] to the empty string: the UTF-8 encoding of a rune;
    surrogates and values out of range are encoded as [RuneError]. *)
Definition EncodeRune (r : Z) : string :=
  if (0 <=? r) && (r <=? 0x7F) then String (Bytes.of_Z r) ""
  else if (0 <=? r) && (r <=? 0x7FF) then
    String (Bytes.of_Z (Z.lor 0xC0 (Z.shiftr r 6)))
      (String (Bytes.of_Z (Z.lor 0x80 (Z.land r 0x3F))) "")
  else if (r <? 0) || (MaxRune <? r) || ((0xD800 <=? r) && (r <=? 0xDFFF)) then
    enc3 RuneError
  else if r <=? 0xFFFF then enc3 r
  else
    String (Bytes.of_Z (Z.lor 0xF0 (Z.shiftr r 18)))
      (String (Bytes.of_Z (Z.lor 0x80 (Z.land (Z.shiftr r 12) 0x3F)))
        (String (Bytes.of_Z (Z.lor 0x80 (Z.land (Z.shiftr r 6) 0x3F)))
          (String (Bytes.of_Z (Z.lor 0x80 (Z.land r 0x3F))) ""))).

(** [utf8.ValidString]: every position decodes to a rune that is not the
    width-1 error. The loop index advances by the width of the rune, so the
    recursion is on a counter that bounds the remaining length. *)
Fixpoint valid_from (fuel : nat) (s : string) : bool :=
  match fuel with
  | O => true
  | S f =>
    match s with
    | EmptyString => true
    | String _ _ =>
      let '(r, size) := DecodeRune s in
      if (r =? RuneError) && (size =? 1)%nat then false
      else valid_from f (Bytes.drop size s)
    end
  end.

Definition ValidString (s : string) : bool := valid_from (String.length s) s.

End utf8.

(** ** encoding/json

    The encoder of strings ([appendString] with HTML escaping, as
    [json.Marshal] uses it), the scanner and [unquote] of the decoder, and a
    parser of JSON values. Characters are tested by their byte values:
    34 is the quotation mark, 92 the backslash. *)

Module json.

Definition quote : ascii := Bytes.of_Z 34.
Definition backslash : ascii := Bytes.of_Z 92.

(** [htmlSafeSet]: the ASCII characters copied as they are. *)
Definition htmlSafeSet (b : Z) : bool :=
  (0x20 <=? b) && (b <? 0x80) &&
  negb ((b =? 34) || (b =? 38) || (b =? 60) || (b =? 62) || (b =? 92)).

(** [hex[n]] for the table 0123456789abcdef. *)
Definition hex (n : Z) : ascii :=
  if n <? 10 then Bytes.of_Z (48 + n) else Bytes.of_Z (87 + n).

(** The escape written for an ASCII byte outside [htmlSafeSet]. *)
Definition escape (c : ascii) : string :=
  let b := Bytes.val c in
  if (b =? 92) || (b =? 34) then String backslash (String c "")
  else if b =? 8 then String backslash "b"
  else if b =? 12 then String backslash "f"
  else if b =? 10 then String backslash "n"
  else if b =? 13 then String backslash "r"
  else if b =? 9 then String backslash "t"
  else String backslash
         ("u00" +:+ String (hex (Z.shiftr b 4)) (String (hex (Z.land b 0xF)) "")).

(** The loop of [appendString]; [i] advances by one byte or by the width of
    the decoded rune. Invalid UTF-8 is replaced by the escape of U+FFFD. *)
Fixpoint appendString_from (fuel : nat) (src : string) : string :=
  match src with
  | EmptyString => ""
  | String c r =>
    match fuel with
    | O => ""
    | S f =>
      let b := Bytes.val c in
      if b <? utf8.RuneSelf then
        if htmlSafeSet b then String c (appendString_from f r)
        else escape c +:+ appendString_from f r
      else
        let '(rn, size) := utf8.DecodeRune src in
        if (rn =? utf8.RuneError) && (size =? 1)%nat then
          String backslash "ufffd" +:+ appendString_from f (Bytes.drop size src)
        else if (rn =? 0x2028) || (rn =? 0x2029) then
          String backslash "u202" +:+
            String (hex (Z.land rn 0xF)) (appendString_from f (Bytes.drop size src))
        else
          Bytes.take size src +:+ appendString_from f (Bytes.drop size src)
    end
  end.

Definition appendString_body (src : string) : string :=
  appendString_from (String.length src) src.

Definition appendString (src : string) : string :=
  String quote (appendString_body src +:+ String quote "").

Definition appendBool (b : bool) : string := if b then "true" else "false".

(** *** Decoding *)

Definition isSpace (b : Z) : bool :=
  (b =? 32) || (b =? 9) || (b =? 13) || (b =? 10).

Fixpoint skip_ws (s : string) : string :=
  match s with
  | String c r => if isSpace (Bytes.val c) then skip_ws r else s
  | EmptyString => s
  end.

Definition isHex (b : Z) : bool :=
  ((48 <=? b) && (b <=? 57)) || ((97 <=? b) && (b <=? 102)) ||
  ((65 <=? b) && (b <=? 70)).

Definition isDigit (b : Z) : bool := (48 <=? b) && (b <=? 57).

(** The scanner inside a string literal: [stateInString], [stateInStringEsc]
    and the four [stateInStringEscU...] states. *)
Inductive str_state := InString | InStringEsc | InStringEscU (k : nat).

Definition cons_fst (c : ascii) (p : string * string) : string * string :=
  (String c (fst p), snd p).

(** Scans from just after the opening quotation mark: the raw literal and
    the input after the closing quotation mark. *)
Fixpoint scan_string (st : str_state) (s : string) : option (string * string) :=
  match s with
  | EmptyString => None
  | String c r =>
    let b := Bytes.val c in
    match st with
    | InString =>
      if b =? 34 then Some ("", r)
      else if b =? 92 then cons_fst c <$> scan_string InStringEsc r
      else if b <? 0x20 then None
      else cons_fst c <$> scan_string InString r
    | InStringEsc =>
      if (b =? 98) || (b =? 102) || (b =? 110) || (b =? 114) || (b =? 116) ||
         (b =? 92) || (b =? 47) || (b =? 34)
      then cons_fst c <$> scan_string InString r
      else if b =? 117 then cons_fst c <$> scan_string (InStringEscU 3) r
      else None
    | InStringEscU k =>
      if isHex b then
        cons_fst c <$> scan_string
          (match k with O => InString | S k' => InStringEscU k' end) r
      else None
    end
  end.

Definition unhex (c : ascii) : option Z :=
  let b := Bytes.val c in
  if (48 <=? b) && (b <=? 57) then Some (b - 48)
  else if (97 <=? b) && (b <=? 102) then Some (b - 97 + 10)
  else if (65 <=? b) && (b <=? 70) then Some (b - 65 + 10)
  else None.

(** [getu4]: the rune of a backslash-u escape at the start of [s], or -1. *)
Definition getu4 (s : string) : Z :=
  match s with
  | String c0 (String c1 (String h0 (String h1 (String h2 (String h3 _))))) =>
    if (Bytes.val c0 =? 92) && (Bytes.val c1 =? 117) then
      match unhex h0, unhex h1, unhex h2, unhex h3 with
      | Some d0, Some d1, Some d2, Some d3 => ((d0 * 16 + d1) * 16 + d2) * 16 + d3
      | _, _, _, _ => -1
      end
    else -1
  | _ => -1
  end.

(** [utf16.IsSurrogate] and [utf16.DecodeRune]. *)
Definition IsSurrogate (r : Z) : bool := (0xD800 <=? r) && (r <? 0xE000).

Definition utf16_DecodeRune (r1 r2 : Z) : Z :=
  if (0xD800 <=? r1) && (r1 <? 0xDC00) && (0xDC00 <=? r2) && (r2 <? 0xE000)
  then Z.lor (Z.shiftl (r1 - 0xD800) 10) (r2 - 0xDC00) + 0x10000
  else utf8.RuneError.

(** [unquote] applied to the raw literal between the quotation marks. *)
Fixpoint unquote_from (fuel : nat) (s : string) : option string :=
  match s with
  | EmptyString => Some ""
  | String c r =>
    match fuel with
    | O => None
    | S f =>
      let b := Bytes.val c in
      if b =? 92 then
        match r with
        | EmptyString => None
        | String e r' =>
          let x := Bytes.val e in
          if (x =? 34) || (x =? 92) || (x =? 47) || (x =? 39) then
            String e <$> unquote_from f r'
          else if x =? 98 then String (Bytes.of_Z 8) <$> unquote_from f r'
          else if x =? 102 then String (Bytes.of_Z 12) <$> unquote_from f r'
          else if x =? 110 then String (Bytes.of_Z 10) <$> unquote_from f r'
          else if x =? 114 then String (Bytes.of_Z 13) <$> unquote_from f r'
          else if x =? 116 then String (Bytes.of_Z 9) <$> unquote_from f r'
          else if x =? 117 then
            let rr := getu4 s in
            if rr <? 0 then None
            else
              let rest := Bytes.drop 6 s in
              if IsSurrogate rr then
                let dec := utf16_DecodeRune rr (getu4 rest) in
                if negb (dec =? utf8.RuneError) then
                  String.app (utf8.EncodeRune dec) <$> unquote_from f (Bytes.drop 6 rest)
                else
                  String.app (utf8.EncodeRune utf8.RuneError) <$> unquote_from f rest
              else String.app (utf8.EncodeRune rr) <$> unquote_from f rest
          else None
        end
      else if (b =? 34) || (b <? 0x20) then None
      else if b <? utf8.RuneSelf then String c <$> unquote_from f r
      else
        let '(rr, size) := utf8.DecodeRune s in
        String.app (utf8.EncodeRune rr) <$> unquote_from f (Bytes.drop size s)
    end
  end.

Definition unquote (s : string) : option string :=
  unquote_from (String.length s) s.

(** The scanner inside a number. *)
Inductive num_state := NumNeg | Num0 | Num1 | NumDot | NumDot0 | NumE | NumESign | NumE0.

(** Scans a number from its first character; the input after it. *)
Fixpoint scan_number (st : num_state) (s : string) : option string :=
  match s with
  | EmptyString =>
    match st with Num0 | Num1 | NumDot0 | NumE0 => Some s | _ => None end
  | String c r =>
    let b := Bytes.val c in
    match st with
    | NumNeg =>
      if b =? 48 then scan_number Num0 r
      else if (49 <=? b) && (b <=? 57) then scan_number Num1 r
      else None
    | Num1 =>
      if isDigit b then scan_number Num1 r
      else if b =? 46 then scan_number NumDot r
      else if (b =? 101) || (b =? 69) then scan_number NumE r
      else Some s
    | Num0 =>
      if b =? 46 then scan_number NumDot r
      else if (b =? 101) || (b =? 69) then scan_number NumE r
      else Some s
    | NumDot => if isDigit b then scan_number NumDot0 r else None
    | NumDot0 =>
      if isDigit b then scan_number NumDot0 r
      else if (b =? 101) || (b =? 69) then scan_number NumE r
      else Some s
    | NumE =>
      if (b =? 43) || (b =? 45) then scan_number NumESign r
      else if isDigit b then scan_number NumE0 r
      else None
    | NumESign => if isDigit b then scan_number NumE0 r else None
    | NumE0 => if isDigit b then scan_number NumE0 r else Some s
    end
  end.

(** A decoded JSON value; the digits of a number are not kept, no field of
    the structures decoded here being a number. *)
Inductive value :=
| Null
| Bool (b : bool)
| Number
| Str (s : string)
| Array (l : list value)
| Object (l : list (string * value)).

Definition scan_literal (s : string) : option (string * string) :=
  match scan_string InString s with
  | Some (raw, rest) =>
    match unquote raw with
    | Some str => Some (str, rest)
    | None => None
    end
  | None => None
  end.

(** The value at the start of [s], after white space, and the input left.
    [parse_members] and [parse_elements] read the rest of an object or of an
    array whose opening bracket was consumed. *)
Fixpoint parse_value (fuel : nat) (s : string) : option (value * string) :=
  match fuel with
  | O => None
  | S f =>
    match skip_ws s with
    | EmptyString => None
    | String c r =>
      let b := Bytes.val c in
      if b =? 123 then
        match skip_ws r with
        | EmptyString => None
        | String c' r' =>
          if Bytes.val c' =? 125 then Some (Object [], r')
          else
            match parse_members f r with
            | Some (kvs, rest) => Some (Object kvs, rest)
            | None => None
            end
        end
      else if b =? 91 then
        match skip_ws r with
        | EmptyString => None
        | String c' r' =>
          if Bytes.val c' =? 93 then Some (Array [], r')
          else
            match parse_elements f r with
            | Some (vs, rest) => Some (Array vs, rest)
            | None => None
            end
        end
      else if b =? 34 then
        match scan_literal r with
        | Some (str, rest) => Some (Str str, rest)
        | None => None
        end
      else if b =? 116 then
        match r with
        | String "r" (String "u" (String "e" rest)) => Some (Bool true, rest)
        | _ => None
        end
      else if b =? 102 then
        match r with
        | String "a" (String "l" (String "s" (String "e" rest))) =>
          Some (Bool false, rest)
        | _ => None
        end
      else if b =? 110 then
        match r with
        | String "u" (String "l" (String "l" rest)) => Some (Null, rest)
        | _ => None
        end
      else if b =? 45 then
        match scan_number NumNeg r with
        | Some rest => Some (Number, rest)
        | None => None
        end
      else if isDigit b then
        match scan_number NumNeg (String c r) with
        | Some rest => Some (Number, rest)
        | None => None
        end
      else None
    end
  end
with parse_members (fuel : nat) (s : string) : option (list (string * value) * string) :=
  match fuel with
  | O => None
  | S f =>
    match skip_ws s with
    | EmptyString => None
    | String c r =>
      if Bytes.val c =? 34 then
        match scan_literal r with
        | None => None
        | Some (key, rest) =>
          match skip_ws rest with
          | EmptyString => None
          | String c2 r2 =>
            if Bytes.val c2 =? 58 then
              match parse_value f r2 with
              | None => None
              | Some (v, rest2) =>
                match skip_ws rest2 with
                | EmptyString => None
                | String c3 r3 =>
                  if Bytes.val c3 =? 44 then
                    match parse_members f r3 with
                    | Some (kvs, rest3) => Some ((key, v) :: kvs, rest3)
                    | None => None
                    end
                  else if Bytes.val c3 =? 125 then Some ([(key, v)], r3)
                  else None
                end
              end
            else None
          end
        end
      else None
    end
  end
with parse_elements (fuel : nat) (s : string) : option (list value * string) :=
  match fuel with
  | O => None
  | S f =>
    match parse_value f s with
    | None => None
    | Some (v, rest) =>
      match skip_ws rest with
      | EmptyString => None
      | String c r =>
        if Bytes.val c =? 44 then
          match parse_elements f r with
          | Some (vs, rest') => Some (v :: vs, rest')
          | None => None
          end
        else if Bytes.val c =? 93 then Some ([v], r)
        else None
      end
    end
  end.

(** [checkValid] followed by the decoding of the one value of the input:
    [None] is a syntax error. *)
Definition parse (data : string) : option value :=
  match parse_value (S (String.length data)) data with
  | Some (v, rest) =>
    match skip_ws rest with
    | EmptyString => Some v
    | String _ _ => None
    end
  | None => None
  end.

(** What a string becomes through [appendString] and [unquote]: every byte
    that is not part of a valid UTF-8 sequence is replaced by the encoding
    of U+FFFD, the rest is kept. *)
Fixpoint coerce_from (fuel : nat) (s : string) : string :=
  match s with
  | EmptyString => ""
  | String c r =>
    match fuel with
    | O => ""
    | S f =>
      if Bytes.val c <? utf8.RuneSelf then String c (coerce_from f r)
      else
        let '(rn, size) := utf8.DecodeRune s in
        utf8.EncodeRune rn +:+ coerce_from f (Bytes.drop size s)
    end
  end.

Definition coerce (s : string) : string := coerce_from (String.length s) s.

(** [foldRune] on the runes that matter for names in ASCII: the long s and
    the Kelvin sign fold to S and K; every other rune above ASCII folds to a
    rune above ASCII. *)
Definition foldRune (r : Z) : Z :=
  if r =? 0x17F then 83 else if r =? 0x212A then 75 else r.

(** [foldName]: ASCII letters in upper case, other runes folded. *)
Fixpoint foldName_from (fuel : nat) (s : string) : string :=
  match s with
  | EmptyString => ""
  | String c r =>
    match fuel with
    | O => ""
    | S f =>
      let b := Bytes.val c in
      if b <? utf8.RuneSelf then
        String (if (97 <=? b) && (b <=? 122) then Bytes.of_Z (b - 32) else c)
               (foldName_from f r)
      else
        let '(rn, size) := utf8.DecodeRune s in
        utf8.EncodeRune (foldRune rn) +:+ foldName_from f (Bytes.drop size s)
    end
  end.

Definition foldName (s : string) : string := foldName_from (String.length s) s.

(** The field a key of an object selects: the field of that exact name,
    otherwise the first field with the same folded name. *)
Definition lookup_field {F : Type} (fields : list (string * F)) (key : string) : option F :=
  match List.find (fun nf => String.eqb (fst nf) key) fields with
  | Some nf => Some (snd nf)
  | None =>
    match List.find (fun nf => String.eqb (foldName (fst nf)) (foldName key)) fields with
    | Some nf => Some (snd nf)
    | None => None
    end
  end.

End json.

(** ** time *)

Module time.

(** A [time.Time]: an instant, as seconds and nanoseconds since January 1 of
    year 1, 00:00:00 UTC, and a location, here a fixed offset east of UTC in
    seconds. The zero value is that instant in UTC. *)
Record Time := mkTime { sec : Z; nsec : Z; offset : Z }.

Definition zero : Time := mkTime 0 0 0.

(** [t.Equal(u)]: the same instant, whatever the locations. *)
Definition Equal (t u : Time) : bool := (sec t =? sec u) && (nsec t =? nsec u).

(** A [time.Duration] counts nanoseconds. *)
Definition Nanosecond : Z := 1.
Definition Second : Z := 1000000000 * Nanosecond.
Definition Hour : Z := 3600 * Second.

(** Year, month and day of the day number [days], counted from January 1 of
    year 1 in the proleptic Gregorian calendar. *)
Definition civil (days : Z) : Z * Z * Z :=
  let z := days + 306 in
  let era := z / 146097 in
  let doe := z - era * 146097 in
  let yoe := (doe - doe / 1460 + doe / 36524 - doe / 146096) / 365 in
  let doy := doe - (365 * yoe + yoe / 4 - yoe / 100) in
  let mp := (5 * doy + 2) / 153 in
  let d := doy - (153 * mp + 2) / 5 + 1 in
  let m := if mp <? 10 then mp + 3 else mp - 9 in
  let y := yoe + era * 400 + (if m <=? 2 then 1 else 0) in
  (y, m, d).

(** [t.Date()]: the date in the location of [t]. *)
Definition Date (t : Time) : Z * Z * Z := civil ((sec t + offset t) / 86400).

Fixpoint digits_from (fuel : nat) (u : Z) (acc : string) : string :=
  match fuel with
  | O => acc
  | S f =>
    let acc' := String (Bytes.of_Z (48 + u mod 10)) acc in
    if u <? 10 then acc' else digits_from f (u / 10) acc'
  end.

Definition digits (u : Z) : string := digits_from (S (Z.to_nat (Z.log2 u))) u "".

Fixpoint zeros (n : nat) : string :=
  match n with O => "" | S n' => String "0" (zeros n') end.

(** [appendInt]: a minus sign for a negative number, then the decimal digits
    padded with zeros to [width]. *)
Definition appendInt (x : Z) (width : nat) : string :=
  let u := Z.abs x in
  let ds := digits u in
  (if x <? 0 then "-" else "") +:+ zeros (width - String.length ds) +:+ ds.

(** [t.Format] for the layout 2006-01-02. *)
Definition Format_2006_01_02 (t : Time) : string :=
  let '(y, m, d) := Date t in
  appendInt y 4 +:+ "-" +:+ appendInt m 2 +:+ "-" +:+ appendInt d 2.

End time.

(** ** Errors and results *)

(** A Go [error]: one made by [errors.New] (or by a library), or one made by
    [fmt.Errorf] with the verb percent-w, which keeps the error it wraps. *)
Inductive error :=
| errors_New (msg : string)
| wrapError (msg : string) (err : error).

(** [err.Error()]. *)
Definition Error (e : error) : string :=
  match e with errors_New msg => msg | wrapError msg _ => msg end.

(** [errors.Unwrap]. *)
Definition Unwrap (e : error) : option error :=
  match e with errors_New _ => None | wrapError _ err => Some err end.

(** [fmt.Errorf(prefix + percent-w, err)]. *)
Definition Errorf_w (prefix : string) (err : error) : error :=
  wrapError (prefix +:+ Error err) err.

(** A pair (value, error) of which one is nil. *)
Inductive Result (A : Type) :=
| Ok (a : A)
| Err (e : error).
Arguments Ok {A} a.
Arguments Err {A} e.

(** ** go-redis *)

Module redis.

(** The Redis server as the client sees it: the entries with the instant
    they expire at, the clock of the server (nanoseconds), and whether the
    connection fails a read or a write. *)
Record Client := mkClient {
  data : gmap string (string * Z);
  now : Z;
  get_err : option error;
  set_err : option error
}.

(** [redis.Nil], the error of a key that is absent. *)
Definition Nil : error := errors_New "redis: nil".

(** [c.Get(ctx, key).Result()]. *)
Definition Get (c : Client) (key : string) : Result string :=
  match get_err c with
  | Some e => Err e
  | None =>
    match data c !! key with
    | Some (v, expiry) => if now c <? expiry then Ok v else Err Nil
    | None => Err Nil
    end
  end.

(** [c.Set(ctx, key, value, expiration).Err()] and the server after it
    ([Set] is a keyword, hence the underscore). *)
Definition Set_ (c : Client) (key value : string) (expiration : Z) : option error * Client :=
  match set_err c with
  | Some e => (Some e, c)
  | None =>
    (None, mkClient (<[key := (value, now c + expiration)]> (data c))
                    (now c) (get_err c) (set_err c))
  end.

(** Time passing on the server. *)
Definition elapse (d : Z) (c : Client) : Client :=
  mkClient (data c) (now c + d) (get_err c) (set_err c).

End redis.

(** ** internal/store *)

Module store.

(** [BlacklistRecord]. The column [similarity] is a float64 the service
    never reads; it is kept as the rational it denotes. *)
Record BlacklistRecord := mkRecord {
  ID : Z;
  NIK : string;
  Name : string;
  BirthPlace : string;
  BirthDate : time.Time;
  Reason : string;
  CreatedAt : time.Time;
  UpdatedAt : time.Time;
  Similarity : QArith_base.Q
}.

(** The interface [BlacklistStore]; the context argument is left out. A nil
    record is [None], a nil pointer argument is [None]. The store is read
    only: the same call gives the same answer. *)
Record BlacklistStore := mkStore {
  GetByNIK : string -> Result (option BlacklistRecord);
  GetByFuzzyMatch : string -> option string -> option time.Time -> Result (list BlacklistRecord);
  SearchByName : string -> Result (list BlacklistRecord);
  Ping : option error
}.

End store.

(** ** What a call does to the outside: the effects monad *)

Inductive Event :=
| RedisGet (key : string)
| RedisSet (key value : string) (expiration : Z)
| StoreGetByNIK (nik : string)
| StoreGetByFuzzyMatch (name : string) (birthPlace : option string) (birthDate : option time.Time)
| LogInfo (msg : string)
| LogError (msg : string)
| MetricInc (match_type result : string).

(** A computation reads and updates the Redis server, emits events in order
    and ends with a value or with an error. *)
Definition M (A : Type) : Type := redis.Client -> Result A * redis.Client * list Event.

Definition ret {A} (a : A) : M A := fun c => (Ok a, c, []).

Definition fail {A} (e : error) : M A := fun c => (Err e, c, []).

Definition bind {A B} (m : M A) (f : A -> M B) : M B :=
  fun c =>
    match m c with
    | (Ok a, c1, ev1) =>
      match f a c1 with
      | (r, c2, ev2) => (r, c2, ev1 ++ ev2)
      end
    | (Err e, c1, ev1) => (Err e, c1, ev1)
    end.

Notation "x <- m ;; k" := (bind m (fun x => k))
  (at level 100, m at level 99, k at level 100, right associativity).
Notation "m ;;; k" := (bind m (fun _ => k))
  (at level 100, k at level 100, right associativity).

Definition emit (e : Event) : M unit := fun c => (Ok tt, c, [e]).

(** A call whose error the caller looks at: [v, err := f()]. *)
Definition attempt {A} (m : M A) : M (Result A) :=
  fun c => match m c with (r, c1, ev) => (Ok r, c1, ev) end.

Definition result_of {A} (x : Result A * redis.Client * list Event) : Result A := fst (fst x).
Definition client_of {A} (x : Result A * redis.Client * list Event) : redis.Client := snd (fst x).
Definition events_of {A} (x : Result A * redis.Client * list Event) : list Event := snd x.

(** The calls with their events. *)
Definition redis_Get (key : string) : M (Result string) :=
  fun c => (Ok (redis.Get c key), c, [RedisGet key]).

Definition redis_Set (key value : string) (expiration : Z) : M (option error) :=
  fun c =>
    match redis.Set_ c key value expiration with
    | (err, c') => (Ok err, c', [RedisSet key value expiration])
    end.

Definition call_GetByNIK (st : store.BlacklistStore) (nik : string)
  : M (Result (option store.BlacklistRecord)) :=
  fun c => (Ok (store.GetByNIK st nik), c, [StoreGetByNIK nik]).

Definition call_GetByFuzzyMatch (st : store.BlacklistStore) (name : string)
    (birthPlace : option string) (birthDate : option time.Time)
  : M (Result (list store.BlacklistRecord)) :=
  fun c => (Ok (store.GetByFuzzyMatch st name birthPlace birthDate), c,
            [StoreGetByFuzzyMatch name birthPlace birthDate]).

(** ** internal/service *)

Module service.

(** [BlacklistService]; the fields [db] and [log] are handles, the Redis
    client is the state of [M]. *)
Record BlacklistService := mkService {
  store : store.BlacklistStore
}.

Record CheckRequest := mkRequest {
  Name : string;
  NIK : string;
  BirthPlace : string;
  BirthDate : time.Time
}.

Record CheckResult := mkResult {
  Blacklisted : bool;
  Details : string;
  MatchType : string
}.

(** The zero value of [var result CheckResult]. *)
Definition zero : CheckResult := mkResult false "" "".

(** [json.Marshal(result)]: the fields by their names, in order. It has no
    error for this structure. *)
Definition Marshal (r : CheckResult) : Result string :=
  Ok ("{" +:+ json.appendString "Blacklisted" +:+ ":" +:+ json.appendBool (Blacklisted r) +:+
      "," +:+ json.appendString "Details" +:+ ":" +:+ json.appendString (Details r) +:+
      "," +:+ json.appendString "MatchType" +:+ ":" +:+ json.appendString (MatchType r) +:+
      "}").

Inductive field := FBlacklisted | FDetails | FMatchType.

Definition fields : list (string * field) :=
  [("Blacklisted", FBlacklisted); ("Details", FDetails); ("MatchType", FMatchType)].

(** One key of the object decoded into the structure: a field gets the
    value, null leaves it, a value of another type is an
    [UnmarshalTypeError] (the flag), a key that is no field is skipped. *)
Definition store_member (acc : CheckResult * bool) (kv : string * json.value)
  : CheckResult * bool :=
  let '(r, bad) := acc in
  match json.lookup_field fields (fst kv), snd kv with
  | None, _ => (r, bad)
  | Some _, json.Null => (r, bad)
  | Some FBlacklisted, json.Bool b => (mkResult b (Details r) (MatchType r), bad)
  | Some FDetails, json.Str s => (mkResult (Blacklisted r) s (MatchType r), bad)
  | Some FMatchType, json.Str s => (mkResult (Blacklisted r) (Details r) s, bad)
  | Some _, _ => (r, true)
  end.

(** [json.Unmarshal(data, &result)] for a zero [result]: a syntax error or
    a type error gives an error; null leaves the zero value. *)
Definition Unmarshal (data : string) : Result CheckResult :=
  match json.parse data with
  | None => Err (errors_New "json: syntax error")
  | Some json.Null => Ok zero
  | Some (json.Object kvs) =>
    match fold_left store_member kvs (zero, false) with
    | (r, false) => Ok r
    | (_, true) => Err (errors_New "json: cannot unmarshal value into Go struct field")
    end
  | Some _ => Err (errors_New "json: cannot unmarshal value into Go value of type service.CheckResult")
  end.

(** The key of the cache entry of a request. *)
Definition cacheKey (req : CheckRequest) : string :=
  if negb (String.eqb (NIK req) "") then "blacklist:nik:" +:+ NIK req
  else "blacklist:name:" +:+ Name req +:+ ":" +:+ BirthPlace req +:+ ":" +:+
       time.Format_2006_01_02 (BirthDate req).

(** The tests of the two loops over the records (lines 271 and 289). *)
Definition full_match (req : CheckRequest) (record : store.BlacklistRecord) : bool :=
  String.eqb (store.BirthPlace record) (BirthPlace req) &&
  time.Equal (store.BirthDate record) (BirthDate req).

Definition date_match (req : CheckRequest) (record : store.BlacklistRecord) : bool :=
  time.Equal (store.BirthDate record) (BirthDate req).

(** The first loop over the records: the first record with the birth place
    and the birth date of the request sets the result and breaks. *)
Fixpoint range_full_match (req : CheckRequest) (records : list store.BlacklistRecord)
    (result : CheckResult) : M CheckResult :=
  match records with
  | [] => ret result
  | record :: rest =>
    if full_match req record then
      emit (LogInfo "Found blacklist record by fuzzy full match") ;;;
      ret (mkResult true (store.Reason record) "fuzzy_full_match")
    else range_full_match req rest result
  end.

(** The second loop: the first record with the birth date of the request. *)
Fixpoint range_date_match (req : CheckRequest) (records : list store.BlacklistRecord)
    (result : CheckResult) : M CheckResult :=
  match records with
  | [] => ret result
  | record :: rest =>
    if date_match req record then
      emit (LogInfo "Found blacklist record by fuzzy date match") ;;;
      ret (mkResult true (store.Reason record) "fuzzy_date_match")
    else range_date_match req rest result
  end.

(** [CheckBlacklist], from the declaration of [result] to the last tier
    (lines 240 to 315): the decision on a cache miss. *)
Definition resolve (s : BlacklistService) (req : CheckRequest) : M CheckResult :=
  let result := zero in
  (* First try exact NIK match if provided *)
  result <- (if negb (String.eqb (NIK req) "") then
               got <- call_GetByNIK (store s) (NIK req) ;;
               match got with
               | Err err => fail (Errorf_w "error checking NIK: " err)
               | Ok (Some record) =>
                 emit (LogInfo "Found blacklist record by NIK") ;;;
                 ret (mkResult true (store.Reason record) "exact_nik")
               | Ok None => ret result
               end
             else ret result) ;;
  (* If no NIK match, try fuzzy matching with birth place and birth date *)
  if negb (Blacklisted result) then
    got <- call_GetByFuzzyMatch (store s) (Name req)
             (Some (BirthPlace req)) (Some (BirthDate req)) ;;
    match got with
    | Err err => fail (Errorf_w "error searching by fuzzy match: " err)
    | Ok records =>
      result <- (if (0 <? Z.of_nat (length records)) then
                   result <- range_full_match req records result ;;
                   (* If no full match found, try partial match with birth date only *)
                   if negb (Blacklisted result)
                   then range_date_match req records result
                   else ret result
                 else ret result) ;;
      (* If still no match found *)
      if negb (Blacklisted result) then
        emit (LogInfo "No blacklist record found") ;;;
        ret (mkResult false "" "no_match")
      else ret result
    end
  else ret result.

(** [CheckBlacklist], the write to the cache (lines 317 to 328): a failure
    is logged and goes no further. *)
Definition cacheResult (cacheKey : string) (result : CheckResult) : M unit :=
  match Marshal result with
  | Err _ => emit (LogError "Error marshaling result for cache")
  | Ok resultJSON =>
    err <- redis_Set cacheKey resultJSON (24 * time.Hour) ;;
    match err with
    | Some _ => emit (LogError "Error caching result")
    | None => ret tt
    end
  end.

(** [CheckBlacklist]. *)
Definition CheckBlacklist (s : BlacklistService) (req : CheckRequest) : M CheckResult :=
  (* Generate cache key based on request type *)
  let cacheKey := cacheKey req in
  (* Try to get from cache first *)
  cached <- redis_Get cacheKey ;;
  hit <- match cached with
         | Ok cachedResult =>
           match Unmarshal cachedResult with
           | Ok result =>
             emit (LogInfo "Cache hit for blacklist check") ;;; ret (Some result)
           | Err _ => ret None
           end
         | Err _ => ret None
         end ;;
  match hit with
  | Some result => ret result
  | None =>
    (* If not in cache, check database *)
    result <- resolve s req ;;
    (* Cache the result *)
    cacheResult cacheKey result ;;;
    ret result
  end.

End service.

(** ** internal/api *)

Module api.

(** [nikRegex], a caret, backslash-d sixteen times, a dollar: in Go's syntax
    the digit class is ASCII and, the flag m being off, the dollar is the end
    of the text. The text matches when it is sixteen ASCII digits. *)
Fixpoint digits_exactly (n : nat) (s : string) : bool :=
  match n, s with
  | O, EmptyString => true
  | S n', String c r => json.isDigit (Bytes.val c) && digits_exactly n' r
  | _, _ => false
  end.

Definition nikRegex_MatchString (s : string) : bool := digits_exactly 16 s.

Record Handler := mkHandler {
  service : service.BlacklistService
}.

(** The body of a request; a nil pointer is [None]. *)
Record checkRequest := mkCheckRequest {
  Name : string;
  NIK : option string;
  BirthPlace : option string;
  BirthDate : option time.Time
}.

Record checkResponse := mkCheckResponse {
  Blacklisted : bool;
  Details : string;
  MatchType : string
}.

(** What the handler writes: the status and the body. *)
Record Response := mkResponse {
  status : Z;
  contentType : string;
  body : string
}.

Definition StatusOK : Z := 200.
Definition StatusBadRequest : Z := 400.
Definition StatusInternalServerError : Z := 500.

(** [http.Error(w, msg, code)]. *)
Definition http_Error (msg : string) (code : Z) : Response :=
  mkResponse code "text/plain; charset=utf-8" (msg +:+ String (Bytes.of_Z 10) "").

(** [json.NewEncoder(w).Encode] of a [checkResponse]: the names of the tags,
    [details] left out when empty, and a newline. *)
Definition Encode (r : checkResponse) : string :=
  "{" +:+ json.appendString "blacklisted" +:+ ":" +:+ json.appendBool (Blacklisted r) +:+
  (if String.eqb (Details r) "" then ""
   else "," +:+ json.appendString "details" +:+ ":" +:+ json.appendString (Details r)) +:+
  "," +:+ json.appendString "match_type" +:+ ":" +:+ json.appendString (MatchType r) +:+
  "}" +:+ String (Bytes.of_Z 10) "".

(** The request handed to the service (lines 84 to 96): a field that is
    absent keeps the zero value of its type. *)
Definition serviceReq_of (req : checkRequest) : service.CheckRequest :=
  let serviceReq := service.mkRequest (Name req) "" "" time.zero in
  let serviceReq :=
    match NIK req with
    | Some nik => service.mkRequest (service.Name serviceReq) nik
                    (service.BirthPlace serviceReq) (service.BirthDate serviceReq)
    | None => serviceReq
    end in
  let serviceReq :=
    match BirthPlace req with
    | Some bp => service.mkRequest (service.Name serviceReq) (service.NIK serviceReq)
                   bp (service.BirthDate serviceReq)
    | None => serviceReq
    end in
  match BirthDate req with
  | Some bd => service.mkRequest (service.Name serviceReq) (service.NIK serviceReq)
                 (service.BirthPlace serviceReq) bd
  | None => serviceReq
  end.

(** The end of the handler, once the service has answered. *)
Definition respond (res : Result service.CheckResult) : M Response :=
  match res with
  | Err _ =>
    emit (LogError "Error checking blacklist") ;;;
    ret (http_Error "Internal server error" StatusInternalServerError)
  | Ok result =>
    (* Record metrics *)
    emit (MetricInc (service.MatchType result)
                    (json.appendBool (service.Blacklisted result))) ;;;
    (* Return response *)
    ret (mkResponse StatusOK "application/json"
           (Encode (mkCheckResponse (service.Blacklisted result)
                      (service.Details result) (service.MatchType result))))
  end.

(** [Handler.CheckBlacklist]; [decoded] is what
    [json.NewDecoder(r.Body).Decode(&req)] gives: an error or the request. *)
Definition CheckBlacklist (h : Handler) (decoded : Result checkRequest) : M Response :=
  match decoded with
  | Err _ =>
    emit (LogError "Error decoding request body") ;;;
    ret (http_Error "Invalid request body" StatusBadRequest)
  | Ok req =>
    (* Validate name *)
    if Bytes.len (Name req) <? 3 then
      emit (LogError "Name too short") ;;;
      ret (http_Error "Name must be at least 3 characters long" StatusBadRequest)
    (* Validate NIK if provided *)
    else if match NIK req with
            | Some nik => negb (nikRegex_MatchString nik)
            | None => false
            end
    then
      emit (LogError "Invalid NIK format") ;;;
      ret (http_Error "NIK must be a 16-digit number" StatusBadRequest)
    else
      (* Create service request *)
      let serviceReq := serviceReq_of req in
      (* Check blacklist *)
      res <- attempt (service.CheckBlacklist (service h) serviceReq) ;;
      respond res
  end.

End api.

(** ** database/sql and sqlx, as the store uses them *)

Module sql.

(** [sql.ErrNoRows]. *)
Definition ErrNoRows : error := errors_New "sql: no rows in result set".

End sql.

(** [err == target] for two errors. Go compares the identities of the two
    values; an error is identified here by its messages. *)
Fixpoint error_eqb (e1 e2 : error) : bool :=
  match e1, e2 with
  | errors_New m1, errors_New m2 => String.eqb m1 m2
  | wrapError m1 e1', wrapError m2 e2' => String.eqb m1 m2 && error_eqb e1' e2'
  | _, _ => false
  end.

Module sqlx.

(** The statements of [internal/store] with their arguments, in the order
    of the source: the lookup by NIK (where nik = $1), then the four
    searches of [GetByFuzzyMatch], all of them with similarity(name, $1)
    above the threshold, ordered by similarity descending, limit 5:
    with birth_date = $2 and the similarity of birth_place above the
    threshold; with birth_date = $2; with the similarity of birth_place
    above the threshold; with the name only. [SearchByName] runs the text of
    the last one. *)
Inductive Query :=
| SelectByNIK (nik : string)
| SelectFull (name : string) (birthDate : time.Time) (birthPlace : string)
    (minSimilarity : QArith_base.Q)
| SelectByDate (name : string) (birthDate : time.Time) (minSimilarity : QArith_base.Q)
| SelectByPlace (name : string) (birthPlace : string) (minSimilarity : QArith_base.Q)
| SelectByName (name : string) (minSimilarity : QArith_base.Q).

(** The database behind [*sqlx.DB]: what [GetContext] scans into one
    record ([sql.ErrNoRows] when there is no row), what [SelectContext]
    scans into a slice, and the answer to a ping. *)
Record DB := mkDB {
  GetContext : Query -> Result store.BlacklistRecord;
  SelectContext : Query -> Result (list store.BlacklistRecord);
  PingContext : option error
}.

End sqlx.

(** ** internal/store: [blacklistStore], the store over the database *)

Module blacklistStore.

(** [const minSimilarity = 0.3]. *)
Definition minSimilarity : QArith_base.Q := QArith_base.Qmake 3 10.

(** [GetByNIK] (lines 43 to 57). *)
Definition GetByNIK (db : sqlx.DB) (nik : string) : Result (option store.BlacklistRecord) :=
  match sqlx.GetContext db (sqlx.SelectByNIK nik) with
  | Err err =>
    if error_eqb err sql.ErrNoRows then Ok None
    else Err err
  | Ok record => Ok (Some record)
  end.

(** [GetByFuzzyMatch] (lines 60 to 138). *)
Definition GetByFuzzyMatch (db : sqlx.DB) (name : string) (birthPlace : option string)
    (birthDate : option time.Time) : Result (list store.BlacklistRecord) :=
  let got :=
    match birthDate, birthPlace with
    | Some bd, Some bp =>
      (* Full match with name similarity, exact birth date, and birth place similarity *)
      sqlx.SelectContext db (sqlx.SelectFull name bd bp minSimilarity)
    | Some bd, None =>
      (* Match with name similarity and exact birth date *)
      sqlx.SelectContext db (sqlx.SelectByDate name bd minSimilarity)
    | None, Some bp =>
      (* Match with name and birth place similarity *)
      sqlx.SelectContext db (sqlx.SelectByPlace name bp minSimilarity)
    | None, None =>
      (* Name-only match with similarity *)
      sqlx.SelectContext db (sqlx.SelectByName name minSimilarity)
    end in
  match got with
  | Err err => Err err
  | Ok records => Ok records
  end.

(** [SearchByName] (lines 141 to 162). *)
Definition SearchByName (db : sqlx.DB) (name : string) : Result (list store.BlacklistRecord) :=
  match sqlx.SelectContext db (sqlx.SelectByName name minSimilarity) with
  | Err err => Err err
  | Ok records => Ok records
  end.

(** [Ping]. *)
Definition Ping (db : sqlx.DB) : option error := sqlx.PingContext db.

End blacklistStore.

(** [store.NewBlacklistStore]: the implementation behind the interface. *)
Definition NewBlacklistStore (db : sqlx.DB) : store.BlacklistStore :=
  store.mkStore (blacklistStore.GetByNIK db) (blacklistStore.GetByFuzzyMatch db)
    (blacklistStore.SearchByName db) (blacklistStore.Ping db).

(** [service.NewBlacklistService] and [api.NewHandler]; the handles to the
    database, to Redis and to the logger are left out as in
    [BlacklistService]. *)
Definition NewBlacklistService (st : store.BlacklistStore) : service.BlacklistService :=
  service.mkService st.

Definition NewHandler (svc : service.BlacklistService) : api.Handler :=
  api.mkHandler svc.

(** The handler as [main] builds it from the database (the providers of
    the container, lines 103 to 110 of the main package). *)
Definition wire (db : sqlx.DB) : api.Handler :=
  NewHandler (NewBlacklistService (NewBlacklistStore db)).

(** * Vocabulary of the properties *)

(** ** The cache-aside coordinator and the decision on a miss *)

(** What the read of the cache gives [CheckBlacklist]: the cached result
    when the read succeeds and the payload decodes, nothing otherwise. *)
Definition cache_lookup (c : redis.Client) (key : string) : option service.CheckResult :=
  match redis.Get c key with
  | Ok payload =>
    match service.Unmarshal payload with
    | Ok result => Some result
    | Err _ => None
    end
  | Err _ => None
  end.

(** The calls to the two providers among the events of a run. *)
Definition is_exact_call (e : Event) : bool :=
  match e with StoreGetByNIK _ => true | _ => false end.

Definition is_fuzzy_call (e : Event) : bool :=
  match e with StoreGetByFuzzyMatch _ _ _ => true | _ => false end.

Definition is_cache_write (e : Event) : bool :=
  match e with RedisSet _ _ _ => true | _ => false end.

Definition is_service_event (e : Event) : bool :=
  match e with
  | RedisGet _ | RedisSet _ _ _ | StoreGetByNIK _ | StoreGetByFuzzyMatch _ _ _ => true
  | _ => false
  end.

Definition none_of (p : Event -> bool) (ev : list Event) : Prop :=
  forallb (fun e => negb (p e)) ev = true.

(** The four outcomes of the decision. *)
Definition exact (record : store.BlacklistRecord) : service.CheckResult :=
  service.mkResult true (store.Reason record) "exact_nik".
Definition fuzzy_full (record : store.BlacklistRecord) : service.CheckResult :=
  service.mkResult true (store.Reason record) "fuzzy_full_match".
Definition fuzzy_date (record : store.BlacklistRecord) : service.CheckResult :=
  service.mkResult true (store.Reason record) "fuzzy_date_match".
Definition no_match : service.CheckResult :=
  service.mkResult false "" "no_match".

(** The outcome of the fuzzy tiers on a list of candidates. *)
Definition fuzzy_outcome (req : service.CheckRequest)
    (records : list store.BlacklistRecord) : service.CheckResult :=
  match List.find (service.full_match req) records with
  | Some cand => fuzzy_full cand
  | None =>
    match List.find (service.date_match req) records with
    | Some cand => fuzzy_date cand
    | None => no_match
    end
  end.

Definition fuzzy_log (req : service.CheckRequest)
    (records : list store.BlacklistRecord) : Event :=
  match List.find (service.full_match req) records with
  | Some _ => LogInfo "Found blacklist record by fuzzy full match"
  | None =>
    match List.find (service.date_match req) records with
    | Some _ => LogInfo "Found blacklist record by fuzzy date match"
    | None => LogInfo "No blacklist record found"
    end
  end.

(** The fuzzy tiers of [resolve] as one step: the call, then the outcome
    and its log line, or the wrapped error. *)
Definition fuzzy_run (s : service.BlacklistService) (req : service.CheckRequest)
    (c : redis.Client) : Result service.CheckResult * redis.Client * list Event :=
  let call := StoreGetByFuzzyMatch (service.Name req) (Some (service.BirthPlace req))
                (Some (service.BirthDate req)) in
  match store.GetByFuzzyMatch (service.store s) (service.Name req)
          (Some (service.BirthPlace req)) (Some (service.BirthDate req)) with
  | Err err => (Err (Errorf_w "error searching by fuzzy match: " err), c, [call])
  | Ok records => (Ok (fuzzy_outcome req records), c, [call; fuzzy_log req records])
  end.

(** The payload [cacheResult] writes: [Marshal] has no error. *)
Definition payload_of (r : service.CheckResult) : string :=
  match service.Marshal r with Ok p => p | Err _ => "" end.

(** The Redis server with the connection failing, or not, on a write. *)
Definition with_set_err (e : option error) (c : redis.Client) : redis.Client :=
  redis.mkClient (redis.data c) (redis.now c) (redis.get_err c) e.

(** A cache that works: no read and no write fails. *)
Definition functioning (c : redis.Client) : Prop :=
  redis.get_err c = None /\ redis.set_err c = None.

(** When the handler turns a request away. *)
Definition rejected (decoded : Result api.checkRequest) : Prop :=
  match decoded with
  | Err _ => True
  | Ok req =>
    Bytes.len (api.Name req) < 3 \/
    exists nik, api.NIK req = Some nik /\ api.nikRegex_MatchString nik = false
  end.

(** The result read back from the payload [Marshal] wrote. *)
Definition coerced (r : service.CheckResult) : service.CheckResult :=
  service.mkResult (service.Blacklisted r) (json.coerce (service.Details r))
    (json.coerce (service.MatchType r)).

(** The invariants of an outcome. *)
Definition well_formed (r : service.CheckResult) : Prop :=
  (service.MatchType r = "no_match" <-> service.Blacklisted r = false) /\
  (service.Blacklisted r = false -> service.Details r = "") /\
  (service.MatchType r = "exact_nik" \/ service.MatchType r = "fuzzy_full_match" \/
   service.MatchType r = "fuzzy_date_match" -> service.Blacklisted r = true).

(** A cache all of whose readable entries are well formed. *)
Definition cache_sound (c : redis.Client) : Prop :=
  forall key r, cache_lookup c key = Some r -> well_formed r.

(** ** Vocabulary of the proofs about strings *)

(** Every byte is above ASCII. *)
Fixpoint high (s : string) : Prop :=
  match s with
  | EmptyString => True
  | String c r => 0x80 <= Bytes.val c /\ high r
  end.

(** What [utf8.DecodeRune] finds at a byte above ASCII: an invalid byte, or
    a sequence [pre] of two to four bytes that encodes a rune. *)
Inductive decoded (s : string) : Prop :=
| decoded_invalid c r :
    s = String c r -> utf8.DecodeRune s = (utf8.RuneError, 1%nat) -> decoded s
| decoded_valid pre rest rn :
    s = pre +:+ rest ->
    (2 <= String.length pre <= 4)%nat ->
    (forall rest', utf8.DecodeRune (pre +:+ rest') = (rn, String.length pre)) ->
    0x80 <= rn ->
    utf8.EncodeRune rn = pre ->
    high pre ->
    decoded s.

Definition prepend (p : string) (x : string * string) : string * string :=
  (p +:+ fst x, snd x).

(** One step of [appendString_from] on a non-empty source [s]: [out] is
    written, [rest] is left of the source, and the decoder reads [dec] back
    from [out]. *)
Inductive chunk (s : string) (out : string) (rest : string) (dec : string) : Prop :=
| mk_chunk :
    (forall f, json.appendString_from (S f) s = out +:+ json.appendString_from f rest) ->
    (forall f, json.coerce_from (S f) s = dec +:+ json.coerce_from f rest) ->
    (forall X, json.scan_string json.InString (out +:+ X) =
               prepend out <$> json.scan_string json.InString X) ->
    (forall f X, json.unquote_from (S f) (out +:+ X) =
                 String.app dec <$> json.unquote_from f X) ->
    (String.length rest < String.length s <= String.length out + String.length rest)%nat ->
    (forall f, utf8.valid_from (S f) s = true ->
               dec +:+ rest = s /\ utf8.valid_from f rest = true) ->
    chunk s out rest dec.

(** ** Scenarios: the records, stores and requests of the examples *)

Module Scenario.

Definition date_1990_01_01 : time.Time := time.mkTime 62766748800 0 0.

Definition court_order : store.BlacklistRecord :=
  store.mkRecord 1 "1234567890123456" "John Doe" "Jakarta" date_1990_01_01
    "court order" time.zero time.zero (QArith_base.Qmake 4 5).

Definition fraud : store.BlacklistRecord :=
  store.mkRecord 2 "6543210987654321" "Jon Doe" "Bandung" date_1990_01_01
    "fraud" time.zero time.zero (QArith_base.Qmake 3 5).

(** A record whose birth date is the zero time. *)
Definition undated : store.BlacklistRecord :=
  store.mkRecord 3 "1111111111111111" "John Doe" "Medan" time.zero
    "sanctions" time.zero time.zero (QArith_base.Qmake 9 10).

(** A record whose reason is the single byte 255, which is not UTF-8. *)
Definition garbled : store.BlacklistRecord :=
  store.mkRecord 4 "2222222222222222" "John Doe" "Jakarta" date_1990_01_01
    (String (Bytes.of_Z 255) "") time.zero time.zero (QArith_base.Qmake 4 5).

(** A store that finds [court_order] by its NIK and answers every fuzzy
    search with [candidates]. *)
Definition store_of (candidates : list store.BlacklistRecord) : store.BlacklistStore :=
  store.mkStore
    (fun nik => if String.eqb nik "1234567890123456" then Ok (Some court_order) else Ok None)
    (fun _ _ _ => Ok candidates)
    (fun _ => Ok candidates)
    None.

(** A store whose database is down. *)
Definition connection_refused : error := errors_New "connection refused".

Definition store_down : store.BlacklistStore :=
  store.mkStore (fun _ => Err connection_refused) (fun _ _ _ => Err connection_refused)
    (fun _ => Err connection_refused) (Some connection_refused).

Definition svc (candidates : list store.BlacklistRecord) : service.BlacklistService :=
  service.mkService (store_of candidates).

Definition svc_down : service.BlacklistService := service.mkService store_down.

(** An empty cache that works, and one whose connection is broken. *)
Definition empty_cache : redis.Client := redis.mkClient ∅ 0 None None.

Definition broken_cache : redis.Client :=
  redis.mkClient ∅ 0 (Some connection_refused) (Some connection_refused).

Definition by_nik : service.CheckRequest :=
  service.mkRequest "John Doe" "1234567890123456" "Jakarta" date_1990_01_01.

Definition by_name : service.CheckRequest :=
  service.mkRequest "John Doe" "" "Jakarta" date_1990_01_01.

(** Bodies of requests with a name only: the birth place absent, and the
    birth place an empty string. *)
Definition name_only : api.checkRequest :=
  api.mkCheckRequest "John Doe" None None None.

Definition name_and_empty_place : api.checkRequest :=
  api.mkCheckRequest "John Doe" None (Some "") None.

Definition name_and_zero_date : api.checkRequest :=
  api.mkCheckRequest "John Doe" None None (Some time.zero).

(** A body with a name and a birth place, and no birth date. *)
Definition name_and_place : api.checkRequest :=
  api.mkCheckRequest "John Doe" None (Some "Medan") None.

(** An outcome whose details are the single byte 255. *)
Definition garbled_outcome : service.CheckResult :=
  service.mkResult true (String (Bytes.of_Z 255) "") "exact_nik".

End Scenario.

(** ** Vocabulary of the further properties *)

(** The byte 58, the colon that separates the parts of a cache key. *)
Fixpoint has_colon (s : string) : bool :=
  match s with
  | EmptyString => false
  | String c r => (Bytes.val c =? 58) || has_colon r
  end.

(** The day a time falls on in its location, counted from January 1 of
    year 1. *)
Definition day (t : time.Time) : Z := (time.sec t + time.offset t) / 86400.

(** What the fuzzy tiers read of a candidate. *)
Definition decisive (r : store.BlacklistRecord) : string * time.Time * string :=
  (store.BirthPlace r, store.BirthDate r, store.Reason r).

Definition is_metric (e : Event) : bool :=
  match e with MetricInc _ _ => true | _ => false end.

(** The bodies of the answers that are not 200. *)
Definition error_bodies : list string :=
  [ "Invalid request body" +:+ String (Bytes.of_Z 10) "";
    "Name must be at least 3 characters long" +:+ String (Bytes.of_Z 10) "";
    "NIK must be a 16-digit number" +:+ String (Bytes.of_Z 10) "";
    "Internal server error" +:+ String (Bytes.of_Z 10) "" ].

(** The Redis server holding one entry. *)
Definition cache_with (key payload : string) (expiry : Z) : redis.Client :=
  redis.mkClient {[ key := (payload, expiry) ]} 0 None None.

(** Databases of the examples. *)
Module ScenarioDB.

(** A database that knows [court_order] by its NIK and answers the full
    search with [candidates]; [others] is what it answers the three other
    searches with. *)
Definition db_of (candidates others : list store.BlacklistRecord) : sqlx.DB :=
  sqlx.mkDB
    (fun q =>
       match q with
       | sqlx.SelectByNIK nik =>
         if String.eqb nik "1234567890123456" then Ok Scenario.court_order
         else Err sql.ErrNoRows
       | _ => Err sql.ErrNoRows
       end)
    (fun q =>
       match q with
       | sqlx.SelectFull _ _ _ _ => Ok candidates
       | _ => Ok others
       end)
    None.

(** A database whose connection is lost. *)
Definition bad_connection : error := errors_New "driver: bad connection".

Definition db_down : sqlx.DB :=
  sqlx.mkDB (fun _ => Err bad_connection) (fun _ => Err bad_connection)
    (Some bad_connection).

Definition unknown_nik : service.CheckRequest :=
  service.mkRequest "John Doe" "9999999999999999" "Jakarta" Scenario.date_1990_01_01.

(** The request of [Scenario.by_name] sent an hour later in the day. *)
Definition by_name_later : service.CheckRequest :=
  service.mkRequest "John Doe" "" "Jakarta" (time.mkTime (62766748800 + 3600) 0 0).

(** The request of [Scenario.by_nik] under another name. *)
Definition by_nik_other_name : service.CheckRequest :=
  service.mkRequest "Somebody Else" "1234567890123456" "" time.zero.

End ScenarioDB.

(** ** The words of the specification

    Two birth dates that are equal as calendar dates: the same year, month
    and day, each read in the location of its time. *)
Definition calendar_equal (t u : time.Time) : bool :=
  let '(y, m, d) := time.Date t in
  let '(y', m', d') := time.Date u in
  (y =? y') && (m =? m') && (d =? d').




Module ScenarioHTTP.

(** Midnight of January 1, 1990 in a location seven hours east of UTC: the
    birth date 1990-01-01T00:00:00+07:00 of a body. *)
Definition date_1990_01_01_east : time.Time :=
  time.mkTime (62766748800 - 25200) 0 25200.

Definition born_east_of_utc : api.checkRequest :=
  api.mkCheckRequest "John Doe" None (Some "Jakarta") (Some date_1990_01_01_east).





End ScenarioHTTP.

(** * Lemmas

    ** Bytes, bits and UTF-8 *)

Lemma val_range c : 0 <= Bytes.val c < 256.
Proof.
  unfold Bytes.val. pose proof (N_ascii_bounded c) as H. lia.
Qed.

Lemma of_Z_val c : Bytes.of_Z (Bytes.val c) = c.
Proof.
  unfold Bytes.of_Z. pose proof (val_range c).
  rewrite Z.mod_small by lia. unfold Bytes.val.
  rewrite N2Z.id. apply ascii_N_embedding.
Qed.

Lemma val_of_Z z : 0 <= z < 256 -> Bytes.val (Bytes.of_Z z) = z.
Proof.
  intros H. unfold Bytes.of_Z, Bytes.val. rewrite Z.mod_small by lia.
  rewrite N_ascii_embedding by lia. lia.
Qed.

Lemma lor_low a y k : 0 <= k -> 0 <= y < 2 ^ k -> Z.lor (a * 2 ^ k) y = a * 2 ^ k + y.
Proof.
  intros Hk Hy.
  assert (Hl : Z.land (a * 2 ^ k) y = 0).
  { apply Z.bits_inj'. intros n Hn. rewrite Z.land_spec, Z.bits_0.
    destruct (Z.lt_ge_cases n k) as [Hlt|Hge].
    - rewrite Z.mul_pow2_bits_low by lia. reflexivity.
    - destruct (Z.eq_dec y 0) as [->|Hy0].
      + rewrite Z.bits_0. apply andb_false_r.
      + rewrite (Z.bits_above_log2 y n); [apply andb_false_r|lia|].
        apply Z.log2_lt_pow2; [lia|].
        apply Z.lt_le_trans with (2 ^ k); [lia|].
        apply Z.pow_le_mono_r; lia. }
  rewrite <- Z.lxor_lor by exact Hl.
  symmetry. apply Z.add_nocarry_lxor. exact Hl.
Qed.

Lemma land_mask x k : 0 <= k -> Z.land x (2 ^ k - 1) = x mod 2 ^ k.
Proof.
  intros Hk. replace (2 ^ k - 1) with (Z.ones k) by (rewrite Z.ones_equiv; lia).
  apply Z.land_ones. exact Hk.
Qed.

Lemma land_3F x : Z.land x 0x3F = x mod 64.
Proof. apply (land_mask x 6). lia. Qed.
Lemma land_1F x : Z.land x 0x1F = x mod 32.
Proof. apply (land_mask x 5). lia. Qed.
Lemma land_0F x : Z.land x 0x0F = x mod 16.
Proof. apply (land_mask x 4). lia. Qed.
Lemma land_07 x : Z.land x 0x07 = x mod 8.
Proof. apply (land_mask x 3). lia. Qed.

Lemma lor_6 a y : 0 <= y < 64 -> Z.lor (a * 64) y = a * 64 + y.
Proof. apply (lor_low a y 6). lia. Qed.
Lemma lor_12 a y : 0 <= y < 4096 -> Z.lor (a * 4096) y = a * 4096 + y.
Proof. apply (lor_low a y 12). lia. Qed.
Lemma lor_18 a y : 0 <= y < 262144 -> Z.lor (a * 262144) y = a * 262144 + y.
Proof. apply (lor_low a y 18). lia. Qed.

Lemma shiftl_6 x : Z.shiftl x 6 = x * 64.
Proof. rewrite Z.shiftl_mul_pow2 by lia. reflexivity. Qed.
Lemma shiftl_12 x : Z.shiftl x 12 = x * 4096.
Proof. rewrite Z.shiftl_mul_pow2 by lia. reflexivity. Qed.
Lemma shiftl_18 x : Z.shiftl x 18 = x * 262144.
Proof. rewrite Z.shiftl_mul_pow2 by lia. reflexivity. Qed.
Lemma shiftr_6 x : Z.shiftr x 6 = x / 64.
Proof. rewrite Z.shiftr_div_pow2 by lia. reflexivity. Qed.
Lemma shiftr_12 x : Z.shiftr x 12 = x / 4096.
Proof. rewrite Z.shiftr_div_pow2 by lia. reflexivity. Qed.
Lemma shiftr_18 x : Z.shiftr x 18 = x / 262144.
Proof. rewrite Z.shiftr_div_pow2 by lia. reflexivity. Qed.

(** A tag [t] whose low [k] bits are zero, or-ed with a payload below 2^k. *)
Lemma lor_tag k t x : 0 <= k -> 0 <= x < 2 ^ k -> t mod 2 ^ k = 0 -> Z.lor t x = t + x.
Proof.
  intros Hk Hx Ht.
  assert (Hp : 0 < 2 ^ k) by (apply Z.pow_pos_nonneg; lia).
  rewrite (Z.div_mod t (2 ^ k)) at 1 by lia. rewrite Ht, Z.add_0_r.
  rewrite (Z.mul_comm (2 ^ k)). rewrite lor_low by lia.
  rewrite (Z.div_mod t (2 ^ k)) at 2 by lia. lia.
Qed.

Ltac zbool :=
  repeat match goal with
  | H : _ && _ = true |- _ => apply andb_true_iff in H; destruct H
  | H : _ || _ = false |- _ => apply orb_false_iff in H; destruct H
  | H : negb _ = true |- _ => apply negb_true_iff in H
  | H : negb _ = false |- _ => apply negb_false_iff in H
  | H : (_ <=? _) = true |- _ => apply Z.leb_le in H
  | H : (_ <=? _) = false |- _ => apply Z.leb_gt in H
  | H : (_ <? _) = true |- _ => apply Z.ltb_lt in H
  | H : (_ <? _) = false |- _ => apply Z.ltb_ge in H
  | H : (_ =? _) = true |- _ => apply Z.eqb_eq in H
  | H : (_ =? _) = false |- _ => apply Z.eqb_neq in H
  end.

Ltac zdec :=
  repeat match goal with
  | |- context [?a <=? ?b] => destruct (Z.leb_spec a b); try lia
  | |- context [?a <? ?b] => destruct (Z.ltb_spec a b); try lia
  | |- context [?a =? ?b] => destruct (Z.eqb_spec a b); try lia
  end.

Ltac dm := Z.div_mod_to_equations; lia.

Lemma enc2 c0 c1 :
  let p0 := Bytes.val c0 in let b1 := Bytes.val c1 in
  0xC2 <= p0 <= 0xDF -> 0x80 <= b1 <= 0xBF ->
  let rn := Z.lor (Z.shiftl (Z.land p0 0x1F) 6) (Z.land b1 0x3F) in
  0x80 <= rn <= 0x7FF /\ utf8.EncodeRune rn = String c0 (String c1 "").
Proof.
  intros p0 b1 H0 H1 rn.
  assert (Hrn : rn = (p0 - 0xC0) * 64 + (b1 - 0x80)).
  { unfold rn. rewrite land_1F, land_3F, shiftl_6. rewrite lor_6; dm. }
  split; [lia|].
  unfold utf8.EncodeRune, utf8.MaxRune. zdec. cbn [andb].
  rewrite shiftr_6, land_3F.
  rewrite (lor_tag 6 0xC0) by (try reflexivity; dm).
  rewrite (lor_tag 6 0x80) by (try reflexivity; dm).
  replace (0xC0 + rn / 64) with p0 by dm.
  replace (0x80 + rn mod 64) with b1 by dm.
  unfold p0, b1. rewrite !of_Z_val. reflexivity.
Qed.

Lemma enc3_bytes c0 c1 c2 rn :
  let p0 := Bytes.val c0 in let b1 := Bytes.val c1 in let b2 := Bytes.val c2 in
  0xE0 <= p0 <= 0xEF -> 0x80 <= b1 <= 0xBF -> 0x80 <= b2 <= 0xBF ->
  rn = (p0 - 0xE0) * 4096 + (b1 - 0x80) * 64 + (b2 - 0x80) ->
  utf8.enc3 rn = String c0 (String c1 (String c2 "")).
Proof.
  intros p0 b1 b2 H0 H1 H2 Hrn. unfold utf8.enc3.
  rewrite shiftr_12, shiftr_6, !land_3F.
  rewrite (lor_tag 4 0xE0) by (try reflexivity; dm).
  rewrite !(lor_tag 6 0x80) by (try reflexivity; dm).
  replace (0xE0 + rn / 4096) with p0 by dm.
  replace (0x80 + (rn / 64) mod 64) with b1 by dm.
  replace (0x80 + rn mod 64) with b2 by dm.
  unfold p0, b1, b2. rewrite !of_Z_val. reflexivity.
Qed.

Lemma dec3 c0 c1 c2 lo hi :
  let p0 := Bytes.val c0 in let b1 := Bytes.val c1 in let b2 := Bytes.val c2 in
  utf8.first p0 = Some (3%nat, lo, hi) -> lo <= b1 <= hi -> 0x80 <= b2 <= 0xBF ->
  let rn := Z.lor (Z.lor (Z.shiftl (Z.land p0 0x0F) 12) (Z.shiftl (Z.land b1 0x3F) 6))
                  (Z.land b2 0x3F) in
  0x800 <= rn <= 0xFFFF /\ utf8.EncodeRune rn = String c0 (String c1 (String c2 "")).
Proof.
  intros p0 b1 b2 Hf H1 H2 rn.
  assert (Hb : 0xE0 <= p0 <= 0xEF /\ 0x80 <= b1 <= 0xBF /\
               (p0 = 0xE0 -> 0xA0 <= b1) /\ (p0 = 0xED -> b1 <= 0x9F)).
  { unfold utf8.first in Hf.
    repeat match type of Hf with
    | (if ?b then _ else _) = _ => destruct b eqn:?
    end; inversion Hf; subst; zbool; unfold utf8.locb, utf8.hicb in *; lia. }
  destruct Hb as (Hp & Hb1 & Hlo & Hhi).
  assert (Hrn : rn = (p0 - 0xE0) * 4096 + (b1 - 0x80) * 64 + (b2 - 0x80)).
  { unfold rn. rewrite land_0F, !land_3F, shiftl_12, shiftl_6.
    rewrite lor_12 by dm.
    replace (p0 mod 16 * 4096 + b1 mod 64 * 64) with ((p0 mod 16 * 64 + b1 mod 64) * 64) by lia.
    rewrite lor_6 by dm. dm. }
  assert (Hr : 0x800 <= rn <= 0xFFFF /\ ~ (0xD800 <= rn <= 0xDFFF)) by lia.
  split; [lia|].
  unfold utf8.EncodeRune, utf8.MaxRune. zdec; cbn [andb orb];
    apply enc3_bytes; assumption.
Qed.

Lemma dec4 c0 c1 c2 c3 lo hi :
  let p0 := Bytes.val c0 in let b1 := Bytes.val c1 in
  let b2 := Bytes.val c2 in let b3 := Bytes.val c3 in
  utf8.first p0 = Some (4%nat, lo, hi) -> lo <= b1 <= hi ->
  0x80 <= b2 <= 0xBF -> 0x80 <= b3 <= 0xBF ->
  let rn := Z.lor (Z.lor (Z.lor (Z.shiftl (Z.land p0 0x07) 18)
                                (Z.shiftl (Z.land b1 0x3F) 12))
                         (Z.shiftl (Z.land b2 0x3F) 6))
                  (Z.land b3 0x3F) in
  0x10000 <= rn <= 0x10FFFF /\
  utf8.EncodeRune rn = String c0 (String c1 (String c2 (String c3 ""))).
Proof.
  intros p0 b1 b2 b3 Hf H1 H2 H3 rn.
  assert (Hb : 0xF0 <= p0 <= 0xF4 /\ 0x80 <= b1 <= 0xBF /\
               (p0 = 0xF0 -> 0x90 <= b1) /\ (p0 = 0xF4 -> b1 <= 0x8F)).
  { unfold utf8.first in Hf.
    repeat match type of Hf with
    | (if ?b then _ else _) = _ => destruct b eqn:?
    end; inversion Hf; subst; zbool; unfold utf8.locb, utf8.hicb in *; lia. }
  destruct Hb as (Hp & Hb1 & Hlo & Hhi).
  assert (Hrn : rn = (p0 - 0xF0) * 262144 + (b1 - 0x80) * 4096 + (b2 - 0x80) * 64 + (b3 - 0x80)).
  { unfold rn. rewrite land_07, !land_3F, shiftl_18, shiftl_12, shiftl_6.
    rewrite lor_18 by dm.
    replace (p0 mod 8 * 262144 + b1 mod 64 * 4096)
      with ((p0 mod 8 * 64 + b1 mod 64) * 4096) by lia.
    rewrite lor_12 by dm.
    replace ((p0 mod 8 * 64 + b1 mod 64) * 4096 + b2 mod 64 * 64)
      with (((p0 mod 8 * 64 + b1 mod 64) * 64 + b2 mod 64) * 64) by lia.
    rewrite lor_6 by dm. dm. }
  assert (Hr : 0x10000 <= rn <= 0x10FFFF) by lia.
  split; [lia|].
  unfold utf8.EncodeRune, utf8.MaxRune. zdec; cbn [andb orb].
  rewrite shiftr_18, shiftr_12, shiftr_6, !land_3F.
  rewrite (lor_tag 3 0xF0) by (try reflexivity; dm).
  rewrite !(lor_tag 6 0x80) by (try reflexivity; dm).
  replace (0xF0 + rn / 262144) with p0 by dm.
  replace (0x80 + (rn / 4096) mod 64) with b1 by dm.
  replace (0x80 + (rn / 64) mod 64) with b2 by dm.
  replace (0x80 + rn mod 64) with b3 by dm.
  unfold p0, b1, b2, b3. rewrite !of_Z_val. reflexivity.
Qed.

(** ** Decoding a rune and encoding it again *)

Lemma first_inv p0 sz lo hi :
  utf8.first p0 = Some (sz, lo, hi) ->
  (sz = 2%nat /\ 0xC2 <= p0 <= 0xDF /\ lo = 0x80 /\ hi = 0xBF) \/
  (sz = 3%nat /\ 0x80 <= lo /\ hi <= 0xBF) \/
  (sz = 4%nat /\ 0x80 <= lo /\ hi <= 0xBF).
Proof.
  unfold utf8.first, utf8.locb, utf8.hicb. intros Hf.
  repeat match type of Hf with
  | (if ?b then _ else _) = _ => destruct b eqn:?
  end; inversion Hf; subst; zbool; try lia.
Qed.

Lemma decode_cases c r : 0x80 <= Bytes.val c -> decoded (String c r).
Proof.
  intros Hc.
  assert (Hself : (Bytes.val c <? utf8.RuneSelf) = false)
    by (apply Z.ltb_ge; unfold utf8.RuneSelf; lia).
  destruct (utf8.first (Bytes.val c)) as [[[sz lo] hi]|] eqn:Hf.
  2: { eapply decoded_invalid; [reflexivity|].
       unfold utf8.DecodeRune. rewrite Hself, Hf. reflexivity. }
  destruct r as [|c1 r1].
  { eapply decoded_invalid; [reflexivity|].
    unfold utf8.DecodeRune. rewrite Hself, Hf. reflexivity. }
  destruct ((Bytes.val c1 <? lo) || (hi <? Bytes.val c1)) eqn:H1.
  { eapply decoded_invalid; [reflexivity|].
    unfold utf8.DecodeRune. rewrite Hself, Hf, H1. reflexivity. }
  pose proof (first_inv _ _ _ _ Hf) as Hinv.
  assert (Hb1 : lo <= Bytes.val c1 <= hi) by (zbool; lia).
  destruct Hinv as [(-> & Hp & -> & ->)|[(-> & Hlo & Hhi)|(-> & Hlo & Hhi)]].
  - (* two bytes *)
    destruct (enc2 c c1 Hp Hb1) as [Hr He].
    eapply (decoded_valid _ (String c (String c1 "")) r1 _ eq_refl).
    + simpl. lia.
    + intros rest'. change (String c (String c1 "") +:+ rest') with (String c (String c1 rest')).
      unfold utf8.DecodeRune. rewrite Hself, Hf, H1. reflexivity.
    + lia.
    + exact He.
    + simpl. lia.
  - (* three bytes *)
    destruct r1 as [|c2 r2].
    { eapply decoded_invalid; [reflexivity|].
      unfold utf8.DecodeRune. rewrite Hself, Hf, H1. reflexivity. }
    destruct (utf8.is_cont (Bytes.val c2)) eqn:H2.
    2: { eapply decoded_invalid; [reflexivity|].
         unfold utf8.DecodeRune. rewrite Hself, Hf, H1, H2. reflexivity. }
    assert (Hb2 : 0x80 <= Bytes.val c2 <= 0xBF)
      by (unfold utf8.is_cont, utf8.locb, utf8.hicb in H2; zbool; lia).
    destruct (dec3 c c1 c2 lo hi Hf Hb1 Hb2) as [Hr He].
    eapply (decoded_valid _ (String c (String c1 (String c2 ""))) r2 _ eq_refl).
    + simpl. lia.
    + intros rest'.
      change (String c (String c1 (String c2 "")) +:+ rest')
        with (String c (String c1 (String c2 rest'))).
      unfold utf8.DecodeRune. rewrite Hself, Hf, H1, H2. reflexivity.
    + lia.
    + exact He.
    + simpl. lia.
  - (* four bytes *)
    destruct r1 as [|c2 r2].
    { eapply decoded_invalid; [reflexivity|].
      unfold utf8.DecodeRune. rewrite Hself, Hf, H1. reflexivity. }
    destruct (utf8.is_cont (Bytes.val c2)) eqn:H2.
    2: { eapply decoded_invalid; [reflexivity|].
         unfold utf8.DecodeRune. rewrite Hself, Hf, H1, H2. reflexivity. }
    destruct r2 as [|c3 r3].
    { eapply decoded_invalid; [reflexivity|].
      unfold utf8.DecodeRune. rewrite Hself, Hf, H1, H2. reflexivity. }
    destruct (utf8.is_cont (Bytes.val c3)) eqn:H3.
    2: { eapply decoded_invalid; [reflexivity|].
         unfold utf8.DecodeRune. rewrite Hself, Hf, H1, H2, H3. reflexivity. }
    assert (Hb2 : 0x80 <= Bytes.val c2 <= 0xBF)
      by (unfold utf8.is_cont, utf8.locb, utf8.hicb in H2; zbool; lia).
    assert (Hb3 : 0x80 <= Bytes.val c3 <= 0xBF)
      by (unfold utf8.is_cont, utf8.locb, utf8.hicb in H3; zbool; lia).
    destruct (dec4 c c1 c2 c3 lo hi Hf Hb1 Hb2 Hb3) as [Hr He].
    eapply (decoded_valid _ (String c (String c1 (String c2 (String c3 "")))) r3 _ eq_refl).
    + simpl. lia.
    + intros rest'.
      change (String c (String c1 (String c2 (String c3 ""))) +:+ rest')
        with (String c (String c1 (String c2 (String c3 rest')))).
      unfold utf8.DecodeRune. rewrite Hself, Hf, H1, H2, H3. reflexivity.
    + lia.
    + exact He.
    + simpl. lia.
Qed.

(** ** Strings *)

Lemma sapp_cons c s t : String c s +:+ t = String c (s +:+ t).
Proof. reflexivity. Qed.

Lemma sapp_nil_l t : "" +:+ t = t.
Proof. reflexivity. Qed.

Lemma sapp_nil_r s : s +:+ "" = s.
Proof. induction s as [|c s IH]; [reflexivity|]. rewrite sapp_cons, IH. reflexivity. Qed.

Lemma sapp_assoc a b c : (a +:+ b) +:+ c = a +:+ (b +:+ c).
Proof. induction a as [|x a IH]; [reflexivity|]. rewrite !sapp_cons, IH. reflexivity. Qed.

Lemma slength_app a b : String.length (a +:+ b) = (String.length a + String.length b)%nat.
Proof. induction a as [|x a IH]; [reflexivity|]. rewrite sapp_cons. simpl. rewrite IH. reflexivity. Qed.

Lemma sdrop_app pre rest : Bytes.drop (String.length pre) (pre +:+ rest) = rest.
Proof. induction pre as [|x a IH]; [destruct rest; reflexivity|]. rewrite sapp_cons. simpl. exact IH. Qed.

Lemma stake_app pre rest : Bytes.take (String.length pre) (pre +:+ rest) = pre.
Proof.
  induction pre as [|x a IH]; [destruct rest; reflexivity|].
  rewrite sapp_cons. simpl. rewrite IH. reflexivity.
Qed.

(** ** What [appendString] writes, the scanner and [unquote] read back *)

Lemma scan_escape c X :
  (Bytes.val c <? utf8.RuneSelf) = true -> json.htmlSafeSet (Bytes.val c) = false ->
  json.scan_string json.InString (json.escape c +:+ X) =
  prepend (json.escape c) <$> json.scan_string json.InString X.
Proof.
  intros Hlt Hs.
  destruct c as [[] [] [] [] [] [] [] []];
    first [ vm_compute in Hlt; discriminate Hlt
          | vm_compute in Hs; discriminate Hs
          | set (e := json.escape _); vm_compute in e; subst e;
            rewrite !sapp_cons, sapp_nil_l; cbn;
            destruct (json.scan_string json.InString X) as [[raw rest]|];
            reflexivity ].
Qed.

Lemma unquote_escape c X f :
  (Bytes.val c <? utf8.RuneSelf) = true -> json.htmlSafeSet (Bytes.val c) = false ->
  json.unquote_from (S f) (json.escape c +:+ X) =
  String.app (String c "") <$> json.unquote_from f X.
Proof.
  intros Hlt Hs.
  destruct c as [[] [] [] [] [] [] [] []];
    first [ vm_compute in Hlt; discriminate Hlt
          | vm_compute in Hs; discriminate Hs
          | set (e := json.escape _); vm_compute in e; subst e;
            rewrite !sapp_cons, sapp_nil_l; cbn;
            destruct (json.unquote_from f X) as [out|];
            reflexivity ].
Qed.

Lemma scan_high pre X :
  high pre ->
  json.scan_string json.InString (pre +:+ X) =
  prepend pre <$> json.scan_string json.InString X.
Proof.
  induction pre as [|c pre IH]; intros Hh.
  - rewrite sapp_nil_l. destruct (json.scan_string _ X) as [[raw rest]|]; reflexivity.
  - destruct Hh as [Hc Hh]. rewrite sapp_cons. cbn [json.scan_string].
    replace (Bytes.val c =? 34) with false by (symmetry; apply Z.eqb_neq; lia).
    replace (Bytes.val c =? 92) with false by (symmetry; apply Z.eqb_neq; lia).
    replace (Bytes.val c <? 32) with false by (symmetry; apply Z.ltb_ge; lia).
    rewrite (IH Hh).
    destruct (json.scan_string _ X) as [[raw rest]|]; reflexivity.
Qed.

Lemma scan_safe c X :
  json.htmlSafeSet (Bytes.val c) = true ->
  json.scan_string json.InString (String c X) =
  prepend (String c "") <$> json.scan_string json.InString X.
Proof.
  intros Hs. unfold json.htmlSafeSet in Hs. zbool.
  cbn [json.scan_string].
  replace (Bytes.val c =? 34) with false by (symmetry; apply Z.eqb_neq; lia).
  replace (Bytes.val c =? 92) with false by (symmetry; apply Z.eqb_neq; lia).
  replace (Bytes.val c <? 32) with false by (symmetry; apply Z.ltb_ge; lia).
  destruct (json.scan_string _ X) as [[raw rest]|]; reflexivity.
Qed.

Lemma scan_ufffd X :
  json.scan_string json.InString (String json.backslash "ufffd" +:+ X) =
  prepend (String json.backslash "ufffd") <$> json.scan_string json.InString X.
Proof.
  rewrite !sapp_cons, sapp_nil_l. cbn.
  destruct (json.scan_string _ X) as [[raw rest]|]; reflexivity.
Qed.

Lemma scan_u202 h X :
  h = 8 \/ h = 9 ->
  json.scan_string json.InString (String json.backslash "u202" +:+ String (json.hex h) X) =
  prepend (String json.backslash "u202" +:+ String (json.hex h) "")
    <$> json.scan_string json.InString X.
Proof.
  intros [-> | ->]; rewrite !sapp_cons, sapp_nil_l; cbn;
    destruct (json.scan_string _ X) as [[raw rest]|]; reflexivity.
Qed.

Lemma prepend_prepend p q (o : option (string * string)) :
  prepend p <$> (prepend q <$> o) = prepend (p +:+ q) <$> o.
Proof.
  destruct o as [[raw rest]|]; [|reflexivity].
  unfold prepend. simpl. rewrite sapp_assoc. reflexivity.
Qed.

Lemma unquote_safe c X f :
  json.htmlSafeSet (Bytes.val c) = true ->
  json.unquote_from (S f) (String c X) = String.app (String c "") <$> json.unquote_from f X.
Proof.
  intros Hs. unfold json.htmlSafeSet in Hs. zbool.
  cbn [json.unquote_from].
  replace (Bytes.val c =? 92) with false by (symmetry; apply Z.eqb_neq; lia).
  replace (Bytes.val c =? 34) with false by (symmetry; apply Z.eqb_neq; lia).
  replace (Bytes.val c <? 32) with false by (symmetry; apply Z.ltb_ge; lia).
  replace (Bytes.val c <? utf8.RuneSelf) with true
    by (symmetry; apply Z.ltb_lt; unfold utf8.RuneSelf; lia).
  cbn [orb]. destruct (json.unquote_from f X); reflexivity.
Qed.

Lemma unquote_ufffd X f :
  json.unquote_from (S f) (String json.backslash "ufffd" +:+ X) =
  String.app (utf8.EncodeRune utf8.RuneError) <$> json.unquote_from f X.
Proof.
  rewrite !sapp_cons, sapp_nil_l. cbn.
  destruct (json.unquote_from f X); reflexivity.
Qed.

Lemma unquote_u202 rn X f :
  rn = 0x2028 \/ rn = 0x2029 ->
  json.unquote_from (S f)
    (String json.backslash "u202" +:+ String (json.hex (Z.land rn 0xF)) X) =
  String.app (utf8.EncodeRune rn) <$> json.unquote_from f X.
Proof.
  intros [-> | ->]; rewrite !sapp_cons, sapp_nil_l; cbn;
    destruct (json.unquote_from f X); reflexivity.
Qed.

Lemma unquote_high pre rn X f :
  high pre -> (2 <= String.length pre)%nat ->
  utf8.DecodeRune (pre +:+ X) = (rn, String.length pre) ->
  json.unquote_from (S f) (pre +:+ X) =
  String.app (utf8.EncodeRune rn) <$> json.unquote_from f X.
Proof.
  intros Hh Hl Hd. destruct pre as [|c pre]; [simpl in Hl; lia|].
  destruct Hh as [Hc _].
  rewrite sapp_cons in *. cbn [json.unquote_from].
  replace (Bytes.val c =? 92) with false by (symmetry; apply Z.eqb_neq; lia).
  replace (Bytes.val c =? 34) with false by (symmetry; apply Z.eqb_neq; lia).
  replace (Bytes.val c <? 32) with false by (symmetry; apply Z.ltb_ge; lia).
  replace (Bytes.val c <? utf8.RuneSelf) with false
    by (symmetry; apply Z.ltb_ge; unfold utf8.RuneSelf; lia).
  cbn [orb]. rewrite Hd.
  rewrite <- sapp_cons. rewrite sdrop_app. reflexivity.
Qed.

Lemma sapp_snoc a h X : (a +:+ String h "") +:+ X = a +:+ String h X.
Proof. rewrite sapp_assoc. reflexivity. Qed.

Lemma escape_length c : (2 <= String.length (json.escape c))%nat.
Proof.
  unfold json.escape.
  repeat match goal with |- context [if ?b then _ else _] => destruct b end;
    simpl; lia.
Qed.

Lemma chunk_exists c r : exists out rest dec, chunk (String c r) out rest dec.
Proof.
  destruct (Bytes.val c <? utf8.RuneSelf) eqn:Hself.
  - (* ASCII *)
    assert (Hd : utf8.DecodeRune (String c r) = (Bytes.val c, 1%nat))
      by (unfold utf8.DecodeRune; rewrite Hself; reflexivity).
    assert (Hv : forall f, utf8.valid_from (S f) (String c r) = true ->
               String c "" +:+ r = String c r /\ utf8.valid_from f r = true).
    { intros f. cbn [utf8.valid_from]. rewrite Hd.
      destruct ((Bytes.val c =? utf8.RuneError) && (1 =? 1)%nat); [discriminate|].
      intros H. split; [reflexivity|exact H]. }
    destruct (json.htmlSafeSet (Bytes.val c)) eqn:Hs.
    + exists (String c ""), r, (String c ""). constructor.
      * intros f. cbn [json.appendString_from]. rewrite Hself, Hs. reflexivity.
      * intros f. cbn [json.coerce_from]. rewrite Hself. reflexivity.
      * intros X. apply scan_safe. exact Hs.
      * intros f X. apply unquote_safe. exact Hs.
      * simpl. lia.
      * exact Hv.
    + exists (json.escape c), r, (String c ""). constructor.
      * intros f. cbn [json.appendString_from]. rewrite Hself, Hs. reflexivity.
      * intros f. cbn [json.coerce_from]. rewrite Hself. reflexivity.
      * intros X. apply scan_escape; assumption.
      * intros f X. apply unquote_escape; assumption.
      * pose proof (escape_length c). simpl. lia.
      * exact Hv.
  - (* above ASCII *)
    assert (Hc : 0x80 <= Bytes.val c) by (unfold utf8.RuneSelf in Hself; zbool; lia).
    destruct (decode_cases c r Hc) as [c' r' E Hd | pre rest rn E Hl Hd Hrn He Hh].
    + (* an invalid byte *)
      injection E as <- <-.
      exists (String json.backslash "ufffd"), r, (utf8.EncodeRune utf8.RuneError).
      constructor.
      * intros f. cbn [json.appendString_from]. rewrite Hself, Hd.
        rewrite Z.eqb_refl. reflexivity.
      * intros f. cbn [json.coerce_from]. rewrite Hself, Hd. reflexivity.
      * apply scan_ufffd.
      * intros f X. apply unquote_ufffd.
      * simpl. lia.
      * intros f. cbn [utf8.valid_from]. rewrite Hd, Z.eqb_refl. discriminate.
    + (* a rune of two to four bytes *)
      assert (Hd' : utf8.DecodeRune (String c r) = (rn, String.length pre))
        by (rewrite E; apply Hd).
      assert (Hne : (String.length pre =? 1)%nat = false)
        by (apply Nat.eqb_neq; lia).
      assert (Hv : forall f, utf8.valid_from (S f) (String c r) = true ->
                 pre +:+ rest = String c r /\ utf8.valid_from f rest = true).
      { intros f. cbn [utf8.valid_from]. rewrite Hd', Hne, andb_false_r.
        rewrite E, sdrop_app. intros H. split; [reflexivity|exact H]. }
      assert (Hlen : (String.length (String c r) =
                      String.length pre + String.length rest)%nat)
        by (rewrite E; apply slength_app).
      destruct ((rn =? 0x2028) || (rn =? 0x2029)) eqn:Hls.
      * exists (String json.backslash "u202" +:+ String (json.hex (Z.land rn 0xF)) ""),
               rest, pre.
        assert (Hrn' : rn = 0x2028 \/ rn = 0x2029).
        { apply orb_true_iff in Hls. destruct Hls as [H|H]; apply Z.eqb_eq in H; auto. }
        constructor.
        -- intros f. cbn [json.appendString_from]. rewrite Hself, Hd', Hne, andb_false_r, Hls.
           rewrite E, sdrop_app. rewrite sapp_assoc. reflexivity.
        -- intros f. cbn [json.coerce_from]. rewrite Hself, Hd', He. rewrite E, sdrop_app. reflexivity.
        -- intros X. rewrite sapp_snoc.
           rewrite (scan_u202 _ X); [reflexivity|].
           destruct Hrn' as [-> | ->]; [left|right]; reflexivity.
        -- intros f X. rewrite sapp_snoc.
           rewrite <- He. apply unquote_u202. exact Hrn'.
        -- rewrite slength_app. cbn [String.length] in *. lia.
        -- exact Hv.
      * exists pre, rest, pre. constructor.
        -- intros f. cbn [json.appendString_from]. rewrite Hself, Hd', Hne, andb_false_r, Hls.
           rewrite E, sdrop_app, stake_app. reflexivity.
        -- intros f. cbn [json.coerce_from]. rewrite Hself, Hd', He. rewrite E, sdrop_app. reflexivity.
        -- intros X. apply scan_high. exact Hh.
        -- intros f X. rewrite <- He at 2. apply unquote_high; [exact Hh|lia|apply Hd].
        -- lia.
        -- exact Hv.
Qed.

Lemma scan_appendString f s rest :
  json.scan_string json.InString (json.appendString_from f s +:+ String json.quote rest) =
  Some (json.appendString_from f s, rest).
Proof.
  revert s. induction f as [|f IH]; intros s.
  - destruct s; reflexivity.
  - destruct s as [|c r]; [reflexivity|].
    destruct (chunk_exists c r) as (out & rest' & dec & [Henc _ Hscan _ _ _]).
    rewrite Henc, sapp_assoc, Hscan, IH. reflexivity.
Qed.

Lemma unquote_appendString f s f' :
  (String.length s <= f)%nat -> (f <= f')%nat ->
  json.unquote_from f' (json.appendString_from f s) = Some (json.coerce_from f s).
Proof.
  revert s f'. induction f as [|f IH]; intros s f' Hs Hf.
  - destruct s; [destruct f'; reflexivity|simpl in Hs; lia].
  - destruct s as [|c r]; [destruct f'; reflexivity|].
    destruct f' as [|f']; [lia|].
    destruct (chunk_exists c r) as (out & rest' & dec & [Henc Hco _ Hunq Hlen _]).
    rewrite Henc, Hco, Hunq, IH by lia. reflexivity.
Qed.

Lemma appendString_length f s :
  (String.length s <= f)%nat ->
  (String.length s <= String.length (json.appendString_from f s))%nat.
Proof.
  revert s. induction f as [|f IH]; intros s Hs.
  - destruct s; simpl in *; lia.
  - destruct s as [|c r]; [simpl; lia|].
    destruct (chunk_exists c r) as (out & rest' & dec & [Henc _ _ _ Hlen _]).
    rewrite Henc, slength_app.
    assert (String.length rest' <= String.length (json.appendString_from f rest'))%nat
      by (apply IH; lia).
    lia.
Qed.

Lemma coerce_valid f s :
  (String.length s <= f)%nat -> utf8.valid_from f s = true -> json.coerce_from f s = s.
Proof.
  revert s. induction f as [|f IH]; intros s Hs Hv.
  - destruct s; [reflexivity|simpl in Hs; lia].
  - destruct s as [|c r]; [reflexivity|].
    destruct (chunk_exists c r) as (out & rest' & dec & [_ Hco _ _ Hlen Hval]).
    destruct (Hval f Hv) as [E Hv'].
    rewrite Hco, IH by (assumption || lia). exact E.
Qed.

Lemma unquote_appendString_body s :
  json.unquote (json.appendString_body s) = Some (json.coerce s).
Proof.
  unfold json.unquote, json.appendString_body, json.coerce.
  apply unquote_appendString; [lia|]. apply appendString_length. lia.
Qed.

(** Reading back a string literal written by [appendString]. *)
Lemma scan_literal_appendString s rest :
  json.scan_literal (json.appendString_body s +:+ String json.quote rest) =
  Some (json.coerce s, rest).
Proof.
  unfold json.scan_literal, json.appendString_body at 1.
  rewrite scan_appendString. fold (json.appendString_body s).
  rewrite unquote_appendString_body. reflexivity.
Qed.

Lemma coerce_ValidString s : utf8.ValidString s = true -> json.coerce s = s.
Proof. intros H. apply coerce_valid; [lia|exact H]. Qed.

Local Opaque json.scan_literal json.appendString_body.

(** ** The payload of an outcome *)

Lemma parse_value_quote f X :
  json.parse_value (S f) (String json.quote X) =
  match json.scan_literal X with
  | Some (str, rest) => Some (json.Str str, rest)
  | None => None
  end.
Proof. reflexivity. Qed.

Lemma parse_value_brace f X :
  json.parse_value (S f) (String "{" (String json.quote X)) =
  match json.parse_members f (String json.quote X) with
  | Some (kvs, rest) => Some (json.Object kvs, rest)
  | None => None
  end.
Proof. reflexivity. Qed.

Lemma parse_members_quote f X :
  json.parse_members (S f) (String json.quote X) =
  match json.scan_literal X with
  | None => None
  | Some (key, rest) =>
    match json.skip_ws rest with
    | EmptyString => None
    | String c2 r2 =>
      if Bytes.val c2 =? 58 then
        match json.parse_value f r2 with
        | None => None
        | Some (v, rest2) =>
          match json.skip_ws rest2 with
          | EmptyString => None
          | String c3 r3 =>
            if Bytes.val c3 =? 44 then
              match json.parse_members f r3 with
              | Some (kvs, rest3) => Some ((key, v) :: kvs, rest3)
              | None => None
              end
            else if Bytes.val c3 =? 125 then Some ([(key, v)], r3)
            else None
          end
        end
      else None
    end
  end.
Proof. reflexivity. Qed.

Lemma parse_value_string f s rest :
  json.parse_value (S f) (json.appendString s +:+ rest) = Some (json.Str (json.coerce s), rest).
Proof.
  unfold json.appendString. rewrite sapp_cons, sapp_assoc, sapp_cons, sapp_nil_l.
  rewrite parse_value_quote, scan_literal_appendString. reflexivity.
Qed.

Lemma parse_members_key f k V :
  json.parse_members (S f) (json.appendString k +:+ String ":" V) =
  match json.parse_value f V with
  | None => None
  | Some (v, rest2) =>
    match json.skip_ws rest2 with
    | EmptyString => None
    | String c3 r3 =>
      if Bytes.val c3 =? 44 then
        match json.parse_members f r3 with
        | Some (kvs, rest3) => Some ((json.coerce k, v) :: kvs, rest3)
        | None => None
        end
      else if Bytes.val c3 =? 125 then Some ([(json.coerce k, v)], r3)
      else None
    end
  end.
Proof.
  unfold json.appendString. rewrite sapp_cons, sapp_assoc, sapp_cons, sapp_nil_l.
  rewrite parse_members_quote, scan_literal_appendString. reflexivity.
Qed.

Lemma parse_value_bool f b X :
  json.parse_value (S f) (json.appendBool b +:+ X) = Some (json.Bool b, X).
Proof. destruct b; reflexivity. Qed.

Lemma parse_payload f r :
  json.parse_value (S (S (S (S (S f))))) (payload_of r) =
  Some (json.Object [("Blacklisted", json.Bool (service.Blacklisted r));
                     ("Details", json.Str (json.coerce (service.Details r)));
                     ("MatchType", json.Str (json.coerce (service.MatchType r)))], "").
Proof.
  destruct r as [b d m]. unfold payload_of, service.Marshal.
  cbn [service.Blacklisted service.Details service.MatchType].
  rewrite !(sapp_cons _ ""), !sapp_nil_l.
  unfold json.appendString at 1. rewrite (sapp_cons json.quote).
  rewrite parse_value_brace.
  rewrite <- (sapp_cons json.quote). fold (json.appendString "Blacklisted").
  rewrite parse_members_key, parse_value_bool.
  cbn [json.skip_ws].
  change (json.isSpace (Bytes.val ",")) with false. cbv iota.
  change (Bytes.val "," =? 44) with true. cbv iota.
  rewrite parse_members_key, parse_value_string.
  cbn [json.skip_ws].
  change (json.isSpace (Bytes.val ",")) with false. cbv iota.
  change (Bytes.val "," =? 44) with true. cbv iota.
  rewrite parse_members_key, parse_value_string.
  reflexivity.
Qed.

Lemma payload_length r : (4 <= String.length (payload_of r))%nat.
Proof.
  destruct r as [b d m]. unfold payload_of, service.Marshal.
  rewrite !slength_app. unfold json.appendString. simpl. lia.
Qed.

(** Decoding what [Marshal] wrote gives the result with its two strings
    coerced to valid UTF-8. *)
Lemma Unmarshal_Marshal r : service.Unmarshal (payload_of r) = Ok (coerced r).
Proof.
  unfold service.Unmarshal, json.parse.
  pose proof (payload_length r) as Hl.
  destruct (String.length (payload_of r)) as [|[|[|[|n]]]]; try lia.
  rewrite parse_payload. reflexivity.
Qed.

Local Transparent json.scan_literal json.appendString_body.

(** ** The decision on a miss *)

Section Decision.

Import service.

Variable s : BlacklistService.
Variable req : CheckRequest.

Lemma range_full_match_find records result c :
  range_full_match req records result c =
  match List.find (full_match req) records with
  | Some cand => (Ok (fuzzy_full cand), c, [LogInfo "Found blacklist record by fuzzy full match"])
  | None => (Ok result, c, [])
  end.
Proof.
  induction records as [|record rest IH]; simpl; [reflexivity|].
  destruct (full_match req record); [reflexivity|exact IH].
Qed.

Lemma range_date_match_find records result c :
  range_date_match req records result c =
  match List.find (date_match req) records with
  | Some cand => (Ok (fuzzy_date cand), c, [LogInfo "Found blacklist record by fuzzy date match"])
  | None => (Ok result, c, [])
  end.
Proof.
  induction records as [|record rest IH]; simpl; [reflexivity|].
  destruct (date_match req record); [reflexivity|exact IH].
Qed.

(** [resolve] as a case analysis on the answers of the two providers. *)
Lemma resolve_eq c :
  resolve s req c =
  if negb (String.eqb (NIK req) "") then
    match store.GetByNIK (store s) (NIK req) with
    | Err err => (Err (Errorf_w "error checking NIK: " err), c, [StoreGetByNIK (NIK req)])
    | Ok (Some record) =>
      (Ok (exact record), c, [StoreGetByNIK (NIK req); LogInfo "Found blacklist record by NIK"])
    | Ok None =>
      match fuzzy_run s req c with (r, c1, ev) => (r, c1, StoreGetByNIK (NIK req) :: ev) end
    end
  else fuzzy_run s req c.
Proof.
  assert (Hfz : forall c0,
    (got <- call_GetByFuzzyMatch (store s) (Name req)
              (Some (BirthPlace req)) (Some (BirthDate req)) ;;
     match got with
     | Err err => fail (Errorf_w "error searching by fuzzy match: " err)
     | Ok records =>
       result <- (if (0 <? Z.of_nat (length records)) then
                    result <- range_full_match req records zero ;;
                    if negb (Blacklisted result)
                    then range_date_match req records result
                    else ret result
                  else ret zero) ;;
       if negb (Blacklisted result) then
         emit (LogInfo "No blacklist record found") ;;;
         ret (mkResult false "" "no_match")
       else ret result
     end) c0 = fuzzy_run s req c0).
  { intros c0. unfold fuzzy_run, bind at 1, call_GetByFuzzyMatch.
    destruct (store.GetByFuzzyMatch _ _ _ _) as [records|err]; [|reflexivity].
    unfold fuzzy_outcome, fuzzy_log.
    destruct records as [|r0 rest]; [reflexivity|].
    replace (0 <? Z.of_nat (length (r0 :: rest))) with true
      by (symmetry; apply Z.ltb_lt; simpl length; lia).
    unfold bind. rewrite range_full_match_find.
    destruct (List.find (full_match req) (r0 :: rest)) as [cand|]; [reflexivity|].
    change (negb (Blacklisted zero)) with true. cbv iota.
    rewrite range_date_match_find.
    destruct (List.find (date_match req) (r0 :: rest)) as [cand|]; reflexivity. }
  unfold resolve.
  destruct (negb (String.eqb (NIK req) "")).
  - unfold bind at 1. unfold bind at 1. unfold call_GetByNIK.
    destruct (store.GetByNIK (store s) (NIK req)) as [[record|]|err]; try reflexivity.
    unfold ret at 1. change (negb (Blacklisted zero)) with true. cbv iota.
    rewrite Hfz. destruct (fuzzy_run s req c) as [[r c1] ev]. reflexivity.
  - unfold bind at 1. unfold ret at 1. change (negb (Blacklisted zero)) with true.
    cbv iota. rewrite Hfz. destruct (fuzzy_run s req c) as [[r c1] ev]. reflexivity.
Qed.

End Decision.

(** ** The cache-aside coordinator *)

Section Coordinator.

Import service.

Variable s : BlacklistService.
Variable req : CheckRequest.

Lemma payload_of_Marshal r : Marshal r = Ok (payload_of r).
Proof. reflexivity. Qed.

Lemma cacheResult_eq key r c :
  cacheResult key r c =
  (Ok tt, snd (redis.Set_ c key (payload_of r) (24 * time.Hour)),
   RedisSet key (payload_of r) (24 * time.Hour) ::
   match fst (redis.Set_ c key (payload_of r) (24 * time.Hour)) with
   | Some _ => [LogError "Error caching result"]
   | None => []
   end).
Proof.
  unfold cacheResult. rewrite payload_of_Marshal.
  unfold bind, redis_Set.
  destruct (redis.Set_ c key (payload_of r) (24 * time.Hour)) as [[e|] c1]; reflexivity.
Qed.

Lemma CheckBlacklist_hit c r :
  cache_lookup c (cacheKey req) = Some r ->
  CheckBlacklist s req c =
  (Ok r, c, [RedisGet (cacheKey req); LogInfo "Cache hit for blacklist check"]).
Proof.
  unfold cache_lookup, CheckBlacklist. intros H.
  unfold bind at 1. unfold bind at 1. unfold redis_Get.
  destruct (redis.Get c (cacheKey req)) as [payload|e]; [|discriminate].
  destruct (Unmarshal payload) as [r'|e]; [|discriminate].
  injection H as ->. reflexivity.
Qed.

Lemma CheckBlacklist_miss c :
  cache_lookup c (cacheKey req) = None ->
  CheckBlacklist s req c =
  match resolve s req c with
  | (Ok r, c1, ev) =>
    (Ok r, snd (redis.Set_ c1 (cacheKey req) (payload_of r) (24 * time.Hour)),
     RedisGet (cacheKey req) :: ev ++
     RedisSet (cacheKey req) (payload_of r) (24 * time.Hour) ::
     match fst (redis.Set_ c1 (cacheKey req) (payload_of r) (24 * time.Hour)) with
     | Some _ => [LogError "Error caching result"]
     | None => []
     end)
  | (Err e, c1, ev) => (Err e, c1, RedisGet (cacheKey req) :: ev)
  end.
Proof.
  unfold cache_lookup, CheckBlacklist. intros H.
  assert (Hrest : forall c0,
    (result <- resolve s req ;; cacheResult (cacheKey req) result ;;; ret result) c0 =
    match resolve s req c0 with
    | (Ok r, c1, ev) =>
      (Ok r, snd (redis.Set_ c1 (cacheKey req) (payload_of r) (24 * time.Hour)),
       ev ++
       RedisSet (cacheKey req) (payload_of r) (24 * time.Hour) ::
       match fst (redis.Set_ c1 (cacheKey req) (payload_of r) (24 * time.Hour)) with
       | Some _ => [LogError "Error caching result"]
       | None => []
       end)
    | (Err e, c1, ev) => (Err e, c1, ev)
    end).
  { intros c0. unfold bind at 1.
    destruct (resolve s req c0) as [[[r|e] c1] ev]; [|reflexivity].
    unfold bind. rewrite cacheResult_eq. unfold ret.
    rewrite app_nil_r. reflexivity. }
  unfold bind at 1. unfold bind at 1. unfold redis_Get.
  destruct (redis.Get c (cacheKey req)) as [payload|e].
  - destruct (Unmarshal payload) as [r'|e]; [discriminate|].
    unfold ret at 1. rewrite Hrest.
    destruct (resolve s req c) as [[[r|e'] c1] ev]; reflexivity.
  - unfold ret at 1. rewrite Hrest.
    destruct (resolve s req c) as [[[r|e'] c1] ev]; reflexivity.
Qed.

(** [resolve] does not touch the cache. *)
Lemma resolve_client c : client_of (resolve s req c) = c.
Proof.
  rewrite resolve_eq. unfold fuzzy_run.
  destruct (negb (String.eqb (NIK req) "")).
  - destruct (store.GetByNIK (store s) (NIK req)) as [[record|]|err]; try reflexivity.
    destruct (store.GetByFuzzyMatch _ _ _ _); reflexivity.
  - destruct (store.GetByFuzzyMatch _ _ _ _); reflexivity.
Qed.

(** The result of [resolve] does not depend on the cache. *)
Lemma resolve_result_indep c c' :
  result_of (resolve s req c) = result_of (resolve s req c') /\
  events_of (resolve s req c) = events_of (resolve s req c').
Proof.
  rewrite !resolve_eq. unfold fuzzy_run.
  destruct (negb (String.eqb (NIK req) "")).
  - destruct (store.GetByNIK (store s) (NIK req)) as [[record|]|err]; try (split; reflexivity).
    destruct (store.GetByFuzzyMatch _ _ _ _); split; reflexivity.
  - destruct (store.GetByFuzzyMatch _ _ _ _); split; reflexivity.
Qed.

(** On a miss the caller gets the result of [resolve]. *)
Lemma CheckBlacklist_miss_result c :
  cache_lookup c (cacheKey req) = None ->
  result_of (CheckBlacklist s req c) = result_of (resolve s req c).
Proof.
  intros H. rewrite (CheckBlacklist_miss c H).
  destruct (resolve s req c) as [[[r|e] c1] ev]; reflexivity.
Qed.

End Coordinator.

(** ** The outcomes of the decision *)

Lemma well_formed_exact record : well_formed (exact record).
Proof. repeat split; simpl; intros; try discriminate; auto. Qed.

Lemma well_formed_no_match : well_formed no_match.
Proof.
  repeat split; simpl; intros; try discriminate; auto.
  destruct H as [H|[H|H]]; discriminate.
Qed.

Lemma well_formed_fuzzy req records : well_formed (fuzzy_outcome req records).
Proof.
  unfold fuzzy_outcome.
  destruct (List.find (service.full_match req) records) as [cand|].
  - repeat split; simpl; intros; try discriminate; auto.
  - destruct (List.find (service.date_match req) records) as [cand|].
    + repeat split; simpl; intros; try discriminate; auto.
    + apply well_formed_no_match.
Qed.

(** The match type of a decision is one of four ASCII words, which the
    cache gives back as they are. *)
Lemma coerce_fuzzy_MatchType req records :
  json.coerce (service.MatchType (fuzzy_outcome req records)) =
  service.MatchType (fuzzy_outcome req records).
Proof.
  unfold fuzzy_outcome.
  destruct (List.find (service.full_match req) records) as [cand|]; [reflexivity|].
  destruct (List.find (service.date_match req) records) as [cand|]; reflexivity.
Qed.

Lemma resolve_outcome s req c r :
  result_of (service.resolve s req c) = Ok r ->
  well_formed r /\ json.coerce (service.MatchType r) = service.MatchType r.
Proof.
  rewrite resolve_eq. unfold fuzzy_run.
  destruct (negb (String.eqb (service.NIK req) "")).
  - destruct (store.GetByNIK (service.store s) (service.NIK req)) as [[record|]|err];
      simpl; intros H; try discriminate.
    + injection H as <-. split; [apply well_formed_exact|reflexivity].
    + destruct (store.GetByFuzzyMatch _ _ _ _) as [records|err]; simpl in H;
        [|discriminate].
      injection H as <-. split; [apply well_formed_fuzzy|apply coerce_fuzzy_MatchType].
  - destruct (store.GetByFuzzyMatch _ _ _ _) as [records|err]; simpl; intros H;
      [|discriminate].
    injection H as <-. split; [apply well_formed_fuzzy|apply coerce_fuzzy_MatchType].
Qed.

(** The first element of a list that passes a test. *)
Lemma find_first {A} (p : A -> bool) (before : list A) (x : A) (after : list A) :
  (forall y, In y before -> p y = false) -> p x = true ->
  List.find p (before ++ x :: after) = Some x.
Proof.
  intros Hb Hx. induction before as [|y before IH]; simpl.
  - rewrite Hx. reflexivity.
  - rewrite (Hb y (or_introl eq_refl)). apply IH.
    intros z Hz. apply Hb. right. exact Hz.
Qed.

Lemma find_none {A} (p : A -> bool) (l : list A) :
  List.find p l = None <-> (forall y, In y l -> p y = false).
Proof.
  induction l as [|x l IH]; simpl.
  - split; [intros _ y []|reflexivity].
  - destruct (p x) eqn:Hx.
    + split; [discriminate|]. intros H. rewrite (H x (or_introl eq_refl)) in Hx.
      discriminate.
    + rewrite IH. split.
      * intros H y [<-|Hy]; [exact Hx|apply H; exact Hy].
      * intros H y Hy. apply H. right. exact Hy.
Qed.

(** * Examples

    The calendar, the JSON codec and the four scenarios of the
    specification, evaluated. *)

Example format_zero : time.Format_2006_01_02 time.zero = "0001-01-01".
Proof. reflexivity. Qed.

Example format_1990 : time.Format_2006_01_02 Scenario.date_1990_01_01 = "1990-01-01".
Proof. reflexivity. Qed.

Example format_leap_day :
  time.Format_2006_01_02 (time.mkTime (730178 * 86400 + 86399) 0 0) = "2000-02-29".
Proof. reflexivity. Qed.

Example format_in_location :
  time.Format_2006_01_02 (time.mkTime (719162 * 86400 - 1) 0 3600) = "1970-01-01" /\
  time.Format_2006_01_02 (time.mkTime (719162 * 86400 - 1) 0 0) = "1969-12-31".
Proof. split; reflexivity. Qed.

Example equal_ignores_location :
  time.Equal (time.mkTime 62766748800 0 0) (time.mkTime 62766748800 0 25200) = true.
Proof. reflexivity. Qed.

Example appendString_escapes :
  json.appendString_body ("a<b" +:+ String (Bytes.of_Z 10) (String (Bytes.of_Z 1) "")) =
  "a" +:+ String json.backslash "u003cb" +:+ String json.backslash "n" +:+
  String json.backslash "u0001".
Proof. reflexivity. Qed.

Example parse_nested :
  json.parse (" { " +:+ json.appendString "a" +:+ " : [1, -2.5e+10, true, null, {}, []] } ") =
  Some (json.Object [("a", json.Array [json.Number; json.Number; json.Bool true;
                                        json.Null; json.Object []; json.Array []])]).
Proof. reflexivity. Qed.

Example parse_rejects :
  json.parse "01" = None /\ json.parse "[1,]" = None /\ json.parse "{}x" = None /\
  json.parse "nul" = None.
Proof. repeat split; reflexivity. Qed.

Example Unmarshal_folds_names :
  service.Unmarshal ("{" +:+ json.appendString "blacklisted" +:+ ":true," +:+
                     json.appendString "DETAILS" +:+ ":" +:+ json.appendString "x" +:+ "," +:+
                     json.appendString "other" +:+ ":[1,2]}") =
  Ok (service.mkResult true "x" "").
Proof. reflexivity. Qed.

Example Unmarshal_null : service.Unmarshal "null" = Ok service.zero.
Proof. reflexivity. Qed.

Example Unmarshal_type_error :
  service.Unmarshal ("{" +:+ json.appendString "Blacklisted" +:+ ":1}") =
  Err (errors_New "json: cannot unmarshal value into Go struct field").
Proof. reflexivity. Qed.

Example nik_regex :
  api.nikRegex_MatchString "1234567890123456" = true /\
  api.nikRegex_MatchString "123456789012345" = false /\
  api.nikRegex_MatchString "12345678901234567" = false /\
  api.nikRegex_MatchString "123456789012345a" = false /\
  api.nikRegex_MatchString ("1234567890123456" +:+ String (Bytes.of_Z 10) "") = false.
Proof. repeat split; reflexivity. Qed.

(** Scenario 1: a NIK the store knows. *)
Example scenario_1 :
  service.CheckBlacklist (Scenario.svc []) Scenario.by_nik Scenario.empty_cache =
  (Ok (service.mkResult true "court order" "exact_nik"),
   snd (redis.Set_ Scenario.empty_cache "blacklist:nik:1234567890123456"
          (payload_of (service.mkResult true "court order" "exact_nik")) (24 * time.Hour)),
   [RedisGet "blacklist:nik:1234567890123456";
    StoreGetByNIK "1234567890123456";
    LogInfo "Found blacklist record by NIK";
    RedisSet "blacklist:nik:1234567890123456"
      (payload_of (service.mkResult true "court order" "exact_nik")) 86400000000000]).
Proof. reflexivity. Qed.

(** Scenario 2: one candidate with the birth place and the birth date. *)
Example scenario_2 :
  result_of (service.CheckBlacklist (Scenario.svc [Scenario.court_order])
               Scenario.by_name Scenario.empty_cache) =
  Ok (service.mkResult true "court order" "fuzzy_full_match").
Proof. reflexivity. Qed.

(** Scenario 3: the only candidate has another birth place. *)
Example scenario_3 :
  result_of (service.CheckBlacklist (Scenario.svc [Scenario.fraud])
               Scenario.by_name Scenario.empty_cache) =
  Ok (service.mkResult true "fraud" "fuzzy_date_match").
Proof. reflexivity. Qed.

(** Scenario 4: no candidate; the outcome is cached all the same. *)
Example scenario_4 :
  result_of (service.CheckBlacklist (Scenario.svc []) Scenario.by_name
               Scenario.empty_cache) =
    Ok (service.mkResult false "" "no_match") /\
  cache_lookup (client_of (service.CheckBlacklist (Scenario.svc []) Scenario.by_name
                             Scenario.empty_cache))
               "blacklist:name:John Doe:Jakarta:1990-01-01" =
    Some (service.mkResult false "" "no_match").
Proof. split; reflexivity. Qed.

(** The handler on a request it accepts. *)
Example handler_accepts :
  result_of (api.CheckBlacklist (api.mkHandler (Scenario.svc [Scenario.court_order]))
               (Ok (api.mkCheckRequest "John Doe" None (Some "Jakarta")
                      (Some Scenario.date_1990_01_01)))
               Scenario.empty_cache) =
  Ok (api.mkResponse 200 "application/json"
        ("{" +:+ json.appendString "blacklisted" +:+ ":true," +:+
         json.appendString "details" +:+ ":" +:+ json.appendString "court order" +:+ "," +:+
         json.appendString "match_type" +:+ ":" +:+ json.appendString "fuzzy_full_match" +:+
         "}" +:+ String (Bytes.of_Z 10) "")).
Proof. vm_compute. reflexivity. Qed.

(** * Properties of the specification *)

(** C1. For every request with a non-empty NIK that the store resolves to a
    record, the decision is blacklisted, with the reason of the record and
    the match type exact_nik, and the fuzzy search is not called, whatever
    candidates it would return. [CheckBlacklist] returns that decision, with
    no call to the fuzzy search, in every run in which the store is asked
    for the NIK, which are the runs the cache does not answer. *)
Theorem C1_exact_tier_wins (s : service.BlacklistService) (req : service.CheckRequest)
    (record : store.BlacklistRecord) (c : redis.Client) :
  service.NIK req <> "" ->
  store.GetByNIK (service.store s) (service.NIK req) = Ok (Some record) ->
  (result_of (service.resolve s req c) =
     Ok (service.mkResult true (store.Reason record) "exact_nik") /\
   none_of is_fuzzy_call (events_of (service.resolve s req c))) /\
  (In (StoreGetByNIK (service.NIK req)) (events_of (service.CheckBlacklist s req c)) ->
   result_of (service.CheckBlacklist s req c) =
     Ok (service.mkResult true (store.Reason record) "exact_nik") /\
   none_of is_fuzzy_call (events_of (service.CheckBlacklist s req c))) /\
  (cache_lookup c (service.cacheKey req) = None ->
   In (StoreGetByNIK (service.NIK req)) (events_of (service.CheckBlacklist s req c))).
Proof.
  intros Hnik Hget.
  assert (Hres : service.resolve s req c =
                 (Ok (exact record), c,
                  [StoreGetByNIK (service.NIK req);
                   LogInfo "Found blacklist record by NIK"])).
  { rewrite resolve_eq. apply String.eqb_neq in Hnik. rewrite Hnik, Hget.
    reflexivity. }
  split; [rewrite Hres; split; reflexivity|].
  destruct (cache_lookup c (service.cacheKey req)) as [r0|] eqn:Hl.
  - rewrite (CheckBlacklist_hit s req c r0 Hl). split; [|discriminate].
    intros [H|[H|[]]]; discriminate.
  - rewrite (CheckBlacklist_miss s req c Hl), Hres. split.
    + intros _. split; [reflexivity|].
      unfold none_of. simpl. destruct (fst (redis.Set_ c _ _ _)); reflexivity.
    + intros _. simpl. auto.
Qed.

Lemma C1_exact_tier_wins_witness :
  service.NIK Scenario.by_nik <> "" /\
  result_of (service.CheckBlacklist (Scenario.svc [Scenario.fraud; Scenario.court_order])
               Scenario.by_nik Scenario.empty_cache) =
    Ok (service.mkResult true "court order" "exact_nik").
Proof.
  split; [discriminate|].
  apply (proj1 (proj2 (C1_exact_tier_wins
                         (Scenario.svc [Scenario.fraud; Scenario.court_order])
                         Scenario.by_nik Scenario.court_order Scenario.empty_cache
                         ltac:(discriminate) eq_refl))).
  vm_compute. right. left. reflexivity.
Defined.

(** What [CheckBlacklist] returns when the exact tier does not fire, the
    cache does not answer and the fuzzy search gives [records]. *)
Lemma fuzzy_result (s : service.BlacklistService) (req : service.CheckRequest)
    (c : redis.Client) (records : list store.BlacklistRecord) :
  (service.NIK req = "" \/
   store.GetByNIK (service.store s) (service.NIK req) = Ok None) ->
  store.GetByFuzzyMatch (service.store s) (service.Name req)
    (Some (service.BirthPlace req)) (Some (service.BirthDate req)) = Ok records ->
  cache_lookup c (service.cacheKey req) = None ->
  result_of (service.CheckBlacklist s req c) = Ok (fuzzy_outcome req records) /\
  In (StoreGetByFuzzyMatch (service.Name req) (Some (service.BirthPlace req))
        (Some (service.BirthDate req)))
     (events_of (service.CheckBlacklist s req c)).
Proof.
  intros Hexact Hfz Hmiss.
  rewrite (CheckBlacklist_miss s req c Hmiss), resolve_eq. unfold fuzzy_run.
  rewrite Hfz.
  destruct (negb (String.eqb (service.NIK req) "")) eqn:Hn.
  - destruct Hexact as [He|He].
    + rewrite He in Hn. discriminate.
    + rewrite He. split; [reflexivity|]. simpl. auto.
  - split; [reflexivity|]. simpl. auto.
Qed.

(** C2, as the code has it. When the exact tier does not fire, the result
    is fuzzy_full_match with the reason of the first candidate, in the order
    of the list, whose birth place is that of the request and whose birth
    date is the same instant as that of the request ([time.Equal]: the same
    seconds and nanoseconds, whatever the locations); when there is no such
    candidate, it is fuzzy_date_match with the reason of the first candidate
    whose birth date is the same instant as that of the request. *)
Theorem C2_fuzzy_tiers_in_order (s : service.BlacklistService) (req : service.CheckRequest)
    (c : redis.Client) (before : list store.BlacklistRecord)
    (cand : store.BlacklistRecord) (after : list store.BlacklistRecord) :
  (service.NIK req = "" \/
   store.GetByNIK (service.store s) (service.NIK req) = Ok None) ->
  store.GetByFuzzyMatch (service.store s) (service.Name req)
    (Some (service.BirthPlace req)) (Some (service.BirthDate req)) =
    Ok (before ++ cand :: after) ->
  cache_lookup c (service.cacheKey req) = None ->
  ((forall r, In r before ->
      String.eqb (store.BirthPlace r) (service.BirthPlace req) &&
      time.Equal (store.BirthDate r) (service.BirthDate req) = false) ->
   String.eqb (store.BirthPlace cand) (service.BirthPlace req) &&
   time.Equal (store.BirthDate cand) (service.BirthDate req) = true ->
   result_of (service.CheckBlacklist s req c) =
     Ok (service.mkResult true (store.Reason cand) "fuzzy_full_match")) /\
  ((forall r, In r (before ++ cand :: after) ->
      String.eqb (store.BirthPlace r) (service.BirthPlace req) &&
      time.Equal (store.BirthDate r) (service.BirthDate req) = false) ->
   (forall r, In r before ->
      time.Equal (store.BirthDate r) (service.BirthDate req) = false) ->
   time.Equal (store.BirthDate cand) (service.BirthDate req) = true ->
   result_of (service.CheckBlacklist s req c) =
     Ok (service.mkResult true (store.Reason cand) "fuzzy_date_match")).
Proof.
  intros Hexact Hfz Hmiss.
  destruct (fuzzy_result s req c _ Hexact Hfz Hmiss) as [Hres _].
  rewrite Hres. unfold fuzzy_outcome. split.
  - intros Hbefore Hcand.
    rewrite (find_first (service.full_match req) before cand after Hbefore Hcand).
    reflexivity.
  - intros Hnone Hbefore Hcand.
    apply (find_none (service.full_match req)) in Hnone. rewrite Hnone.
    rewrite (find_first (service.date_match req) before cand after Hbefore Hcand).
    reflexivity.
Qed.

Lemma C2_fuzzy_tiers_in_order_witness :
  result_of (service.CheckBlacklist
               (Scenario.svc [Scenario.undated; Scenario.fraud; Scenario.court_order])
               Scenario.by_name Scenario.empty_cache) =
    Ok (service.mkResult true "court order" "fuzzy_full_match") /\
  result_of (service.CheckBlacklist
               (Scenario.svc [Scenario.undated; Scenario.fraud; Scenario.garbled])
               (service.mkRequest "John Doe" "" "Medan" Scenario.date_1990_01_01)
               Scenario.empty_cache) =
    Ok (service.mkResult true "fraud" "fuzzy_date_match").
Proof.
  split.
  - apply (C2_fuzzy_tiers_in_order
             (Scenario.svc [Scenario.undated; Scenario.fraud; Scenario.court_order])
             Scenario.by_name Scenario.empty_cache
             [Scenario.undated; Scenario.fraud] Scenario.court_order []);
      [left; reflexivity|reflexivity|reflexivity| |reflexivity].
    intros r [<-|[<-|[]]]; reflexivity.
  - apply (C2_fuzzy_tiers_in_order
             (Scenario.svc [Scenario.undated; Scenario.fraud; Scenario.garbled])
             (service.mkRequest "John Doe" "" "Medan" Scenario.date_1990_01_01)
             Scenario.empty_cache
             [Scenario.undated] Scenario.fraud [Scenario.garbled]);
      [left; reflexivity|reflexivity|reflexivity| | |reflexivity].
    + intros r [<-|[<-|[<-|[]]]]; reflexivity.
    + intros r [<-|[]]; reflexivity.
Defined.

(** C2, as the specification states it, fails: equality of birth dates is
    not equality of calendar dates. The body born on 1990-01-01 at midnight
    seven hours east of UTC is accepted by the handler; the candidate has the
    birth place of the request and the same calendar date, at midnight UTC;
    the answer is no_match and not fuzzy_full_match. *)
Lemma C2_counterexample :
  ~ rejected (Ok ScenarioHTTP.born_east_of_utc) /\
  service.NIK (api.serviceReq_of ScenarioHTTP.born_east_of_utc) = "" /\
  store.BirthPlace Scenario.court_order =
    service.BirthPlace (api.serviceReq_of ScenarioHTTP.born_east_of_utc) /\
  calendar_equal (store.BirthDate Scenario.court_order)
    (service.BirthDate (api.serviceReq_of ScenarioHTTP.born_east_of_utc)) = true /\
  time.Date (service.BirthDate (api.serviceReq_of ScenarioHTTP.born_east_of_utc)) =
    (1990, 1, 1) /\
  store.GetByFuzzyMatch (service.store (Scenario.svc [Scenario.court_order])) "John Doe"
    (Some "Jakarta") (Some ScenarioHTTP.date_1990_01_01_east) = Ok [Scenario.court_order] /\
  result_of (service.CheckBlacklist (Scenario.svc [Scenario.court_order])
               (api.serviceReq_of ScenarioHTTP.born_east_of_utc) Scenario.empty_cache) =
    Ok (service.mkResult false "" "no_match") /\
  result_of (service.CheckBlacklist (Scenario.svc [Scenario.court_order])
               (api.serviceReq_of ScenarioHTTP.born_east_of_utc) Scenario.empty_cache) <>
    Ok (service.mkResult true "court order" "fuzzy_full_match").
Proof.
  split.
  { simpl. intros [H|(nik & E & _)]; [vm_compute in H|]; discriminate. }
  split; [reflexivity|]. split; [reflexivity|]. split; [reflexivity|].
  split; [reflexivity|]. split; [reflexivity|]. split; [vm_compute; reflexivity|].
  vm_compute. discriminate.
Qed.

(** C3, as the code has it. A request without NIK and without birth date
    reaches the service with the zero time as its birth date: on a cache miss
    the fuzzy search is called with that date and both tiers run against it.
    The result is no_match exactly when no candidate has the zero time as
    its birth date. *)
Theorem C3_absent_birth_date (s : service.BlacklistService) (body : api.checkRequest)
    (c : redis.Client) (records : list store.BlacklistRecord) :
  api.NIK body = None ->
  api.BirthDate body = None ->
  store.GetByFuzzyMatch (service.store s) (api.Name body)
    (Some (service.BirthPlace (api.serviceReq_of body))) (Some time.zero) = Ok records ->
  cache_lookup c (service.cacheKey (api.serviceReq_of body)) = None ->
  In (StoreGetByFuzzyMatch (api.Name body)
        (Some (service.BirthPlace (api.serviceReq_of body))) (Some time.zero))
     (events_of (service.CheckBlacklist s (api.serviceReq_of body) c)) /\
  result_of (service.CheckBlacklist s (api.serviceReq_of body) c) =
    Ok (fuzzy_outcome (api.serviceReq_of body) records) /\
  (result_of (service.CheckBlacklist s (api.serviceReq_of body) c) =
     Ok (service.mkResult false "" "no_match") <->
   forall r, In r records -> time.Equal (store.BirthDate r) time.zero = false).
Proof.
  intros Hnik Hdate Hfz Hmiss.
  assert (Hreq : service.NIK (api.serviceReq_of body) = "" /\
                 service.BirthDate (api.serviceReq_of body) = time.zero /\
                 service.Name (api.serviceReq_of body) = api.Name body).
  { unfold api.serviceReq_of. rewrite Hnik, Hdate.
    destruct (api.BirthPlace body); repeat split; reflexivity. }
  destruct Hreq as (Hn & Hd & Hname).
  destruct (fuzzy_result s (api.serviceReq_of body) c records) as [Hres Hev].
  - left. exact Hn.
  - rewrite Hname, Hd. exact Hfz.
  - exact Hmiss.
  - rewrite Hname, Hd in Hev. split; [exact Hev|]. split; [exact Hres|].
    rewrite Hres. unfold fuzzy_outcome.
    assert (Hdm : forall r, service.date_match (api.serviceReq_of body) r =
                            time.Equal (store.BirthDate r) time.zero)
      by (intros r; unfold service.date_match; rewrite Hd; reflexivity).
    split.
    + intros H r Hr.
      destruct (List.find (service.full_match (api.serviceReq_of body)) records)
        as [cand|]; [discriminate|].
      destruct (List.find (service.date_match (api.serviceReq_of body)) records)
        as [cand|] eqn:E; [discriminate|].
      rewrite <- Hdm. apply (proj1 (find_none _ records) E r Hr).
    + intros H.
      assert (Hnone : List.find (service.date_match (api.serviceReq_of body)) records = None).
      { apply find_none. intros r Hr. rewrite Hdm. apply H. exact Hr. }
      assert (Hfull : List.find (service.full_match (api.serviceReq_of body)) records = None).
      { apply find_none. intros r Hr. unfold service.full_match.
        fold (service.date_match (api.serviceReq_of body) r).
        rewrite (proj1 (find_none _ records) Hnone r Hr). apply andb_false_r. }
      rewrite Hfull, Hnone. reflexivity.
Qed.

Lemma C3_absent_birth_date_witness :
  api.NIK Scenario.name_only = None /\
  api.BirthDate Scenario.name_only = None /\
  (result_of (service.CheckBlacklist (Scenario.svc [Scenario.fraud; Scenario.court_order])
                (api.serviceReq_of Scenario.name_only) Scenario.empty_cache) =
     Ok (service.mkResult false "" "no_match") <->
   forall r, In r [Scenario.fraud; Scenario.court_order] ->
             time.Equal (store.BirthDate r) time.zero = false).
Proof.
  split; [reflexivity|]. split; [reflexivity|].
  apply (C3_absent_birth_date (Scenario.svc [Scenario.fraud; Scenario.court_order])
           Scenario.name_only Scenario.empty_cache [Scenario.fraud; Scenario.court_order]);
    reflexivity.
Defined.

(** C3, as the specification states it, fails: a request with a name and a
    birth place only, for which the fuzzy search returns a candidate whose
    birth date is the zero time, is answered fuzzy_full_match, and the fuzzy
    search was called. *)
Lemma C3_counterexample :
  api.NIK Scenario.name_and_place = None /\
  api.BirthDate Scenario.name_and_place = None /\
  result_of (service.CheckBlacklist (Scenario.svc [Scenario.fraud; Scenario.undated])
               (api.serviceReq_of Scenario.name_and_place) Scenario.empty_cache) =
    Ok (service.mkResult true "sanctions" "fuzzy_full_match") /\
  ~ none_of is_fuzzy_call
      (events_of (service.CheckBlacklist (Scenario.svc [Scenario.fraud; Scenario.undated])
                    (api.serviceReq_of Scenario.name_and_place) Scenario.empty_cache)).
Proof.
  split; [reflexivity|]. split; [reflexivity|]. split; [reflexivity|].
  unfold none_of. vm_compute. discriminate.
Qed.

(** C4, as the code has it. The key of a request without NIK is the prefix
    blacklist:name: followed by the name, the birth place and the birth date
    as year-month-day, separated by colons; a birth place that is absent is
    written as the empty string and a birth date that is absent as the zero
    time. A request that omits the birth place and one that gives the empty
    string have the same key; so have a request that omits the birth date
    and one that gives the zero time. *)
Theorem C4_cache_key_of_absent_fields (name : string) (bp : option string)
    (bd : option time.Time) :
  service.cacheKey (api.serviceReq_of (api.mkCheckRequest name None None bd)) =
    service.cacheKey (api.serviceReq_of (api.mkCheckRequest name None (Some "") bd)) /\
  service.cacheKey (api.serviceReq_of (api.mkCheckRequest name None bp None)) =
    service.cacheKey (api.serviceReq_of (api.mkCheckRequest name None bp (Some time.zero))) /\
  service.cacheKey (api.serviceReq_of (api.mkCheckRequest name None bp bd)) =
    "blacklist:name:" +:+ name +:+ ":" +:+ default "" bp +:+ ":" +:+
    time.Format_2006_01_02 (default time.zero bd).
Proof.
  repeat split; destruct bp, bd; reflexivity.
Qed.

(** C4, as the specification states it, fails: the body that omits the
    birth place and the body that gives it as the empty string differ and
    have the same key; likewise for the birth date. *)
Lemma C4_counterexample :
  Scenario.name_only <> Scenario.name_and_empty_place /\
  service.cacheKey (api.serviceReq_of Scenario.name_only) =
    service.cacheKey (api.serviceReq_of Scenario.name_and_empty_place) /\
  Scenario.name_only <> Scenario.name_and_zero_date /\
  service.cacheKey (api.serviceReq_of Scenario.name_only) =
    service.cacheKey (api.serviceReq_of Scenario.name_and_zero_date) /\
  service.cacheKey (api.serviceReq_of Scenario.name_only) =
    "blacklist:name:John Doe::0001-01-01".
Proof.
  repeat split; try discriminate; reflexivity.
Qed.

(** The invariants survive the cache. *)
Lemma well_formed_coerced r :
  well_formed r -> json.coerce (service.MatchType r) = service.MatchType r ->
  well_formed (coerced r).
Proof.
  intros (H1 & H2 & H3) Hm. unfold well_formed, coerced. simpl. rewrite Hm.
  repeat split; try tauto.
  intros Hb. rewrite (H2 Hb). reflexivity.
Qed.

Lemma cache_lookup_after_write c key r key' r' :
  cache_lookup (snd (redis.Set_ c key (payload_of r) (24 * time.Hour))) key' = Some r' ->
  cache_lookup c key' = Some r' \/ r' = coerced r.
Proof.
  unfold redis.Set_. destruct (redis.set_err c) as [e|] eqn:Hset; simpl; [auto|].
  unfold cache_lookup, redis.Get. simpl.
  destruct (redis.get_err c); [discriminate|].
  destruct (decide (key = key')) as [<-|Hne].
  - rewrite lookup_insert_eq.
    destruct (redis.now c <? redis.now c + 24 * time.Hour); [|discriminate].
    rewrite Unmarshal_Marshal. intros H. injection H as <-. right. reflexivity.
  - rewrite lookup_insert_ne by exact Hne. auto.
Qed.

(** C5. Every outcome of the decision has the match type no_match exactly
    when it is not blacklisted, has empty details when it is not
    blacklisted, and is blacklisted when its match type is one of exact_nik,
    fuzzy_full_match and fuzzy_date_match. The cache keeps these invariants:
    when every readable entry has them, so has what [CheckBlacklist]
    returns, and so has every entry afterwards. *)
Theorem C5_outcome_invariants (s : service.BlacklistService) (req : service.CheckRequest)
    (c : redis.Client) :
  (forall r, result_of (service.resolve s req c) = Ok r ->
     (service.MatchType r = "no_match" <-> service.Blacklisted r = false) /\
     (service.Blacklisted r = false -> service.Details r = "") /\
     (service.MatchType r = "exact_nik" \/ service.MatchType r = "fuzzy_full_match" \/
      service.MatchType r = "fuzzy_date_match" -> service.Blacklisted r = true)) /\
  (cache_sound c ->
   (forall r, result_of (service.CheckBlacklist s req c) = Ok r -> well_formed r) /\
   cache_sound (client_of (service.CheckBlacklist s req c))).
Proof.
  split.
  - intros r Hr. apply (resolve_outcome s req c r Hr).
  - intros Hsound.
    destruct (cache_lookup c (service.cacheKey req)) as [r0|] eqn:Hl.
    + rewrite (CheckBlacklist_hit s req c r0 Hl). split; [|exact Hsound].
      intros r H. injection H as <-. apply (Hsound _ _ Hl).
    + rewrite (CheckBlacklist_miss s req c Hl).
      pose proof (resolve_client s req c) as Hc.
      pose proof (resolve_outcome s req c) as Ho.
      destruct (service.resolve s req c) as [[[r0|e] c1] ev];
        unfold client_of in Hc; simpl in Hc; subst c1.
      * destruct (Ho r0 eq_refl) as [Hwf Hm]. split.
        -- intros r H. injection H as <-. exact Hwf.
        -- intros key' r' H. simpl in H.
           destruct (cache_lookup_after_write _ _ _ _ _ H) as [H'| ->].
           ++ apply (Hsound _ _ H').
           ++ apply well_formed_coerced; assumption.
      * split; [discriminate|exact Hsound].
Qed.

Lemma empty_cache_sound : cache_sound Scenario.empty_cache.
Proof. intros key r H. discriminate H. Qed.

Lemma C5_outcome_invariants_witness :
  cache_sound Scenario.empty_cache /\
  well_formed (service.mkResult true "court order" "fuzzy_full_match").
Proof.
  split; [exact empty_cache_sound|].
  apply (proj1 (proj2 (C5_outcome_invariants
                         (Scenario.svc [Scenario.fraud; Scenario.court_order])
                         Scenario.by_name Scenario.empty_cache) empty_cache_sound)).
  reflexivity.
Defined.

(** The read of the cache does not look at the write side of the connection. *)
Lemma cache_lookup_with_set_err e c key :
  cache_lookup (with_set_err e c) key = cache_lookup c key.
Proof. reflexivity. Qed.

(** C6. A failure of the cache changes nothing for the caller. A read that
    fails, or that gives a payload that does not decode, is a miss: the
    caller gets what the decision gives. A write that fails is logged and
    the caller gets the outcome of the decision: the result is the one of
    a run whose write succeeds. *)
Theorem C6_cache_failures_are_harmless (s : service.BlacklistService)
    (req : service.CheckRequest) (c : redis.Client) :
  (forall e, redis.get_err c = Some e ->
     result_of (service.CheckBlacklist s req c) = result_of (service.resolve s req c)) /\
  (forall payload e,
     redis.Get c (service.cacheKey req) = Ok payload ->
     service.Unmarshal payload = Err e ->
     result_of (service.CheckBlacklist s req c) = result_of (service.resolve s req c)) /\
  (forall e,
     result_of (service.CheckBlacklist s req (with_set_err (Some e) c)) =
     result_of (service.CheckBlacklist s req (with_set_err None c))) /\
  (forall e r,
     redis.set_err c = Some e ->
     cache_lookup c (service.cacheKey req) = None ->
     result_of (service.resolve s req c) = Ok r ->
     result_of (service.CheckBlacklist s req c) = Ok r /\
     In (LogError "Error caching result") (events_of (service.CheckBlacklist s req c))).
Proof.
  repeat split.
  - intros e He. apply CheckBlacklist_miss_result.
    unfold cache_lookup, redis.Get. rewrite He. reflexivity.
  - intros payload e Hget Hun. apply CheckBlacklist_miss_result.
    unfold cache_lookup. rewrite Hget, Hun. reflexivity.
  - intros e.
    destruct (cache_lookup c (service.cacheKey req)) as [r0|] eqn:Hl.
    + rewrite !(CheckBlacklist_hit s req _ r0) by exact Hl. reflexivity.
    + rewrite !CheckBlacklist_miss_result by exact Hl.
      apply resolve_result_indep.
  - rewrite CheckBlacklist_miss_result by assumption. assumption.
  - rewrite (CheckBlacklist_miss s req c) by assumption.
    pose proof (resolve_client s req c) as Hc.
    destruct (service.resolve s req c) as [[[r0|e0] c1] ev];
      unfold client_of in Hc; simpl in Hc; subst c1; [|discriminate].
    unfold redis.Set_. rewrite H. simpl.
    right. apply in_or_app. right. simpl. auto.
Qed.

Lemma C6_cache_failures_are_harmless_witness :
  redis.get_err Scenario.broken_cache = Some Scenario.connection_refused /\
  result_of (service.CheckBlacklist (Scenario.svc [Scenario.court_order])
               Scenario.by_name Scenario.broken_cache) =
    Ok (service.mkResult true "court order" "fuzzy_full_match").
Proof.
  split; [reflexivity|].
  rewrite (proj1 (C6_cache_failures_are_harmless (Scenario.svc [Scenario.court_order])
                    Scenario.by_name Scenario.broken_cache)
             Scenario.connection_refused eq_refl).
  reflexivity.
Defined.

Lemma wrapError_neq e : forall msg, wrapError msg e <> e.
Proof.
  induction e as [m|m e IH]; intros msg H; [discriminate|].
  injection H as _ H. exact (IH m H).
Qed.

(** C7, as the code has it. An error of a provider reaches the caller
    wrapped: the error returned carries the message of the step that failed
    before the message of the provider's error, and unwraps to the
    provider's error; it is not that error itself. No outcome is returned and
    nothing is written to the cache. *)
Theorem C7_provider_errors_are_wrapped (s : service.BlacklistService)
    (req : service.CheckRequest) (c : redis.Client) (e : error) :
  cache_lookup c (service.cacheKey req) = None ->
  (service.NIK req <> "" ->
   store.GetByNIK (service.store s) (service.NIK req) = Err e ->
   result_of (service.CheckBlacklist s req c) = Err (Errorf_w "error checking NIK: " e) /\
   client_of (service.CheckBlacklist s req c) = c /\
   none_of is_cache_write (events_of (service.CheckBlacklist s req c))) /\
  ((service.NIK req = "" \/
    store.GetByNIK (service.store s) (service.NIK req) = Ok None) ->
   store.GetByFuzzyMatch (service.store s) (service.Name req)
     (Some (service.BirthPlace req)) (Some (service.BirthDate req)) = Err e ->
   result_of (service.CheckBlacklist s req c) =
     Err (Errorf_w "error searching by fuzzy match: " e) /\
   client_of (service.CheckBlacklist s req c) = c /\
   none_of is_cache_write (events_of (service.CheckBlacklist s req c))) /\
  (forall prefix,
     Unwrap (Errorf_w prefix e) = Some e /\
     Error (Errorf_w prefix e) = prefix +:+ Error e /\
     Errorf_w prefix e <> e).
Proof.
  intros Hmiss. rewrite (CheckBlacklist_miss s req c Hmiss), resolve_eq.
  unfold fuzzy_run. repeat split.
  - apply String.eqb_neq in H. rewrite H, H0. reflexivity.
  - apply String.eqb_neq in H. rewrite H, H0. reflexivity.
  - apply String.eqb_neq in H. rewrite H, H0. reflexivity.
  - rewrite H0. destruct (negb (String.eqb (service.NIK req) "")) eqn:Hn;
      [|reflexivity].
    destruct H as [H|H]; [rewrite H in Hn; discriminate|rewrite H; reflexivity].
  - rewrite H0. destruct (negb (String.eqb (service.NIK req) "")) eqn:Hn;
      [|reflexivity].
    destruct H as [H|H]; [rewrite H in Hn; discriminate|rewrite H; reflexivity].
  - rewrite H0. destruct (negb (String.eqb (service.NIK req) "")) eqn:Hn;
      [|reflexivity].
    destruct H as [H|H]; [rewrite H in Hn; discriminate|rewrite H; reflexivity].
  - apply wrapError_neq.
Qed.

Lemma C7_provider_errors_are_wrapped_witness :
  cache_lookup Scenario.empty_cache (service.cacheKey Scenario.by_nik) = None /\
  result_of (service.CheckBlacklist Scenario.svc_down Scenario.by_nik Scenario.empty_cache) =
    Err (wrapError "error checking NIK: connection refused" Scenario.connection_refused).
Proof.
  split; [reflexivity|].
  apply (proj1 (C7_provider_errors_are_wrapped Scenario.svc_down Scenario.by_nik
                  Scenario.empty_cache Scenario.connection_refused eq_refl));
    [discriminate|reflexivity].
Defined.

(** C7, as the specification states it, fails: the error the caller gets
    is not the error of the provider. *)
Lemma C7_counterexample :
  store.GetByNIK Scenario.store_down (service.NIK Scenario.by_nik) =
    Err Scenario.connection_refused /\
  result_of (service.CheckBlacklist Scenario.svc_down Scenario.by_nik Scenario.empty_cache) =
    Err (wrapError "error checking NIK: connection refused" Scenario.connection_refused) /\
  result_of (service.CheckBlacklist Scenario.svc_down Scenario.by_nik Scenario.empty_cache) <>
    Err Scenario.connection_refused.
Proof.
  split; [reflexivity|]. split; [reflexivity|]. discriminate.
Qed.

(** The entry written on a miss is read back, until it expires. *)
Lemma cache_lookup_written c key r d :
  functioning c -> 0 <= d < 24 * time.Hour ->
  cache_lookup (redis.elapse d (snd (redis.Set_ c key (payload_of r) (24 * time.Hour)))) key =
  Some (coerced r).
Proof.
  intros [Hget Hset] Hd. unfold redis.Set_. rewrite Hset. simpl.
  unfold cache_lookup, redis.Get, redis.elapse. simpl. rewrite Hget.
  rewrite lookup_insert_eq.
  replace (redis.now c + d <? redis.now c + 24 * time.Hour) with true
    by (symmetry; apply Z.ltb_lt; lia).
  rewrite Unmarshal_Marshal. reflexivity.
Qed.

Lemma elapse_0 c : redis.elapse 0 c = c.
Proof. destruct c. unfold redis.elapse. simpl. rewrite Z.add_0_r. reflexivity. Qed.

Lemma coerced_valid r :
  utf8.ValidString (service.Details r) = true ->
  json.coerce (service.MatchType r) = service.MatchType r ->
  coerced r = r.
Proof.
  intros Hd Hm. destruct r as [b d m]. unfold coerced. simpl in *.
  rewrite (coerce_ValidString d Hd), Hm. reflexivity.
Qed.

(** C8, as the code has it. With a cache that works, when a first call
    returns an outcome, the same request issued again at once reads the
    cache, logs the hit and calls neither provider; it returns the outcome
    of the first call with its strings coerced to valid UTF-8, which is the
    same outcome whenever the details of the first are valid UTF-8. After a
    first call that missed, the second call hits for 24 hours. *)
Theorem C8_second_call_hits_the_cache (s : service.BlacklistService)
    (req : service.CheckRequest) (c : redis.Client) (r1 : service.CheckResult) :
  functioning c ->
  result_of (service.CheckBlacklist s req c) = Ok r1 ->
  events_of (service.CheckBlacklist s req (client_of (service.CheckBlacklist s req c))) =
    [RedisGet (service.cacheKey req); LogInfo "Cache hit for blacklist check"] /\
  none_of is_exact_call
    (events_of (service.CheckBlacklist s req (client_of (service.CheckBlacklist s req c)))) /\
  none_of is_fuzzy_call
    (events_of (service.CheckBlacklist s req (client_of (service.CheckBlacklist s req c)))) /\
  (result_of (service.CheckBlacklist s req (client_of (service.CheckBlacklist s req c))) = Ok r1 \/
   result_of (service.CheckBlacklist s req (client_of (service.CheckBlacklist s req c))) =
     Ok (coerced r1)) /\
  (utf8.ValidString (service.Details r1) = true ->
   result_of (service.CheckBlacklist s req (client_of (service.CheckBlacklist s req c))) =
     Ok r1) /\
  (forall d, cache_lookup c (service.cacheKey req) = None -> 0 <= d < 24 * time.Hour ->
     events_of (service.CheckBlacklist s req
                  (redis.elapse d (client_of (service.CheckBlacklist s req c)))) =
       [RedisGet (service.cacheKey req); LogInfo "Cache hit for blacklist check"]).
Proof.
  intros Hfun Hfirst.
  destruct (cache_lookup c (service.cacheKey req)) as [r0|] eqn:Hl.
  - rewrite (CheckBlacklist_hit s req c r0 Hl) in *.
    injection Hfirst as <-. unfold client_of. simpl.
    rewrite (CheckBlacklist_hit s req c r0 Hl).
    repeat split; auto. intros d Hd. discriminate.
  - rewrite (CheckBlacklist_miss s req c Hl) in *.
    pose proof (resolve_client s req c) as Hc.
    pose proof (resolve_outcome s req c) as Ho.
    destruct (service.resolve s req c) as [[[r0|e0] c1] ev];
      unfold client_of in Hc; simpl in Hc; subst c1; [|discriminate].
    injection Hfirst as <-. destruct (Ho r0 eq_refl) as [_ Hm].
    unfold client_of. simpl.
    assert (Hhit : forall d, 0 <= d < 24 * time.Hour ->
      service.CheckBlacklist s req
        (redis.elapse d (snd (redis.Set_ c (service.cacheKey req) (payload_of r0)
                                (24 * time.Hour)))) =
      (Ok (coerced r0),
       redis.elapse d (snd (redis.Set_ c (service.cacheKey req) (payload_of r0)
                              (24 * time.Hour))),
       [RedisGet (service.cacheKey req); LogInfo "Cache hit for blacklist check"])).
    { intros d Hd. apply CheckBlacklist_hit. apply cache_lookup_written; assumption. }
    assert (H24 : 0 <= 0 < 24 * time.Hour) by (vm_compute; split; congruence).
    pose proof (Hhit 0 H24) as H0. rewrite elapse_0 in H0. rewrite H0.
    repeat split; auto.
    + intros Hv. simpl. rewrite (coerced_valid r0 Hv Hm). reflexivity.
    + intros d _ Hd. rewrite (Hhit d Hd). reflexivity.
Qed.

Lemma C8_second_call_hits_the_cache_witness :
  functioning Scenario.empty_cache /\
  events_of (service.CheckBlacklist (Scenario.svc [Scenario.court_order]) Scenario.by_name
               (client_of (service.CheckBlacklist (Scenario.svc [Scenario.court_order])
                             Scenario.by_name Scenario.empty_cache))) =
    [RedisGet "blacklist:name:John Doe:Jakarta:1990-01-01";
     LogInfo "Cache hit for blacklist check"].
Proof.
  split; [split; reflexivity|].
  apply (proj1 (C8_second_call_hits_the_cache (Scenario.svc [Scenario.court_order])
                  Scenario.by_name Scenario.empty_cache
                  (service.mkResult true "court order" "fuzzy_full_match")
                  (conj eq_refl eq_refl) eq_refl)).
Defined.

(** C8, as the specification states it, fails. With a reason that is not
    valid UTF-8 the second call returns other details than the first; and
    when the first call fails on the provider, nothing is cached and the
    second call asks the provider again. *)
Lemma C8_counterexample :
  functioning Scenario.empty_cache /\
  result_of (service.CheckBlacklist (Scenario.svc [Scenario.garbled]) Scenario.by_name
               Scenario.empty_cache) =
    Ok (service.mkResult true (String (Bytes.of_Z 255) "") "fuzzy_full_match") /\
  result_of (service.CheckBlacklist (Scenario.svc [Scenario.garbled]) Scenario.by_name
               (client_of (service.CheckBlacklist (Scenario.svc [Scenario.garbled])
                             Scenario.by_name Scenario.empty_cache))) =
    Ok (service.mkResult true (utf8.EncodeRune utf8.RuneError) "fuzzy_full_match") /\
  String (Bytes.of_Z 255) "" <> utf8.EncodeRune utf8.RuneError /\
  ~ none_of is_exact_call
      (events_of (service.CheckBlacklist Scenario.svc_down Scenario.by_nik
                    (client_of (service.CheckBlacklist Scenario.svc_down Scenario.by_nik
                                  Scenario.empty_cache)))).
Proof.
  split; [split; reflexivity|].
  split; [vm_compute; reflexivity|].
  split; [vm_compute; reflexivity|].
  split; [vm_compute; discriminate|].
  unfold none_of. vm_compute. discriminate.
Qed.

(** C9, as the code has it. An outcome whose details and match type are
    valid UTF-8 is read back from its payload as it was: the three fields
    are kept. In general the payload gives the outcome with the two strings
    coerced to valid UTF-8. *)
Theorem C9_round_trip (r : service.CheckResult) :
  (exists payload,
     service.Marshal r = Ok payload /\ service.Unmarshal payload = Ok (coerced r)) /\
  (utf8.ValidString (service.Details r) = true ->
   utf8.ValidString (service.MatchType r) = true ->
   exists payload, service.Marshal r = Ok payload /\ service.Unmarshal payload = Ok r).
Proof.
  split.
  - exists (payload_of r). split; [reflexivity|apply Unmarshal_Marshal].
  - intros Hd Hm. exists (payload_of r). split; [reflexivity|].
    rewrite Unmarshal_Marshal. f_equal. apply coerced_valid; [exact Hd|].
    apply coerce_ValidString. exact Hm.
Qed.

Lemma C9_round_trip_witness :
  utf8.ValidString "court order" = true /\
  (forall kind, In kind ["exact_nik"; "fuzzy_full_match"; "fuzzy_date_match"; "no_match"] ->
     exists payload,
       service.Marshal (service.mkResult true "court order" kind) = Ok payload /\
       service.Unmarshal payload = Ok (service.mkResult true "court order" kind)).
Proof.
  split; [reflexivity|].
  intros kind Hk.
  apply (proj2 (C9_round_trip (service.mkResult true "court order" kind)));
    [reflexivity|].
  simpl in Hk. destruct Hk as [<-|[<-|[<-|[<-|[]]]]]; reflexivity.
Defined.

(** C9, as the specification states it, fails: the outcome whose details
    are the byte 255 is read back with the encoding of U+FFFD as details. *)
Lemma C9_counterexample :
  service.Marshal Scenario.garbled_outcome = Ok (payload_of Scenario.garbled_outcome) /\
  service.Unmarshal (payload_of Scenario.garbled_outcome) =
    Ok (service.mkResult true (utf8.EncodeRune utf8.RuneError) "exact_nik") /\
  service.Unmarshal (payload_of Scenario.garbled_outcome) <> Ok Scenario.garbled_outcome.
Proof.
  split; [reflexivity|].
  split; [vm_compute; reflexivity|].
  vm_compute. discriminate.
Qed.




Lemma handler_forwards h req c :
  ~ rejected (Ok req) ->
  api.CheckBlacklist h (Ok req) c =
  (res <- attempt (service.CheckBlacklist (api.service h) (api.serviceReq_of req)) ;;
   api.respond res) c.
Proof.
  simpl. intros Hnot.
  destruct (Bytes.len (api.Name req) <? 3) eqn:Hlen.
  - exfalso. apply Hnot. left. apply Z.ltb_lt. exact Hlen.
  - destruct (api.NIK req) as [nik|]; [|reflexivity].
    destruct (api.nikRegex_MatchString nik) eqn:Hm; [reflexivity|].
    exfalso. apply Hnot. right. exists nik. auto.
Qed.







(** * Further properties of the code *)

Lemma fuzzy_log_not_service req records :
  is_service_event (fuzzy_log req records) = false.
Proof.
  unfold fuzzy_log.
  destruct (List.find (service.full_match req) records); [reflexivity|].
  destruct (List.find (service.date_match req) records); reflexivity.
Qed.

(** X1. Every run of [CheckBlacklist] starts with the read of the cache,
    and its calls to the outside are a subsequence of: the read of the cache,
    the lookup by NIK, the fuzzy search with the birth place and the birth
    date of the request both given, the write of the returned outcome under
    the key of the request for 24 hours. Each happens at most once, in that
    order. *)
Theorem call_discipline (s : service.BlacklistService) (req : service.CheckRequest)
    (c : redis.Client) :
  head (events_of (service.CheckBlacklist s req c)) = Some (RedisGet (service.cacheKey req)) /\
  sublist
    (List.filter is_service_event (events_of (service.CheckBlacklist s req c)))
    [RedisGet (service.cacheKey req);
     StoreGetByNIK (service.NIK req);
     StoreGetByFuzzyMatch (service.Name req) (Some (service.BirthPlace req))
       (Some (service.BirthDate req));
     RedisSet (service.cacheKey req)
       (match result_of (service.CheckBlacklist s req c) with
        | Ok r => payload_of r
        | Err _ => ""
        end) (24 * time.Hour)].
Proof.
  destruct (cache_lookup c (service.cacheKey req)) as [r0|] eqn:Hl.
  - rewrite (CheckBlacklist_hit s req c r0 Hl). split; [reflexivity|].
    simpl. repeat constructor.
  - rewrite (CheckBlacklist_miss s req c Hl), resolve_eq. unfold fuzzy_run.
    destruct (negb (String.eqb (service.NIK req) ""));
      [destruct (store.GetByNIK (service.store s) (service.NIK req)) as [[record|]|err]|];
      try destruct (store.GetByFuzzyMatch _ _ _ _) as [records|err'];
      (split; [reflexivity|]);
      unfold events_of, result_of; cbn [fst snd app List.filter is_service_event];
      rewrite ?fuzzy_log_not_service;
      try match goal with
          | |- context [fst (redis.Set_ ?a ?b ?d ?e)] =>
            destruct (fst (redis.Set_ a b d e))
          end;
      cbn [fst snd app List.filter is_service_event];
      repeat constructor.
Qed.

(** X2. The only errors [CheckBlacklist] returns are those of the two
    providers, met on a cache miss: the error of the lookup by NIK under the
    message error checking NIK, or the error of the fuzzy search, reached
    when there is no NIK or no record for it, under the message error
    searching by fuzzy match. No failure of the cache is ever returned. *)
Theorem errors_are_provider_errors (s : service.BlacklistService)
    (req : service.CheckRequest) (c : redis.Client) (e : error) :
  result_of (service.CheckBlacklist s req c) = Err e ->
  cache_lookup c (service.cacheKey req) = None /\
  ((service.NIK req <> "" /\
    exists e0, store.GetByNIK (service.store s) (service.NIK req) = Err e0 /\
               e = wrapError ("error checking NIK: " +:+ Error e0) e0) \/
   ((service.NIK req = "" \/
     store.GetByNIK (service.store s) (service.NIK req) = Ok None) /\
    exists e0, store.GetByFuzzyMatch (service.store s) (service.Name req)
                 (Some (service.BirthPlace req)) (Some (service.BirthDate req)) = Err e0 /\
               e = wrapError ("error searching by fuzzy match: " +:+ Error e0) e0)).
Proof.
  destruct (cache_lookup c (service.cacheKey req)) as [r0|] eqn:Hl.
  - rewrite (CheckBlacklist_hit s req c r0 Hl). discriminate.
  - rewrite (CheckBlacklist_miss_result s req c Hl), resolve_eq. unfold fuzzy_run.
    intros H. split; [reflexivity|].
    destruct (negb (String.eqb (service.NIK req) "")) eqn:Hn.
    + assert (Hne : service.NIK req <> "").
      { intros E. rewrite E in Hn. discriminate. }
      destruct (store.GetByNIK (service.store s) (service.NIK req)) as [[record|]|err].
      * discriminate.
      * right. split; [right; reflexivity|].
        destruct (store.GetByFuzzyMatch _ _ _ _) as [records|err']; [discriminate|].
        injection H as <-. exists err'. split; reflexivity.
      * left. split; [exact Hne|]. injection H as <-. exists err. split; reflexivity.
    + right. split.
      * left. apply negb_false_iff in Hn. apply String.eqb_eq in Hn. exact Hn.
      * destruct (store.GetByFuzzyMatch _ _ _ _) as [records|err']; [discriminate|].
        injection H as <-. exists err'. split; reflexivity.
Qed.

Lemma errors_are_provider_errors_witness :
  result_of (service.CheckBlacklist Scenario.svc_down Scenario.by_name Scenario.empty_cache) =
    Err (wrapError "error searching by fuzzy match: connection refused"
           Scenario.connection_refused) /\
  cache_lookup Scenario.empty_cache (service.cacheKey Scenario.by_name) = None.
Proof.
  split; [reflexivity|].
  apply (proj1 (errors_are_provider_errors Scenario.svc_down Scenario.by_name
                  Scenario.empty_cache _ eq_refl)).
Defined.

(** X3. A call leaves the clock and the connection of the cache as they
    were and changes no entry but the one of its own key. On a hit, on an
    error and when the write fails nothing changes at all; on a miss with a
    working write the entry of the key holds the payload of the returned
    outcome, be it positive or not, and expires 24 hours later. *)
Theorem only_own_entry_changes (s : service.BlacklistService)
    (req : service.CheckRequest) (c : redis.Client) :
  redis.now (client_of (service.CheckBlacklist s req c)) = redis.now c /\
  redis.get_err (client_of (service.CheckBlacklist s req c)) = redis.get_err c /\
  redis.set_err (client_of (service.CheckBlacklist s req c)) = redis.set_err c /\
  (forall key, key <> service.cacheKey req ->
     redis.data (client_of (service.CheckBlacklist s req c)) !! key = redis.data c !! key) /\
  (forall r, cache_lookup c (service.cacheKey req) = Some r ->
     client_of (service.CheckBlacklist s req c) = c) /\
  (forall e, result_of (service.CheckBlacklist s req c) = Err e ->
     client_of (service.CheckBlacklist s req c) = c) /\
  (forall e, redis.set_err c = Some e ->
     client_of (service.CheckBlacklist s req c) = c) /\
  (forall r, cache_lookup c (service.cacheKey req) = None ->
     redis.set_err c = None ->
     result_of (service.CheckBlacklist s req c) = Ok r ->
     redis.data (client_of (service.CheckBlacklist s req c)) !! service.cacheKey req =
       Some (payload_of r, redis.now c + 24 * time.Hour)).
Proof.
  destruct (cache_lookup c (service.cacheKey req)) as [r0|] eqn:Hl.
  - rewrite (CheckBlacklist_hit s req c r0 Hl). repeat split; try discriminate.
  - rewrite (CheckBlacklist_miss s req c Hl).
    pose proof (resolve_client s req c) as Hc.
    destruct (service.resolve s req c) as [[[r0|e0] c1] ev];
      unfold client_of in Hc; simpl in Hc; subst c1.
    2: { repeat split; try discriminate. }
    unfold client_of, result_of, redis.Set_. simpl.
    destruct (redis.set_err c) as [e|] eqn:Hset; simpl.
    + repeat split; auto; try discriminate.
    + repeat split; try discriminate.
      * intros key Hk. apply lookup_insert_ne. congruence.
      * intros r _ _ H. injection H as <-. apply lookup_insert_eq.
Qed.

(** The cache after a first call that missed and returned an outcome. *)
Lemma client_after_miss s req c r :
  cache_lookup c (service.cacheKey req) = None ->
  result_of (service.CheckBlacklist s req c) = Ok r ->
  client_of (service.CheckBlacklist s req c) =
  snd (redis.Set_ c (service.cacheKey req) (payload_of r) (24 * time.Hour)).
Proof.
  intros Hl. rewrite (CheckBlacklist_miss s req c Hl).
  pose proof (resolve_client s req c) as Hc.
  destruct (service.resolve s req c) as [[[r0|e0] c1] ev];
    unfold client_of in Hc; simpl in Hc; subst c1; [|discriminate].
  intros H. injection H as <-. reflexivity.
Qed.

Lemma cache_lookup_expired c key r d :
  functioning c -> 24 * time.Hour <= d ->
  cache_lookup (redis.elapse d (snd (redis.Set_ c key (payload_of r) (24 * time.Hour)))) key =
  None.
Proof.
  intros [Hget Hset] Hd. unfold redis.Set_. rewrite Hset. simpl.
  unfold cache_lookup, redis.Get, redis.elapse. simpl. rewrite Hget.
  rewrite lookup_insert_eq.
  replace (redis.now c + d <? redis.now c + 24 * time.Hour) with false
    by (symmetry; apply Z.ltb_ge; lia).
  reflexivity.
Qed.

(** A later call whose key is the key of a first call that missed. *)
Lemma later_call_hits s s' req req' c r d :
  functioning c ->
  cache_lookup c (service.cacheKey req) = None ->
  result_of (service.CheckBlacklist s req c) = Ok r ->
  service.cacheKey req' = service.cacheKey req ->
  0 <= d < 24 * time.Hour ->
  service.CheckBlacklist s' req'
    (redis.elapse d (client_of (service.CheckBlacklist s req c))) =
  (Ok (coerced r), redis.elapse d (client_of (service.CheckBlacklist s req c)),
   [RedisGet (service.cacheKey req); LogInfo "Cache hit for blacklist check"]).
Proof.
  intros Hfun Hl Hr Hk Hd.
  rewrite (client_after_miss s req c r Hl Hr).
  rewrite <- Hk at 3. apply CheckBlacklist_hit. rewrite Hk.
  apply cache_lookup_written; assumption.
Qed.

(** X4. With a cache that works, an outcome returned on a miss is served
    for 24 hours whatever the store has become: the same request, asked
    of any store within that time, gets the cached outcome and no provider
    is called. *)
Theorem cached_outcome_masks_the_store (s s' : service.BlacklistService)
    (req : service.CheckRequest) (c : redis.Client) (r : service.CheckResult) (d : Z) :
  functioning c ->
  cache_lookup c (service.cacheKey req) = None ->
  result_of (service.CheckBlacklist s req c) = Ok r ->
  0 <= d < 24 * time.Hour ->
  result_of (service.CheckBlacklist s' req
               (redis.elapse d (client_of (service.CheckBlacklist s req c)))) =
    Ok (coerced r) /\
  none_of is_exact_call
    (events_of (service.CheckBlacklist s' req
                  (redis.elapse d (client_of (service.CheckBlacklist s req c))))) /\
  none_of is_fuzzy_call
    (events_of (service.CheckBlacklist s' req
                  (redis.elapse d (client_of (service.CheckBlacklist s req c))))).
Proof.
  intros Hfun Hl Hr Hd.
  rewrite (later_call_hits s s' req req c r d Hfun Hl Hr eq_refl Hd).
  repeat split.
Qed.

Lemma cached_outcome_masks_the_store_witness :
  functioning Scenario.empty_cache /\
  result_of (service.CheckBlacklist (Scenario.svc [Scenario.court_order]) Scenario.by_name
               (redis.elapse (23 * time.Hour)
                  (client_of (service.CheckBlacklist (Scenario.svc []) Scenario.by_name
                                Scenario.empty_cache)))) =
    Ok (service.mkResult false "" "no_match").
Proof.
  split; [split; reflexivity|].
  apply (proj1 (cached_outcome_masks_the_store (Scenario.svc [])
                  (Scenario.svc [Scenario.court_order]) Scenario.by_name
                  Scenario.empty_cache (service.mkResult false "" "no_match")
                  (23 * time.Hour) (conj eq_refl eq_refl) eq_refl eq_refl
                  ltac:(vm_compute; split; congruence))).
Defined.

(** X5. The entry written on a miss is gone once 24 hours have passed: the
    same request is a miss again and gets the decision of the store of
    that moment. *)
Theorem entry_expires_after_24_hours (s s' : service.BlacklistService)
    (req : service.CheckRequest) (c : redis.Client) (r : service.CheckResult) (d : Z) :
  functioning c ->
  cache_lookup c (service.cacheKey req) = None ->
  result_of (service.CheckBlacklist s req c) = Ok r ->
  24 * time.Hour <= d ->
  cache_lookup (redis.elapse d (client_of (service.CheckBlacklist s req c)))
    (service.cacheKey req) = None /\
  result_of (service.CheckBlacklist s' req
               (redis.elapse d (client_of (service.CheckBlacklist s req c)))) =
    result_of (service.resolve s' req c).
Proof.
  intros Hfun Hl Hr Hd.
  rewrite (client_after_miss s req c r Hl Hr).
  pose proof (cache_lookup_expired c (service.cacheKey req) r d Hfun Hd) as Hexp.
  split; [exact Hexp|].
  rewrite (CheckBlacklist_miss_result s' req _ Hexp).
  apply resolve_result_indep.
Qed.

Lemma entry_expires_after_24_hours_witness :
  functioning Scenario.empty_cache /\
  result_of (service.CheckBlacklist (Scenario.svc [Scenario.court_order]) Scenario.by_name
               (redis.elapse (24 * time.Hour)
                  (client_of (service.CheckBlacklist (Scenario.svc []) Scenario.by_name
                                Scenario.empty_cache)))) =
    Ok (service.mkResult true "court order" "fuzzy_full_match").
Proof.
  split; [split; reflexivity|].
  rewrite (proj2 (entry_expires_after_24_hours (Scenario.svc [])
                  (Scenario.svc [Scenario.court_order]) Scenario.by_name
                  Scenario.empty_cache (service.mkResult false "" "no_match")
                  (24 * time.Hour) (conj eq_refl eq_refl) eq_refl eq_refl
                  ltac:(vm_compute; congruence))).
  reflexivity.
Defined.

(** X6. The key of a request with a NIK is made of the NIK alone: after a
    first call that missed, a request with the same NIK and any other name,
    birth place and birth date is answered from the cache with the outcome of
    the first. *)
Theorem same_nik_shares_the_outcome (s s' : service.BlacklistService)
    (req req' : service.CheckRequest) (c : redis.Client) (r : service.CheckResult) (d : Z) :
  functioning c ->
  service.NIK req <> "" ->
  service.NIK req' = service.NIK req ->
  cache_lookup c (service.cacheKey req) = None ->
  result_of (service.CheckBlacklist s req c) = Ok r ->
  0 <= d < 24 * time.Hour ->
  service.cacheKey req' = "blacklist:nik:" +:+ service.NIK req /\
  service.CheckBlacklist s' req'
    (redis.elapse d (client_of (service.CheckBlacklist s req c))) =
  (Ok (coerced r), redis.elapse d (client_of (service.CheckBlacklist s req c)),
   [RedisGet ("blacklist:nik:" +:+ service.NIK req);
    LogInfo "Cache hit for blacklist check"]).
Proof.
  intros Hfun Hn Hn' Hl Hr Hd.
  assert (Hk : service.cacheKey req = "blacklist:nik:" +:+ service.NIK req).
  { unfold service.cacheKey. apply String.eqb_neq in Hn. rewrite Hn. reflexivity. }
  assert (Hk' : service.cacheKey req' = "blacklist:nik:" +:+ service.NIK req).
  { unfold service.cacheKey. rewrite Hn'. apply String.eqb_neq in Hn. rewrite Hn.
    reflexivity. }
  split; [exact Hk'|].
  rewrite <- Hk.
  apply later_call_hits; try assumption. congruence.
Qed.

Lemma same_nik_shares_the_outcome_witness :
  service.NIK Scenario.by_nik <> "" /\
  result_of (service.CheckBlacklist (Scenario.svc []) ScenarioDB.by_nik_other_name
               (redis.elapse 0
                  (client_of (service.CheckBlacklist (Scenario.svc []) Scenario.by_nik
                                Scenario.empty_cache)))) =
    Ok (service.mkResult true "court order" "exact_nik").
Proof.
  split; [discriminate|].
  rewrite (proj2 (same_nik_shares_the_outcome (Scenario.svc []) (Scenario.svc [])
                    Scenario.by_nik ScenarioDB.by_nik_other_name Scenario.empty_cache
                    (service.mkResult true "court order" "exact_nik") 0
                    (conj eq_refl eq_refl) ltac:(discriminate) eq_refl eq_refl eq_refl
                    ltac:(vm_compute; split; congruence))).
  reflexivity.
Defined.

(** The date of a time depends on its day only. *)
Lemma Format_day t t' : day t = day t' -> time.Format_2006_01_02 t = time.Format_2006_01_02 t'.
Proof.
  unfold day, time.Format_2006_01_02, time.Date. intros ->. reflexivity.
Qed.

(** X7. The key holds the birth date as a day in the location of the
    request, while the fuzzy tiers compare instants. Two requests without
    NIK, with the same name and birth place and birth dates on the same day,
    have the same key, so the second is answered with the outcome of the
    first; yet when the seconds of the two dates differ no candidate has the
    birth date of both. *)
Theorem same_day_shares_the_outcome (s s' : service.BlacklistService)
    (req req' : service.CheckRequest) (c : redis.Client) (r : service.CheckResult) (d : Z) :
  functioning c ->
  service.NIK req = "" -> service.NIK req' = "" ->
  service.Name req' = service.Name req ->
  service.BirthPlace req' = service.BirthPlace req ->
  day (service.BirthDate req') = day (service.BirthDate req) ->
  cache_lookup c (service.cacheKey req) = None ->
  result_of (service.CheckBlacklist s req c) = Ok r ->
  0 <= d < 24 * time.Hour ->
  service.cacheKey req' = service.cacheKey req /\
  result_of (service.CheckBlacklist s' req'
               (redis.elapse d (client_of (service.CheckBlacklist s req c)))) =
    Ok (coerced r) /\
  (forall record,
     time.sec (service.BirthDate req') <> time.sec (service.BirthDate req) ->
     service.date_match req record = true -> service.date_match req' record = false).
Proof.
  intros Hfun Hn Hn' Hname Hplace Hday Hl Hr Hd.
  assert (Hk : service.cacheKey req' = service.cacheKey req).
  { unfold service.cacheKey. rewrite Hn, Hn', Hname, Hplace.
    rewrite (Format_day _ _ Hday). reflexivity. }
  split; [exact Hk|]. split.
  - rewrite (later_call_hits s s' req req' c r d Hfun Hl Hr Hk Hd). reflexivity.
  - intros record Hsec. unfold service.date_match, time.Equal.
    intros H. apply andb_true_iff in H. destruct H as [H1 _].
    apply Z.eqb_eq in H1. apply andb_false_iff. left. apply Z.eqb_neq. lia.
Qed.

Lemma same_day_shares_the_outcome_witness :
  day (service.BirthDate ScenarioDB.by_name_later) = day (service.BirthDate Scenario.by_name) /\
  result_of (service.resolve (Scenario.svc [Scenario.court_order]) ScenarioDB.by_name_later
               Scenario.empty_cache) = Ok (service.mkResult false "" "no_match") /\
  result_of (service.CheckBlacklist (Scenario.svc [Scenario.court_order])
               ScenarioDB.by_name_later
               (redis.elapse 0
                  (client_of (service.CheckBlacklist (Scenario.svc [Scenario.court_order])
                                Scenario.by_name Scenario.empty_cache)))) =
    Ok (service.mkResult true "court order" "fuzzy_full_match").
Proof.
  split; [reflexivity|]. split; [reflexivity|].
  rewrite (proj1 (proj2 (same_day_shares_the_outcome
                    (Scenario.svc [Scenario.court_order]) (Scenario.svc [Scenario.court_order])
                    Scenario.by_name ScenarioDB.by_name_later Scenario.empty_cache
                    (service.mkResult true "court order" "fuzzy_full_match") 0
                    (conj eq_refl eq_refl) eq_refl eq_refl eq_refl eq_refl eq_refl
                    eq_refl eq_refl
                    ltac:(vm_compute; split; congruence)))).
  reflexivity.
Defined.

Lemma sapp_inv_head p x y : p +:+ x = p +:+ y -> x = y.
Proof.
  induction p as [|c p IH]; [rewrite !sapp_nil_l; auto|].
  rewrite !sapp_cons. intros H. injection H as H. auto.
Qed.

(** Two strings without colon followed by a colon: the first colon splits. *)
Lemma split_at_colon a a' r r' :
  has_colon a = false -> has_colon a' = false ->
  a +:+ String ":" r = a' +:+ String ":" r' -> a = a' /\ r = r'.
Proof.
  revert a'. induction a as [|c a IH]; intros a' Ha Ha' H.
  - destruct a' as [|c' a'].
    + rewrite !sapp_nil_l in H. injection H as ->. auto.
    + rewrite sapp_nil_l, sapp_cons in H. injection H as <- _.
      simpl in Ha'. discriminate.
  - destruct a' as [|c' a'].
    + rewrite sapp_nil_l, sapp_cons in H. injection H as -> _.
      simpl in Ha. discriminate.
    + rewrite !sapp_cons in H. injection H as -> H.
      simpl in Ha, Ha'. apply orb_false_iff in Ha, Ha'.
      destruct (IH a' (proj2 Ha) (proj2 Ha') H) as [-> ->]. auto.
Qed.

(** X8. Requests with the same key have the same NIK. Requests without
    NIK whose names and birth places hold no colon and that have the same key
    have the same name, the same birth place and the same birth day as
    written in the key. *)
Theorem cache_key_injective (req req' : service.CheckRequest) :
  service.cacheKey req = service.cacheKey req' ->
  service.NIK req = service.NIK req' /\
  (service.NIK req = "" ->
   has_colon (service.Name req) = false -> has_colon (service.Name req') = false ->
   has_colon (service.BirthPlace req) = false ->
   has_colon (service.BirthPlace req') = false ->
   service.Name req = service.Name req' /\
   service.BirthPlace req = service.BirthPlace req' /\
   time.Format_2006_01_02 (service.BirthDate req) =
     time.Format_2006_01_02 (service.BirthDate req')).
Proof.
  unfold service.cacheKey.
  destruct (String.eqb (service.NIK req) "") eqn:Hn;
    destruct (String.eqb (service.NIK req') "") eqn:Hn'; simpl negb; cbv iota; intros H.
  - apply String.eqb_eq in Hn, Hn'. split; [congruence|].
    intros _ Ha Ha' Hp Hp'.
    apply sapp_inv_head in H.
    change (":" +:+ ?x) with (String ":" x) in H.
    destruct (split_at_colon _ _ _ _ Ha Ha' H) as [Hname H2].
    change (":" +:+ time.Format_2006_01_02 (service.BirthDate req))
      with (String ":" (time.Format_2006_01_02 (service.BirthDate req))) in H2.
    change (":" +:+ time.Format_2006_01_02 (service.BirthDate req'))
      with (String ":" (time.Format_2006_01_02 (service.BirthDate req'))) in H2.
    destruct (split_at_colon _ _ _ _ Hp Hp' H2) as [Hplace Hdate]. auto.
  - exfalso.
    change ("blacklist:name:" +:+ ?x) with ("blacklist:n" +:+ String "a" ("me:" +:+ x)) in H.
    change ("blacklist:nik:" +:+ ?x) with ("blacklist:n" +:+ String "i" ("k:" +:+ x)) in H.
    apply sapp_inv_head in H. discriminate.
  - exfalso.
    change ("blacklist:name:" +:+ ?x) with ("blacklist:n" +:+ String "a" ("me:" +:+ x)) in H.
    change ("blacklist:nik:" +:+ ?x) with ("blacklist:n" +:+ String "i" ("k:" +:+ x)) in H.
    apply sapp_inv_head in H. discriminate.
  - apply sapp_inv_head in H. split; [exact H|].
    intros E. rewrite E in Hn. discriminate.
Qed.

Lemma cache_key_injective_witness :
  service.cacheKey Scenario.by_name = service.cacheKey ScenarioDB.by_name_later /\
  service.Name Scenario.by_name = service.Name ScenarioDB.by_name_later /\
  time.Format_2006_01_02 (service.BirthDate Scenario.by_name) =
    time.Format_2006_01_02 (service.BirthDate ScenarioDB.by_name_later).
Proof.
  split; [reflexivity|].
  destruct (proj2 (cache_key_injective Scenario.by_name ScenarioDB.by_name_later eq_refl)
              eq_refl eq_refl eq_refl eq_refl eq_refl) as (H1 & _ & H3).
  split; [exact H1|exact H3].
Defined.

(** X9. The parts of the key are not escaped: the request named a:b born
    in c and the request named a born in b:c are different requests with the
    same key, for all strings a, b and c. *)
Theorem colon_shifts_the_fields (a b c : string) (date : time.Time) :
  service.cacheKey (service.mkRequest (a +:+ ":" +:+ b) "" c date) =
    service.cacheKey (service.mkRequest a "" (b +:+ ":" +:+ c) date) /\
  service.mkRequest (a +:+ ":" +:+ b) "" c date <>
    service.mkRequest a "" (b +:+ ":" +:+ c) date.
Proof.
  split.
  - unfold service.cacheKey. simpl. rewrite !sapp_assoc. reflexivity.
  - intros H. injection H as H _.
    apply (f_equal String.length) in H. rewrite !slength_app in H. simpl in H. lia.
Qed.

(** X10. A blacklisted outcome of the decision comes from a record: the
    record the store holds for the NIK of the request, or a candidate of the
    fuzzy search whose birth date is the one of the request and whose reason
    is the details; with fuzzy_full_match the birth place of the candidate
    is that of the request, with fuzzy_date_match no candidate has both. *)
Theorem positive_outcome_has_a_record (s : service.BlacklistService)
    (req : service.CheckRequest) (c : redis.Client) (r : service.CheckResult) :
  result_of (service.resolve s req c) = Ok r ->
  service.Blacklisted r = true ->
  (service.NIK req <> "" /\
   exists record, store.GetByNIK (service.store s) (service.NIK req) = Ok (Some record) /\
                  r = service.mkResult true (store.Reason record) "exact_nik") \/
  (exists records record,
     store.GetByFuzzyMatch (service.store s) (service.Name req)
       (Some (service.BirthPlace req)) (Some (service.BirthDate req)) = Ok records /\
     In record records /\
     time.Equal (store.BirthDate record) (service.BirthDate req) = true /\
     service.Details r = store.Reason record /\
     (service.MatchType r = "fuzzy_full_match" /\
      store.BirthPlace record = service.BirthPlace req \/
      service.MatchType r = "fuzzy_date_match" /\
      forall r', In r' records ->
        store.BirthPlace r' = service.BirthPlace req ->
        time.Equal (store.BirthDate r') (service.BirthDate req) = false)).
Proof.
  assert (Hfz : forall records,
    service.Blacklisted (fuzzy_outcome req records) = true ->
    exists record, In record records /\
      time.Equal (store.BirthDate record) (service.BirthDate req) = true /\
      service.Details (fuzzy_outcome req records) = store.Reason record /\
      (service.MatchType (fuzzy_outcome req records) = "fuzzy_full_match" /\
       store.BirthPlace record = service.BirthPlace req \/
       service.MatchType (fuzzy_outcome req records) = "fuzzy_date_match" /\
       forall r', In r' records ->
         store.BirthPlace r' = service.BirthPlace req ->
         time.Equal (store.BirthDate r') (service.BirthDate req) = false)).
  { intros records. unfold fuzzy_outcome.
    destruct (List.find (service.full_match req) records) as [cand|] eqn:Ef.
    - intros _. exists cand. apply find_some in Ef. destruct Ef as [Hin Hm].
      unfold service.full_match in Hm. apply andb_true_iff in Hm.
      destruct Hm as [Hp Hd]. apply String.eqb_eq in Hp.
      repeat split; auto.
    - destruct (List.find (service.date_match req) records) as [cand|] eqn:Ed.
      + intros _. exists cand. apply find_some in Ed. destruct Ed as [Hin Hm].
        repeat split; auto. right. split; [reflexivity|].
        intros r' Hr' Hp.
        pose proof (proj1 (find_none (service.full_match req) records) Ef r' Hr') as Hno.
        unfold service.full_match in Hno. rewrite Hp, String.eqb_refl in Hno.
        exact Hno.
      + discriminate. }
  rewrite resolve_eq. unfold fuzzy_run.
  destruct (negb (String.eqb (service.NIK req) "")) eqn:Hn.
  - destruct (store.GetByNIK (service.store s) (service.NIK req)) as [[record|]|err];
      simpl; intros H Hb; try discriminate.
    + left. split; [intros E; rewrite E in Hn; discriminate|].
      injection H as <-. exists record. auto.
    + right. destruct (store.GetByFuzzyMatch _ _ _ _) as [records|err]; [|discriminate].
      injection H as <-. destruct (Hfz records Hb) as (record & H).
      exists records, record. tauto.
  - intros H Hb. right.
    destruct (store.GetByFuzzyMatch _ _ _ _) as [records|err]; [|discriminate].
    injection H as <-. destruct (Hfz records Hb) as (record & H).
    exists records, record. tauto.
Qed.

Lemma positive_outcome_has_a_record_witness :
  service.Blacklisted (service.mkResult true "fraud" "fuzzy_date_match") = true /\
  result_of (service.resolve (Scenario.svc [Scenario.undated; Scenario.fraud])
               Scenario.by_name Scenario.empty_cache) =
    Ok (service.mkResult true "fraud" "fuzzy_date_match").
Proof.
  split; [reflexivity|].
  destruct (positive_outcome_has_a_record (Scenario.svc [Scenario.undated; Scenario.fraud])
              Scenario.by_name Scenario.empty_cache
              (service.mkResult true "fraud" "fuzzy_date_match") eq_refl eq_refl);
    reflexivity.
Defined.

(** X11. When the exact tier does not fire and the fuzzy search answers,
    the decision is no_match exactly when no candidate of the search has the
    birth date of the request; in particular when there is no candidate. *)
Theorem no_match_means_no_candidate_of_that_date (s : service.BlacklistService)
    (req : service.CheckRequest) (c : redis.Client) (records : list store.BlacklistRecord) :
  (service.NIK req = "" \/
   store.GetByNIK (service.store s) (service.NIK req) = Ok None) ->
  store.GetByFuzzyMatch (service.store s) (service.Name req)
    (Some (service.BirthPlace req)) (Some (service.BirthDate req)) = Ok records ->
  (result_of (service.resolve s req c) = Ok (service.mkResult false "" "no_match") <->
   forall record, In record records ->
     time.Equal (store.BirthDate record) (service.BirthDate req) = false) /\
  (records = [] ->
   result_of (service.resolve s req c) = Ok (service.mkResult false "" "no_match")).
Proof.
  intros Hexact Hfz.
  assert (Hres : result_of (service.resolve s req c) = Ok (fuzzy_outcome req records)).
  { rewrite resolve_eq. unfold fuzzy_run. rewrite Hfz.
    destruct (negb (String.eqb (service.NIK req) "")) eqn:Hn; [|reflexivity].
    destruct Hexact as [E|E]; [rewrite E in Hn; discriminate|rewrite E; reflexivity]. }
  rewrite Hres. split; [|intros ->; reflexivity].
  unfold fuzzy_outcome. split.
  - intros H record Hin.
    destruct (List.find (service.full_match req) records); [discriminate|].
    destruct (List.find (service.date_match req) records) eqn:Ed; [discriminate|].
    apply (proj1 (find_none (service.date_match req) records) Ed record Hin).
  - intros H.
    assert (Hd : List.find (service.date_match req) records = None)
      by (apply find_none; exact H).
    assert (Hf : List.find (service.full_match req) records = None).
    { apply find_none. intros record Hin. unfold service.full_match.
      rewrite (H record Hin). apply andb_false_r. }
    rewrite Hf, Hd. reflexivity.
Qed.

Lemma no_match_means_no_candidate_of_that_date_witness :
  service.NIK Scenario.by_name = "" /\
  result_of (service.resolve (Scenario.svc [Scenario.undated]) Scenario.by_name
               Scenario.empty_cache) = Ok (service.mkResult false "" "no_match").
Proof.
  split; [reflexivity|].
  apply (proj1 (no_match_means_no_candidate_of_that_date (Scenario.svc [Scenario.undated])
                  Scenario.by_name Scenario.empty_cache [Scenario.undated]
                  (or_introl eq_refl) eq_refl)).
  intros record [<-|[]]. reflexivity.
Defined.

Lemma find_decisive (p : string * time.Time * string -> bool)
    (l l' : list store.BlacklistRecord) :
  map decisive l = map decisive l' ->
  option_map decisive (List.find (fun r => p (decisive r)) l) =
  option_map decisive (List.find (fun r => p (decisive r)) l').
Proof.
  revert l'. induction l as [|x l IH]; intros [|x' l'] H; try discriminate; [reflexivity|].
  cbn [map] in H.
  assert (Hx : decisive x = decisive x') by (apply (f_equal (hd (decisive x))) in H; exact H).
  assert (Hl : map decisive l = map decisive l') by (apply (f_equal (@tl _)) in H; exact H).
  cbn [List.find]. rewrite Hx.
  destruct (p (decisive x')); [cbn [option_map]; rewrite Hx; reflexivity|].
  apply IH. exact Hl.
Qed.

(** X12. The fuzzy tiers read nothing of a candidate but its birth place,
    its birth date and its reason, and nothing of the request but its birth
    place and its birth date: two searches whose candidates agree on these
    three fields, in order, give the same decision, whatever the names, the
    NIKs and the similarity scores. *)
Theorem fuzzy_tiers_ignore_names_and_scores (s s' : service.BlacklistService)
    (req req' : service.CheckRequest) (c c' : redis.Client)
    (records records' : list store.BlacklistRecord) :
  service.NIK req = "" -> service.NIK req' = "" ->
  service.BirthPlace req' = service.BirthPlace req ->
  service.BirthDate req' = service.BirthDate req ->
  store.GetByFuzzyMatch (service.store s) (service.Name req)
    (Some (service.BirthPlace req)) (Some (service.BirthDate req)) = Ok records ->
  store.GetByFuzzyMatch (service.store s') (service.Name req')
    (Some (service.BirthPlace req')) (Some (service.BirthDate req')) = Ok records' ->
  map decisive records = map decisive records' ->
  result_of (service.resolve s req c) = result_of (service.resolve s' req' c').
Proof.
  intros Hn Hn' Hp Hd Hfz Hfz' Hmap.
  rewrite !resolve_eq. unfold fuzzy_run. rewrite Hn, Hn', Hfz, Hfz'.
  unfold result_of. cbn [negb String.eqb fst]. f_equal. unfold fuzzy_outcome.
  assert (Hfull : option_map decisive (List.find (service.full_match req) records) =
                  option_map decisive (List.find (service.full_match req) records'))
    by exact (find_decisive
                (fun x => String.eqb (fst (fst x)) (service.BirthPlace req) &&
                          time.Equal (snd (fst x)) (service.BirthDate req)) _ _ Hmap).
  assert (Hdate : option_map decisive (List.find (service.date_match req) records) =
                  option_map decisive (List.find (service.date_match req) records'))
    by exact (find_decisive
                (fun x => time.Equal (snd (fst x)) (service.BirthDate req)) _ _ Hmap).
  assert (E1 : service.full_match req' = service.full_match req).
  { unfold service.full_match. rewrite Hp, Hd. reflexivity. }
  assert (E2 : service.date_match req' = service.date_match req).
  { unfold service.date_match. rewrite Hd. reflexivity. }
  rewrite E1, E2.
  destruct (List.find (service.full_match req) records) as [x|] eqn:F1;
    destruct (List.find (service.full_match req) records') as [x'|] eqn:F2;
    cbn in Hfull; try discriminate.
  - assert (Hr : store.Reason x = store.Reason x') by (unfold decisive in Hfull; congruence).
    unfold fuzzy_full. rewrite Hr. reflexivity.
  - destruct (List.find (service.date_match req) records) as [y|] eqn:D1;
      destruct (List.find (service.date_match req) records') as [y'|] eqn:D2;
      cbn in Hdate; try discriminate; [|reflexivity].
    assert (Hr : store.Reason y = store.Reason y') by (unfold decisive in Hdate; congruence).
    unfold fuzzy_date. rewrite Hr. reflexivity.
Qed.

Lemma fuzzy_tiers_ignore_names_and_scores_witness :
  map decisive [Scenario.court_order] =
    map decisive [store.mkRecord 7 "3333333333333333" "Completely Different" "Jakarta"
                    Scenario.date_1990_01_01 "court order" time.zero time.zero
                    (QArith_base.Qmake 1 100)] /\
  result_of (service.resolve (Scenario.svc [Scenario.court_order]) Scenario.by_name
               Scenario.empty_cache) =
  result_of (service.resolve
               (Scenario.svc [store.mkRecord 7 "3333333333333333" "Completely Different"
                                "Jakarta" Scenario.date_1990_01_01 "court order"
                                time.zero time.zero (QArith_base.Qmake 1 100)])
               (service.mkRequest "Jane Roe" "" "Jakarta" Scenario.date_1990_01_01)
               Scenario.broken_cache).
Proof.
  split; [reflexivity|].
  apply (fuzzy_tiers_ignore_names_and_scores
           (Scenario.svc [Scenario.court_order])
           (Scenario.svc [store.mkRecord 7 "3333333333333333" "Completely Different"
                            "Jakarta" Scenario.date_1990_01_01 "court order"
                            time.zero time.zero (QArith_base.Qmake 1 100)])
           Scenario.by_name
           (service.mkRequest "Jane Roe" "" "Jakarta" Scenario.date_1990_01_01)
           Scenario.empty_cache Scenario.broken_cache
           [Scenario.court_order]
           [store.mkRecord 7 "3333333333333333" "Completely Different" "Jakarta"
              Scenario.date_1990_01_01 "court order" time.zero time.zero
              (QArith_base.Qmake 1 100)]); reflexivity.
Defined.

Lemma error_eqb_eq e1 e2 : error_eqb e1 e2 = true <-> e1 = e2.
Proof.
  revert e2. induction e1 as [m1|m1 e1 IH]; intros [m2|m2 e2]; simpl;
    try (split; discriminate).
  - rewrite String.eqb_eq. split; congruence.
  - rewrite andb_true_iff, String.eqb_eq, IH. split; [intros [-> ->]; reflexivity|].
    intros H. injection H as -> ->. auto.
Qed.

(** X13. Over the store of the database, a NIK without row is no error:
    [GetByNIK] turns [sql.ErrNoRows] into no record and the decision goes on
    to the fuzzy search. Any other error of the database fails the decision
    with that error wrapped, and a row gives exact_nik with its reason. *)
Theorem unknown_nik_is_not_an_error (db : sqlx.DB) (req : service.CheckRequest)
    (c : redis.Client) :
  service.NIK req <> "" ->
  (sqlx.GetContext db (sqlx.SelectByNIK (service.NIK req)) = Err sql.ErrNoRows ->
   store.GetByNIK (NewBlacklistStore db) (service.NIK req) = Ok None /\
   forall records,
     sqlx.SelectContext db
       (sqlx.SelectFull (service.Name req) (service.BirthDate req) (service.BirthPlace req)
          blacklistStore.minSimilarity) = Ok records ->
     result_of (service.resolve (NewBlacklistService (NewBlacklistStore db)) req c) =
       Ok (fuzzy_outcome req records)) /\
  (forall e,
     sqlx.GetContext db (sqlx.SelectByNIK (service.NIK req)) = Err e ->
     e <> sql.ErrNoRows ->
     store.GetByNIK (NewBlacklistStore db) (service.NIK req) = Err e /\
     service.resolve (NewBlacklistService (NewBlacklistStore db)) req c =
       (Err (wrapError ("error checking NIK: " +:+ Error e) e), c,
        [StoreGetByNIK (service.NIK req)])) /\
  (forall record,
     sqlx.GetContext db (sqlx.SelectByNIK (service.NIK req)) = Ok record ->
     result_of (service.resolve (NewBlacklistService (NewBlacklistStore db)) req c) =
       Ok (service.mkResult true (store.Reason record) "exact_nik")).
Proof.
  intros Hn. apply String.eqb_neq in Hn.
  repeat split.
  - simpl. unfold blacklistStore.GetByNIK. rewrite H. reflexivity.
  - intros records Hsel. rewrite resolve_eq. rewrite Hn. simpl.
    unfold blacklistStore.GetByNIK. rewrite H. simpl.
    unfold fuzzy_run. simpl. unfold blacklistStore.GetByFuzzyMatch. rewrite Hsel.
    reflexivity.
  - simpl. unfold blacklistStore.GetByNIK. rewrite H.
    destruct (error_eqb e sql.ErrNoRows) eqn:E; [|reflexivity].
    apply error_eqb_eq in E. contradiction.
  - rewrite resolve_eq. rewrite Hn. simpl.
    unfold blacklistStore.GetByNIK. rewrite H.
    destruct (error_eqb e sql.ErrNoRows) eqn:E; [|reflexivity].
    apply error_eqb_eq in E. contradiction.
  - intros record Hget. rewrite resolve_eq. rewrite Hn. simpl.
    unfold blacklistStore.GetByNIK. rewrite Hget. reflexivity.
Qed.

Lemma unknown_nik_is_not_an_error_witness :
  service.NIK ScenarioDB.unknown_nik <> "" /\
  result_of (service.resolve
               (NewBlacklistService
                  (NewBlacklistStore (ScenarioDB.db_of [Scenario.fraud] [])))
               ScenarioDB.unknown_nik Scenario.empty_cache) =
    Ok (service.mkResult true "fraud" "fuzzy_date_match").
Proof.
  split; [discriminate|].
  apply (proj2 (proj1 (unknown_nik_is_not_an_error
                         (ScenarioDB.db_of [Scenario.fraud] [])
                         ScenarioDB.unknown_nik Scenario.empty_cache
                         ltac:(discriminate)) eq_refl) [Scenario.fraud] eq_refl).
Defined.

(** X14. Of the statements of the store, [CheckBlacklist] runs two: the
    lookup by NIK and the search with both the birth date and the birth
    place. Two databases that answer these two alike give the same run: the
    searches by date only, by place only and by name only are never
    reached. *)
Theorem service_runs_two_statements (db db' : sqlx.DB) (req : service.CheckRequest)
    (c : redis.Client) :
  sqlx.GetContext db (sqlx.SelectByNIK (service.NIK req)) =
    sqlx.GetContext db' (sqlx.SelectByNIK (service.NIK req)) ->
  sqlx.SelectContext db
    (sqlx.SelectFull (service.Name req) (service.BirthDate req) (service.BirthPlace req)
       blacklistStore.minSimilarity) =
  sqlx.SelectContext db'
    (sqlx.SelectFull (service.Name req) (service.BirthDate req) (service.BirthPlace req)
       blacklistStore.minSimilarity) ->
  service.CheckBlacklist (NewBlacklistService (NewBlacklistStore db)) req c =
  service.CheckBlacklist (NewBlacklistService (NewBlacklistStore db')) req c.
Proof.
  intros Hget Hsel.
  assert (Hres : service.resolve (NewBlacklistService (NewBlacklistStore db)) req c =
                 service.resolve (NewBlacklistService (NewBlacklistStore db')) req c).
  { rewrite !resolve_eq. unfold fuzzy_run. simpl.
    unfold blacklistStore.GetByNIK, blacklistStore.GetByFuzzyMatch.
    rewrite Hget, Hsel. reflexivity. }
  destruct (cache_lookup c (service.cacheKey req)) as [r0|] eqn:Hl.
  - rewrite !(CheckBlacklist_hit _ req c r0 Hl). reflexivity.
  - rewrite !(CheckBlacklist_miss _ req c Hl), Hres. reflexivity.
Qed.

Lemma service_runs_two_statements_witness :
  service.CheckBlacklist
    (NewBlacklistService (NewBlacklistStore (ScenarioDB.db_of [Scenario.fraud] [])))
    Scenario.by_name Scenario.empty_cache =
  service.CheckBlacklist
    (NewBlacklistService
       (NewBlacklistStore (ScenarioDB.db_of [Scenario.fraud] [Scenario.court_order])))
    Scenario.by_name Scenario.empty_cache.
Proof.
  apply (service_runs_two_statements (ScenarioDB.db_of [Scenario.fraud] [])
           (ScenarioDB.db_of [Scenario.fraud] [Scenario.court_order])
           Scenario.by_name Scenario.empty_cache); reflexivity.
Defined.

Lemma fuzzy_log_not_metric req records : is_metric (fuzzy_log req records) = false.
Proof.
  unfold fuzzy_log.
  destruct (List.find (service.full_match req) records); [reflexivity|].
  destruct (List.find (service.date_match req) records); reflexivity.
Qed.

(** The service records no metric. *)
Lemma service_no_metric s req c :
  List.filter is_metric (events_of (service.CheckBlacklist s req c)) = [].
Proof.
  destruct (cache_lookup c (service.cacheKey req)) as [r0|] eqn:Hl.
  - rewrite (CheckBlacklist_hit s req c r0 Hl). reflexivity.
  - rewrite (CheckBlacklist_miss s req c Hl), resolve_eq. unfold fuzzy_run.
    destruct (negb (String.eqb (service.NIK req) ""));
      [destruct (store.GetByNIK (service.store s) (service.NIK req)) as [[record|]|err]|];
      try destruct (store.GetByFuzzyMatch _ _ _ _) as [records|err'];
      unfold events_of; cbn [fst snd app List.filter is_metric];
      rewrite ?fuzzy_log_not_metric;
      try match goal with
          | |- context [fst (redis.Set_ ?a ?b ?d ?e)] =>
            destruct (fst (redis.Set_ a b d e))
          end;
      reflexivity.
Qed.

Lemma filter_metric_app (l1 l2 : list Event) :
  List.filter is_metric (l1 ++ l2) = List.filter is_metric l1 ++ List.filter is_metric l2.
Proof. apply List.filter_app. Qed.

(** X15. For a request the handler accepts, the answer follows the
    service: an outcome gives 200 with the outcome as JSON and one metric,
    labelled with the match type and the flag; an error gives 500 with a
    fixed text and no metric. The handler does nothing to the cache beyond
    what the service does. *)
Theorem answer_follows_the_service (h : api.Handler) (req : api.checkRequest)
    (c : redis.Client) :
  ~ rejected (Ok req) ->
  (forall r,
     result_of (service.CheckBlacklist (api.service h) (api.serviceReq_of req) c) = Ok r ->
     result_of (api.CheckBlacklist h (Ok req) c) =
       Ok (api.mkResponse 200 "application/json"
             (api.Encode (api.mkCheckResponse (service.Blacklisted r) (service.Details r)
                            (service.MatchType r)))) /\
     List.filter is_metric (events_of (api.CheckBlacklist h (Ok req) c)) =
       [MetricInc (service.MatchType r) (if service.Blacklisted r then "true" else "false")]) /\
  (forall e,
     result_of (service.CheckBlacklist (api.service h) (api.serviceReq_of req) c) = Err e ->
     result_of (api.CheckBlacklist h (Ok req) c) =
       Ok (api.http_Error "Internal server error" 500) /\
     List.filter is_metric (events_of (api.CheckBlacklist h (Ok req) c)) = []) /\
  client_of (api.CheckBlacklist h (Ok req) c) =
    client_of (service.CheckBlacklist (api.service h) (api.serviceReq_of req) c).
Proof.
  intros Hnot. rewrite (handler_forwards h req c Hnot).
  pose proof (service_no_metric (api.service h) (api.serviceReq_of req) c) as Hm.
  unfold bind, attempt.
  destruct (service.CheckBlacklist (api.service h) (api.serviceReq_of req) c)
    as [[[r0|e0] c1] ev]; unfold events_of in Hm; simpl in Hm.
  - split; [|split; [discriminate|reflexivity]].
    intros r H. injection H as <-. split; [reflexivity|].
    unfold events_of. simpl. rewrite filter_metric_app, Hm. reflexivity.
  - split; [discriminate|]. split; [|reflexivity].
    intros e _. split; [reflexivity|].
    unfold events_of. simpl. rewrite filter_metric_app, Hm. reflexivity.
Qed.

Lemma answer_follows_the_service_witness :
  ~ rejected (Ok (api.mkCheckRequest "John Doe" (Some "1234567890123456") None None)) /\
  result_of (api.CheckBlacklist (wire ScenarioDB.db_down)
               (Ok (api.mkCheckRequest "John Doe" (Some "1234567890123456") None None))
               Scenario.empty_cache) =
    Ok (api.http_Error "Internal server error" 500).
Proof.
  assert (Hnot : ~ rejected (Ok (api.mkCheckRequest "John Doe" (Some "1234567890123456")
                                   None None))).
  { simpl. intros [H|(nik & E & H)]; [vm_compute in H; discriminate|].
    injection E as <-. vm_compute in H. discriminate. }
  split; [exact Hnot|].
  apply (proj1 (proj2 (answer_follows_the_service (wire ScenarioDB.db_down)
                         (api.mkCheckRequest "John Doe" (Some "1234567890123456") None None)
                         Scenario.empty_cache Hnot))
           (wrapError "error checking NIK: driver: bad connection" ScenarioDB.bad_connection)).
  reflexivity.
Defined.

(** X16. The handler always answers, with 200, 400 or 500. An answer
    other than 200 is plain text, one of four fixed messages: nothing of the
    request or of the error of the service is in it; and no metric is
    recorded for it. *)
Theorem error_answers_are_fixed_texts (h : api.Handler) (decoded : Result api.checkRequest)
    (c : redis.Client) :
  exists resp,
    result_of (api.CheckBlacklist h decoded c) = Ok resp /\
    (api.status resp = 200 \/ api.status resp = 400 \/ api.status resp = 500) /\
    (api.status resp <> 200 ->
     In (api.body resp) error_bodies /\
     api.contentType resp = "text/plain; charset=utf-8" /\
     List.filter is_metric (events_of (api.CheckBlacklist h decoded c)) = []).
Proof.
  assert (Hrej : rejected decoded ->
    exists resp,
      result_of (api.CheckBlacklist h decoded c) = Ok resp /\
      (api.status resp = 200 \/ api.status resp = 400 \/ api.status resp = 500) /\
      (api.status resp <> 200 ->
       In (api.body resp) error_bodies /\
       api.contentType resp = "text/plain; charset=utf-8" /\
       List.filter is_metric (events_of (api.CheckBlacklist h decoded c)) = [])).
  { destruct decoded as [req|e]; simpl.
    - intros Hr. destruct (Bytes.len (api.Name req) <? 3) eqn:Hlen.
      + eexists. split; [reflexivity|]. split; [right; left; reflexivity|].
        intros _. simpl. auto.
      + destruct Hr as [H|(nik & Hnik & Hm)]; [apply Z.ltb_ge in Hlen; lia|].
        rewrite Hnik, Hm. eexists. split; [reflexivity|].
        split; [right; left; reflexivity|]. intros _. simpl. auto.
    - intros _. eexists. split; [reflexivity|]. split; [right; left; reflexivity|].
      intros _. simpl. auto. }
  destruct decoded as [req|e]; [|apply Hrej; exact I].
  destruct (Bytes.len (api.Name req) <? 3) eqn:Hlen.
  { apply Hrej. left. apply Z.ltb_lt. exact Hlen. }
  destruct (match api.NIK req with
            | Some nik => negb (api.nikRegex_MatchString nik)
            | None => false
            end) eqn:Hnik.
  { apply Hrej. right. destruct (api.NIK req) as [nik|]; [|discriminate].
    exists nik. split; [reflexivity|]. apply negb_true_iff. exact Hnik. }
  assert (Hnot : ~ rejected (Ok req)).
  { simpl. intros [H|(nik & E & H)]; [apply Z.ltb_ge in Hlen; lia|].
    rewrite E, H in Hnik. discriminate. }
  rewrite (handler_forwards h req c Hnot).
  pose proof (service_no_metric (api.service h) (api.serviceReq_of req) c) as Hm.
  unfold bind, attempt.
  destruct (service.CheckBlacklist (api.service h) (api.serviceReq_of req) c)
    as [[[r0|e0] c1] ev]; unfold events_of in Hm; simpl in Hm.
  - eexists. split; [reflexivity|]. split; [left; reflexivity|].
    intros H. exfalso. apply H. reflexivity.
  - eexists. split; [reflexivity|]. split; [right; right; reflexivity|].
    intros _. split; [simpl; auto|]. split; [reflexivity|].
    unfold events_of. simpl. rewrite filter_metric_app, Hm. reflexivity.
Qed.

Lemma digits_exactly_length n s : api.digits_exactly n s = true -> String.length s = n.
Proof.
  revert s. induction n as [|n IH]; intros [|c s]; simpl; try discriminate; [reflexivity|].
  intros H. apply andb_true_iff in H. destruct H as [_ H]. rewrite (IH s H). reflexivity.
Qed.

Lemma digits_exactly_no_colon n s : api.digits_exactly n s = true -> has_colon s = false.
Proof.
  revert s. induction n as [|n IH]; intros [|c s]; simpl; try discriminate; [reflexivity|].
  intros H. apply andb_true_iff in H. destruct H as [Hd H]. rewrite (IH s H).
  unfold json.isDigit in Hd. apply andb_true_iff in Hd. destruct Hd as [H1 H2].
  apply Z.leb_le in H1, H2.
  replace (Bytes.val c =? 58) with false by (symmetry; apply Z.eqb_neq; lia).
  reflexivity.
Qed.

(** X17. A request the handler forwards has a name of at least 3 bytes;
    its NIK is non-empty exactly when the body has one, and is then sixteen
    digits, so that the key is the prefix blacklist:nik: and the NIK; without
    NIK the key is made of the name, the birth place and the birth day. *)
Theorem forwarded_request_is_validated (req : api.checkRequest) :
  ~ rejected (Ok req) ->
  3 <= Bytes.len (service.Name (api.serviceReq_of req)) /\
  (service.NIK (api.serviceReq_of req) <> "" <-> api.NIK req <> None) /\
  (forall nik, api.NIK req = Some nik ->
     service.NIK (api.serviceReq_of req) = nik /\
     api.digits_exactly 16 nik = true /\
     String.length nik = 16%nat /\
     has_colon nik = false /\
     service.cacheKey (api.serviceReq_of req) = "blacklist:nik:" +:+ nik) /\
  (api.NIK req = None ->
   service.cacheKey (api.serviceReq_of req) =
     "blacklist:name:" +:+ api.Name req +:+ ":" +:+ default "" (api.BirthPlace req) +:+ ":" +:+
     time.Format_2006_01_02 (default time.zero (api.BirthDate req))).
Proof.
  simpl. intros Hnot.
  assert (Hname : service.Name (api.serviceReq_of req) = api.Name req)
    by (unfold api.serviceReq_of; destruct (api.NIK req), (api.BirthPlace req),
          (api.BirthDate req); reflexivity).
  assert (Hlen : 3 <= Bytes.len (api.Name req)).
  { destruct (Z.lt_ge_cases (Bytes.len (api.Name req)) 3); [|assumption].
    exfalso. apply Hnot. left. assumption. }
  assert (Hnik : forall nik, api.NIK req = Some nik ->
            api.nikRegex_MatchString nik = true).
  { intros nik E. destruct (api.nikRegex_MatchString nik) eqn:Hm; [reflexivity|].
    exfalso. apply Hnot. right. exists nik. auto. }
  assert (Hsn : forall nik, api.NIK req = Some nik ->
            service.NIK (api.serviceReq_of req) = nik)
    by (intros nik E; unfold api.serviceReq_of; rewrite E;
        destruct (api.BirthPlace req), (api.BirthDate req); reflexivity).
  rewrite Hname. split; [exact Hlen|]. split; [|split].
  - destruct (api.NIK req) as [nik|] eqn:E.
    + rewrite (Hsn nik eq_refl). split; [discriminate|]. intros _ ->.
      pose proof (Hnik "" eq_refl) as H. discriminate.
    + split; [|intros H; contradiction].
      intros H. exfalso. apply H. unfold api.serviceReq_of. rewrite E.
      destruct (api.BirthPlace req), (api.BirthDate req); reflexivity.
  - intros nik E. pose proof (Hnik nik E) as Hm.
    split; [exact (Hsn nik E)|].
    split; [exact Hm|].
    split; [apply (digits_exactly_length 16 nik Hm)|].
    split; [apply (digits_exactly_no_colon 16 nik Hm)|].
    unfold service.cacheKey. rewrite (Hsn nik E).
    destruct nik as [|ch nik]; [discriminate|]. reflexivity.
  - intros E. unfold api.serviceReq_of, service.cacheKey. rewrite E.
    destruct (api.BirthPlace req), (api.BirthDate req); reflexivity.
Qed.

Lemma forwarded_request_is_validated_witness :
  ~ rejected (Ok (api.mkCheckRequest "John Doe" (Some "1234567890123456") None None)) /\
  service.cacheKey (api.serviceReq_of
                      (api.mkCheckRequest "John Doe" (Some "1234567890123456") None None)) =
    "blacklist:nik:1234567890123456".
Proof.
  assert (Hnot : ~ rejected (Ok (api.mkCheckRequest "John Doe" (Some "1234567890123456")
                                   None None))).
  { simpl. intros [H|(nik & E & H)]; [vm_compute in H; discriminate|].
    injection E as <-. vm_compute in H. discriminate. }
  split; [exact Hnot|].
  apply (proj1 (proj2 (proj2 (forwarded_request_is_validated
                                (api.mkCheckRequest "John Doe" (Some "1234567890123456")
                                   None None) Hnot))) "1234567890123456" eq_refl).
Defined.

Lemma parse_object_fuel data v :
  (4 <= String.length data)%nat ->
  (forall f, json.parse_value (S (S (S (S (S f))))) data = Some (v, String (Bytes.of_Z 10) "")) ->
  json.parse data = Some v.
Proof.
  intros Hl H. unfold json.parse.
  destruct (String.length data) as [|[|[|[|n]]]]; try lia.
  rewrite H. reflexivity.
Qed.

(** X18. The body the handler writes for an outcome is a JSON object
    followed by a newline: it holds blacklisted, then details when the
    details are not empty, then match_type, with the strings as the outcome
    has them up to the coercion to valid UTF-8. *)
Theorem response_body_is_json (r : api.checkResponse) :
  json.parse (api.Encode r) =
  Some (json.Object
          (("blacklisted", json.Bool (api.Blacklisted r)) ::
           (if String.eqb (api.Details r) "" then []
            else [("details", json.Str (json.coerce (api.Details r)))]) ++
           [("match_type", json.Str (json.coerce (api.MatchType r)))])).
Proof.
  destruct r as [b d m]. unfold api.Encode.
  cbn [api.Blacklisted api.Details api.MatchType].
  apply parse_object_fuel.
  - rewrite !slength_app. unfold json.appendString. simpl. lia.
  - intros f. destruct (String.eqb d "").
    + rewrite !(sapp_cons _ ""), !sapp_nil_l.
      unfold json.appendString at 1. rewrite (sapp_cons json.quote).
      rewrite parse_value_brace.
      rewrite <- (sapp_cons json.quote). fold (json.appendString "blacklisted").
      rewrite parse_members_key, parse_value_bool.
      cbn [json.skip_ws].
      change (json.isSpace (Bytes.val ",")) with false. cbv iota.
      change (Bytes.val "," =? 44) with true. cbv iota.
      rewrite parse_members_key, parse_value_string.
      reflexivity.
    + rewrite !sapp_assoc. rewrite !(sapp_cons _ ""), !sapp_nil_l.
      unfold json.appendString at 1. rewrite (sapp_cons json.quote).
      rewrite parse_value_brace.
      rewrite <- (sapp_cons json.quote). fold (json.appendString "blacklisted").
      rewrite parse_members_key, parse_value_bool.
      cbn [json.skip_ws].
      change (json.isSpace (Bytes.val ",")) with false. cbv iota.
      change (Bytes.val "," =? 44) with true. cbv iota.
      rewrite parse_members_key, parse_value_string.
      cbn [json.skip_ws].
      change (json.isSpace (Bytes.val ",")) with false. cbv iota.
      change (Bytes.val "," =? 44) with true. cbv iota.
      rewrite parse_members_key, parse_value_string.
      reflexivity.
Qed.

Lemma store_member_skipped kvs acc :
  (forall kv, In kv kvs -> json.lookup_field service.fields (fst kv) = None) ->
  fold_left service.store_member kvs acc = acc.
Proof.
  revert acc. induction kvs as [|kv kvs IH]; intros acc H; [reflexivity|].
  simpl. rewrite IH by (intros kv' Hin; apply H; right; exact Hin).
  unfold service.store_member. destruct acc as [r bad].
  rewrite (H kv (or_introl eq_refl)). reflexivity.
Qed.

(** X19. Whatever the cache holds under the key is returned when it
    decodes, with no look at the store. The payload null, or an object none
    of whose keys is a field, decodes to the zero outcome, whose match type
    is empty: an outcome no decision produces. *)
Theorem cached_payload_is_not_validated (s : service.BlacklistService)
    (req : service.CheckRequest) (c : redis.Client) (payload : string) :
  redis.Get c (service.cacheKey req) = Ok payload ->
  (forall r, service.Unmarshal payload = Ok r ->
     service.CheckBlacklist s req c =
     (Ok r, c, [RedisGet (service.cacheKey req); LogInfo "Cache hit for blacklist check"])) /\
  (json.parse payload = Some json.Null \/
   (exists kvs, json.parse payload = Some (json.Object kvs) /\
      forall kv, In kv kvs -> json.lookup_field service.fields (fst kv) = None) ->
   service.Unmarshal payload = Ok (service.mkResult false "" "") /\
   ~ well_formed (service.mkResult false "" "")).
Proof.
  intros Hget. split.
  - intros r Hun. apply CheckBlacklist_hit. unfold cache_lookup. rewrite Hget, Hun.
    reflexivity.
  - intros H. split.
    + unfold service.Unmarshal. destruct H as [-> | (kvs & -> & Hk)]; [reflexivity|].
      rewrite (store_member_skipped kvs _ Hk). reflexivity.
    + intros (H1 & _). simpl in H1. destruct H1 as [_ H1].
      specialize (H1 eq_refl). discriminate.
Qed.

Lemma cached_payload_is_not_validated_witness :
  redis.Get (cache_with "blacklist:nik:1234567890123456" "{}" 1)
    (service.cacheKey Scenario.by_nik) = Ok "{}" /\
  service.CheckBlacklist (Scenario.svc []) Scenario.by_nik
    (cache_with "blacklist:nik:1234567890123456" "{}" 1) =
  (Ok (service.mkResult false "" ""),
   cache_with "blacklist:nik:1234567890123456" "{}" 1,
   [RedisGet "blacklist:nik:1234567890123456"; LogInfo "Cache hit for blacklist check"]).
Proof.
  split; [reflexivity|].
  apply (proj1 (cached_payload_is_not_validated (Scenario.svc []) Scenario.by_nik
                  (cache_with "blacklist:nik:1234567890123456" "{}" 1) "{}" eq_refl)).
  reflexivity.
Defined.
